(** * The OTP panel bot: login state machine, credential store and code lookup

    A shallow embedding of [account.py] (the Pyrogram login flow driven
    through [login_states]) and of [bot.py] (the stand-alone bot with
    [user_state] / [temp_clients], [save_account], [cleanup] and
    [fetch_latest_otp]), followed by the properties of the specification
    that concern them.

    Python objects that are shared and mutated (the [Client] objects, the
    dictionaries, the Mongo collection) live in one explicit [world]; the
    Telegram network and the database are an [environment] that answers each
    external call as a function of the whole history of calls made so far. *)

From stdpp Require Import gmap strings list.
From Stdlib Require Import ZArith Ascii DecimalString.

Open Scope Z_scope.

(** ** Python values, exceptions and small helpers *)

(** [str(n)] for an integer. *)
Definition str_Z (z : Z) : string := NilZero.string_of_int (Z.to_int z).

(** [repr(s)] for a string without quotes or escapes. *)
Definition repr_str (s : string) : string := "'" +:+ s +:+ "'".

(** Keys that a failed dictionary lookup reports. *)
Inductive key :=
| KInt (z : Z)
| KStr (s : string).

(** The exceptions the programs meet.  Library exceptions carry the text
    that [str(e)] gives; [BaseError] stands for a [BaseException] that is not
    an [Exception] (a cancellation, say), which [except Exception] lets
    through and a bare [except:] catches. *)
Inductive exn :=
| KeyError (k : key)
| FloodWait (value : Z) (msg : string)
| SessionPasswordNeeded (msg : string)
| Error (msg : string)
| BaseError (msg : string).

Definition str_exn (e : exn) : string :=
  match e with
  | KeyError (KInt z) => str_Z z
  | KeyError (KStr s) => repr_str s
  | FloodWait _ m => m
  | SessionPasswordNeeded m => m
  | Error m => m
  | BaseError m => m
  end.

Definition is_Exception (e : exn) : bool :=
  match e with
  | BaseError _ => false
  | _ => true
  end.

(** Truthiness of an optional string: [None] and [""] are falsy. *)
Definition truthy_str (o : option string) : bool :=
  match o with
  | Some s => negb (String.eqb s "")
  | None => false
  end.

(** [x or default] on an optional string. *)
Definition or_str (o : option string) (default : string) : string :=
  match o with
  | Some s => if String.eqb s "" then default else s
  | None => default
  end.

(** Values stored in a Mongo document. *)
Inductive value :=
| VInt (z : Z)
| VStr (s : string)
| VBool (b : bool)
| VNone
| VTime (t : Z).

Global Instance value_eq_dec : EqDecision value.
Proof. solve_decision. Defined.

(** A document is a Python dict with string keys.  (The [_id] that the
    driver adds on insertion is not modelled; nothing below reads it.) *)
Abbreviation document := (gmap string value).

(** ** Objects and the world *)

(** A [pyrogram.Client] object, by the attributes the code inspects.
    An attribute is [None] when [hasattr] is false, [Some b] with the
    truthiness [b] of its value otherwise. *)
Record Client := mkClient {
  name : string;
  is_connected : option bool;
  session : option bool
}.

(** [hasattr(o, a) and o.a] *)
Definition attr_true (a : option bool) : bool :=
  match a with
  | Some true => true
  | _ => false
  end.

(** [PyrogramClientManager] instance. *)
Record Manager := mkManager {
  m_api_id : Z;
  m_api_hash : string
}.

(** The per-user dict kept in [login_states]; a field is [None] when the
    key is absent. *)
Record state := mkState {
  st_client : option nat;
  st_phone : option string;
  st_phone_code_hash : option string;
  st_step : option string;
  st_manager : option Manager;
  st_country : option string;
  st_api_id : option Z;
  st_api_hash : option string
}.

(** The per-user dict kept in [user_state] of [bot.py]; every site that
    creates one sets ["step"]. *)
Record ustate := mkUstate {
  us_step : string;
  us_phone : option string;
  us_hash : option string
}.

(** External calls, as they appear in the history. *)
Inductive call :=
| Connect (c : nat)
| Disconnect (c : nat)
| SessionStop (c : nat)
| SendCode (c : nat) (phone : string)
| SignIn (c : nat) (phone code hash : string)
| CheckPassword (c : nat) (password : string)
| GetMe (c : nat)
| ExportSessionString (c : nat)
| InsertOne (d : document)
| Reply (text : string).

Global Instance call_eq_dec : EqDecision call.
Proof. solve_decision. Defined.

Record world := mkWorld {
  heap : list Client;             (* Client objects, by identity *)
  login_states : gmap Z state;    (* account.py: login_states *)
  accounts_col : list document;   (* the accounts collection, oldest first *)
  user_state : gmap Z ustate;     (* bot.py: user_state *)
  temp_clients : gmap Z nat;      (* bot.py: temp_clients *)
  trace : list call;              (* external calls made, oldest first *)
  now : Z                         (* the clock reading *)
}.

Definition set_heap (h : list Client) (w : world) : world :=
  mkWorld h (login_states w) (accounts_col w) (user_state w) (temp_clients w) (trace w) (now w).
Definition set_login_states (l : gmap Z state) (w : world) : world :=
  mkWorld (heap w) l (accounts_col w) (user_state w) (temp_clients w) (trace w) (now w).
Definition set_accounts_col (a : list document) (w : world) : world :=
  mkWorld (heap w) (login_states w) a (user_state w) (temp_clients w) (trace w) (now w).
Definition set_user_state (u : gmap Z ustate) (w : world) : world :=
  mkWorld (heap w) (login_states w) (accounts_col w) u (temp_clients w) (trace w) (now w).
Definition set_temp_clients (t : gmap Z nat) (w : world) : world :=
  mkWorld (heap w) (login_states w) (accounts_col w) (user_state w) t (trace w) (now w).
Definition set_trace (t : list call) (w : world) : world :=
  mkWorld (heap w) (login_states w) (accounts_col w) (user_state w) (temp_clients w) t (now w).

(** Result of a computation: a value or a raised exception. *)
Inductive res (A : Type) :=
| Ret (a : A)
| Raise (e : exn).
Arguments Ret {A} a.
Arguments Raise {A} e.

(** The outside world: what each external call answers, given the history
    up to and including that call. *)
Record environment := mkEnv {
  env_unit : list call -> option exn;   (* calls used for their effect *)
  env_str : list call -> res string;    (* send_code (the hash), export_session_string *)
  env_me : list call -> res bool        (* get_me: truthiness of the user returned *)
}.

(** ** The state-and-exception monad *)

Definition M (A : Type) : Type := world -> res A * world.

Definition ret {A} (a : A) : M A := fun w => (Ret a, w).
Definition raise {A} (e : exn) : M A := fun w => (Raise e, w).
Definition bind {A B} (m : M A) (f : A -> M B) : M B :=
  fun w =>
    match m w with
    | (Ret a, w') => f a w'
    | (Raise e, w') => (Raise e, w')
    end.

(** [try: m  except ...: h e]; the handler answers [None] for an exception
    that no clause catches. *)
Definition try_ {A} (m : M A) (h : exn -> option (M A)) : M A :=
  fun w =>
    match m w with
    | (Ret a, w') => (Ret a, w')
    | (Raise e, w') =>
        match h e with
        | Some k => k w'
        | None => (Raise e, w')
        end
    end.

Definition get_world : M world := fun w => (Ret w, w).
Definition modify (f : world -> world) : M unit := fun w => (Ret tt, f w).

Notation "x <- m ;; k" := (bind m (fun x => k))
  (at level 100, m at next level, right associativity).
Notation "m ;;; k" := (bind m (fun _ => k))
  (at level 100, right associativity).

(** [except Exception as e: k e] *)
Definition except_Exception {A} (k : exn -> M A) (e : exn) : option (M A) :=
  if is_Exception e then Some (k e) else None.

(** bare [except: k] *)
Definition except_all {A} (k : M A) (e : exn) : option (M A) := Some k.

(** Dictionary subscription [d[k]], raising [KeyError]. *)
Definition subscript {A} (o : option A) (k : key) : M A :=
  match o with
  | Some a => ret a
  | None => raise (KeyError k)
  end.

(** ** The external operations *)

Section WithEnvironment.

Variable env : environment.

Definition call_unit (c : call) : M unit :=
  fun w =>
    let tr := trace w ++ [c] in
    match env_unit env tr with
    | None => (Ret tt, set_trace tr w)
    | Some e => (Raise e, set_trace tr w)
    end.

Definition call_str (c : call) : M string :=
  fun w => let tr := trace w ++ [c] in (env_str env tr, set_trace tr w).

Definition call_me (c : call) : M bool :=
  fun w => let tr := trace w ++ [c] in (env_me env tr, set_trace tr w).

Definition set_attrs (c : nat) (f : Client -> Client) : M unit :=
  modify (fun w =>
    match heap w !! c with
    | Some o => set_heap (<[c := f o]> (heap w)) w
    | None => w
    end).

(** [Client(...)]: a new object, not connected, with no inner session. *)
Definition new_Client (nm : string) : M nat :=
  fun w => (Ret (length (heap w)),
            set_heap (heap w ++ [mkClient nm (Some false) (Some false)]) w).

(** [client.connect()]: on success the client has a started inner session
    and [is_connected] is true. *)
Definition client_connect (c : nat) : M unit :=
  call_unit (Connect c) ;;;
  set_attrs c (fun o => mkClient (name o) (Some true) (Some true)).

(** [client.disconnect()]: on success [is_connected] is false. *)
Definition client_disconnect (c : nat) : M unit :=
  call_unit (Disconnect c) ;;;
  set_attrs c (fun o => mkClient (name o) (Some false) (session o)).

Definition session_stop (c : nat) : M unit := call_unit (SessionStop c).
Definition client_send_code (c : nat) (phone : string) : M string :=
  call_str (SendCode c phone).
Definition client_sign_in (c : nat) (phone code hash : string) : M unit :=
  call_unit (SignIn c phone code hash).
Definition client_check_password (c : nat) (password : string) : M unit :=
  call_unit (CheckPassword c password).
Definition client_get_me (c : nat) : M bool := call_me (GetMe c).
Definition client_export_session_string (c : nat) : M string :=
  call_str (ExportSessionString c).

(** [accounts_col.insert_one(d)]: on success the document is appended. *)
Definition insert_one (d : document) : M unit :=
  call_unit (InsertOne d) ;;;
  modify (fun w => set_accounts_col (accounts_col w ++ [d]) w).

(** [m.reply(text)] *)
Definition reply (text : string) : M unit := call_unit (Reply text).

(** Attribute reads on a handle. *)
Definition attr_is_connected (w : world) (c : nat) : option bool :=
  o ← heap w !! c; is_connected o.
Definition attr_session (w : world) (c : nat) : option bool :=
  o ← heap w !! c; session o.

(** [hasattr(client, 'is_connected') and client.is_connected] *)
Definition connected (w : world) (c : nat) : bool := attr_true (attr_is_connected w c).

(** ** account.py: PyrogramClientManager *)

(** [safe_disconnect(client)]; the handle may be [None]. *)
Definition safe_disconnect (client : option nat) : M unit :=
  try_
    (match client with
     | None => ret tt
     | Some c =>
         w <- get_world ;;
         if connected w c then
           (if attr_true (attr_session w c)
            then try_ (session_stop c) (except_all (ret tt))
            else ret tt) ;;;
           client_disconnect c
         else ret tt
     end)
    (except_all (ret tt)).

(** [create_client()], called with no session string and no name. *)
Definition create_client (self : Manager) : M nat :=
  w <- get_world ;;
  new_Client ("client_" +:+ str_Z (now w)).

(** [send_code(client, phone_number)] returns [(success, hash, error)]. *)
Definition send_code (client : nat) (phone_number : string)
  : M (bool * option string * option string) :=
  try_
    (w <- get_world ;;
     (if connected w client then safe_disconnect (Some client) else ret tt) ;;;
     client_connect client ;;;
     h <- client_send_code client phone_number ;;
     ret (true, Some h, None))
    (fun e =>
       match e with
       | FloodWait v _ =>
           Some (ret (false, None,
                      Some ("FloodWait: Please wait " +:+ str_Z v +:+ " seconds")))
       | _ => except_Exception (fun e => ret (false, None, Some (str_exn e))) e
       end).

(** [sign_in_with_otp(client, phone_number, phone_code_hash, otp_code)]
    returns [(success, status, error)]. *)
Definition sign_in_with_otp (client : nat) (phone_number phone_code_hash otp_code : string)
  : M (bool * option string * option string) :=
  try_
    (w <- get_world ;;
     (if negb (connected w client) then client_connect client else ret tt) ;;;
     client_sign_in client phone_number otp_code phone_code_hash ;;;
     ret (true, None, None))
    (fun e =>
       match e with
       | SessionPasswordNeeded _ => Some (ret (false, Some "password_required", None))
       | _ => except_Exception (fun e => ret (false, Some "error", Some (str_exn e))) e
       end).

(** [sign_in_with_password(client, password)] returns [(success, error)]. *)
Definition sign_in_with_password (client : nat) (password : string)
  : M (bool * option string) :=
  try_
    (w <- get_world ;;
     (if negb (connected w client) then client_connect client else ret tt) ;;;
     client_check_password client password ;;;
     ret (true, None))
    (except_Exception (fun e => ret (false, Some (str_exn e)))).

(** [get_session_string(client)] returns the credential or [None]. *)
Definition get_session_string (client : nat) : M (option string) :=
  try_
    (w <- get_world ;;
     (if negb (connected w client) then client_connect client else ret tt) ;;;
     try_
       (me <- client_get_me client ;;
        if me
        then s <- client_export_session_string client ;; ret (Some s)
        else ret None)
       (except_Exception (fun _ => ret None)))
    (except_Exception (fun _ => ret None)).

(** ** account.py: the login flow *)

(** [login_states.pop(user_id, None)] *)
Definition pop_login_state (user_id : Z) : M unit :=
  modify (fun w => set_login_states (delete user_id (login_states w)) w).

(** The document both finalizations insert. *)
Definition account_record (country phone session_string : string) (has_2fa : bool)
    (two_step_password : option string) (created_at created_by : Z) : document :=
  list_to_map
    [("country", VStr country);
     ("phone", VStr phone);
     ("session_string", VStr session_string);
     ("has_2fa", VBool has_2fa);
     ("two_step_password", from_option VStr VNone two_step_password);
     ("status", VStr "active");
     ("used", VBool false);
     ("created_at", VTime created_at);
     ("created_by", VInt created_by)].

(** The keys that the phone step writes into the user's dict with
    [update]; the stored hash is the one [send_code] returned. *)
Definition update_state (st : state) (client : nat) (phone_number : string)
    (phone_code_hash : option string) (manager : Manager) (country : string)
    (api_id : Z) (api_hash : string) : state :=
  mkState (Some client) (Some phone_number) phone_code_hash (Some "waiting_otp")
          (Some manager) (Some country) (Some api_id) (Some api_hash).

Definition set_step (step : string) (st : state) : state :=
  mkState (st_client st) (st_phone st) (st_phone_code_hash st) (Some step)
          (st_manager st) (st_country st) (st_api_id st) (st_api_hash st).

Definition pyrogram_login_flow_async (user_id : Z) (phone_number : string)
    (chat_id message_id : Z) (country : string) (api_id : Z) (api_hash : string)
  : M (bool * option string) :=
  try_
    (w <- get_world ;;
     match login_states w !! user_id with
     | None => ret (false, Some "Session expired")
     | Some _ =>
         let manager := mkManager api_id api_hash in
         client <- create_client manager ;;
         r <- send_code client phone_number ;;
         let '(success, phone_code_hash, error) := r in
         if success : bool then
           w <- get_world ;;
           st <- subscript (login_states w !! user_id) (KInt user_id) ;;
           modify (set_login_states
                     (<[user_id := update_state st client phone_number phone_code_hash
                                     manager country api_id api_hash]> (login_states w))) ;;;
           ret (true, Some "OTP sent successfully")
         else
           safe_disconnect (Some client) ;;;
           ret (false, Some (or_str error "Failed to send OTP"))
     end)
    (except_Exception (fun e => ret (false, Some (str_exn e)))).

Definition verify_otp_and_save_async (user_id : Z) (otp_code : string)
  : M (bool * option string) :=
  try_
    (w <- get_world ;;
     match login_states w !! user_id with
     | None => ret (false, Some "Session expired")
     | Some state =>
         client <- subscript (st_client state) (KStr "client") ;;
         manager <- subscript (st_manager state) (KStr "manager") ;;
         phone <- subscript (st_phone state) (KStr "phone") ;;
         phone_code_hash <- subscript (st_phone_code_hash state) (KStr "phone_code_hash") ;;
         r <- sign_in_with_otp client phone phone_code_hash otp_code ;;
         let '(success, status, error) := r in
         if bool_decide (status = Some "password_required") then
           w <- get_world ;;
           st <- subscript (login_states w !! user_id) (KInt user_id) ;;
           modify (set_login_states
                     (<[user_id := set_step "waiting_password" st]> (login_states w))) ;;;
           ret (false, Some "password_required")
         else if negb success then
           safe_disconnect (Some client) ;;;
           pop_login_state user_id ;;;
           ret (false, Some (or_str error "OTP verification failed"))
         else
           session_string <- get_session_string client ;;
           match session_string with
           | Some s =>
               if String.eqb s "" then ret (false, Some "Failed to get session string")
               else
                 country <- subscript (st_country state) (KStr "country") ;;
                 phone <- subscript (st_phone state) (KStr "phone") ;;
                 w <- get_world ;;
                 insert_one (account_record country phone s false None (now w) user_id) ;;;
                 safe_disconnect (Some client) ;;;
                 pop_login_state user_id ;;;
                 ret (true, Some "Account added successfully")
           | None => ret (false, Some "Failed to get session string")
           end
     end)
    (except_Exception (fun e =>
       pop_login_state user_id ;;;
       ret (false, Some (str_exn e)))).

Definition verify_2fa_password_async (user_id : Z) (password : string)
  : M (bool * option string) :=
  try_
    (w <- get_world ;;
     state <- subscript (login_states w !! user_id) (KInt user_id) ;;
     client <- subscript (st_client state) (KStr "client") ;;
     manager <- subscript (st_manager state) (KStr "manager") ;;
     r <- sign_in_with_password client password ;;
     let '(success, error) := r in
     if negb success then ret (false, error)
     else
       session_string <- get_session_string client ;;
       match session_string with
       | Some s =>
           if String.eqb s "" then ret (false, Some "Failed to get session string")
           else
             country <- subscript (st_country state) (KStr "country") ;;
             phone <- subscript (st_phone state) (KStr "phone") ;;
             w <- get_world ;;
             insert_one (account_record country phone s true (Some password) (now w) user_id) ;;;
             safe_disconnect (Some client) ;;;
             pop_login_state user_id ;;;
             ret (true, Some "Account added successfully")
       | None => ret (false, Some "Failed to get session string")
       end)
    (except_Exception (fun e =>
       pop_login_state user_id ;;;
       ret (false, Some (str_exn e)))).

(** ** bot.py: the stand-alone bot *)

Definition nl : string := String (Ascii.ascii_of_nat 10) "".

(** A string is the UTF-8 encoding of the Python text.  White space, as
    [str.strip()] removes it, is the set of characters for which
    [str.isspace()] holds; by the length of their encodings:
    U+0009 to U+000D and U+001C to U+0020 (one byte);
    U+0085 and U+00A0 (two bytes, [C2 85] and [C2 A0]);
    U+1680 ([E1 9A 80]), U+2000 to U+200A, U+2028, U+2029 and U+202F
    ([E2 80 80] to [E2 80 8A], [E2 80 A8], [E2 80 A9], [E2 80 AF]),
    U+205F ([E2 81 9F]) and U+3000 ([E3 80 80]) (three bytes). *)
Definition is_space (a : ascii) : bool :=
  let n := Ascii.nat_of_ascii a in
  ((9 <=? n) && (n <=? 13) || (28 <=? n) && (n <=? 32))%nat.

Definition is_space2 (a b : ascii) : bool :=
  let m := Ascii.nat_of_ascii a in
  let n := Ascii.nat_of_ascii b in
  ((m =? 194) && ((n =? 133) || (n =? 160)))%nat.

Definition is_space3 (a b c : ascii) : bool :=
  let m := Ascii.nat_of_ascii a in
  let n := Ascii.nat_of_ascii b in
  let o := Ascii.nat_of_ascii c in
  ((m =? 225) && (n =? 154) && (o =? 128) ||
   (m =? 226) && (n =? 128) &&
     ((128 <=? o) && (o <=? 138) || (o =? 168) || (o =? 169) || (o =? 175)) ||
   (m =? 226) && (n =? 129) && (o =? 159) ||
   (m =? 227) && (n =? 128) && (o =? 128))%nat.

(** The white space at the head of the bytes [l] removed; [sp2] and [sp3]
    tell the white space of two and of three bytes. *)
Fixpoint lstrip_bytes (sp2 : ascii -> ascii -> bool) (sp3 : ascii -> ascii -> ascii -> bool)
    (l : list ascii) : list ascii :=
  match l with
  | a :: l1 =>
      if is_space a then lstrip_bytes sp2 sp3 l1
      else
        match l1 with
        | b :: l2 =>
            if sp2 a b then lstrip_bytes sp2 sp3 l2
            else
              match l2 with
              | c :: l3 => if sp3 a b c then lstrip_bytes sp2 sp3 l3 else l
              | [] => l
              end
        | [] => l
        end
  | [] => []
  end.

Definition lstrip (l : list ascii) : list ascii := lstrip_bytes is_space2 is_space3 l.

(** The white space at the end: that at the head of the reversed bytes,
    where an encoding reads backwards. *)
Definition rstrip (l : list ascii) : list ascii :=
  rev (lstrip_bytes (fun b a => is_space2 a b) (fun c b a => is_space3 a b c) (rev l)).

Definition strip (s : string) : string :=
  String.string_of_list_ascii (rstrip (lstrip (String.list_ascii_of_string s))).

(** A query document matches when every field it names is present with
    that value (the queries below name no [None] value). *)
Definition matches (query : list (string * value)) (d : document) : bool :=
  forallb (fun kv => bool_decide (d !! kv.1 = Some kv.2)) query.

(** [accounts_col.find_one(query)]: the first matching document. *)
Definition find_one (query : list (string * value)) (col : list document)
  : option document :=
  List.find (matches query) col.

(** The lookup of the [logout_] and [otp_] callbacks. *)
Definition find_account (uid : Z) (phone : string) (w : world) : option document :=
  find_one [("user_id", VInt uid); ("phone", VStr phone)] (accounts_col w).

(** The [add] branch of [callbacks]. *)
Definition callbacks_add (uid : Z) : M unit :=
  modify (fun w => set_user_state (<[uid := mkUstate "phone" None None]> (user_state w)) w) ;;;
  reply ("📱 **Send phone number**" +:+ nl +:+ "Example: +919XXXXXXXXX" +:+ nl +:+ nl +:+
         "⚠️ OTP Telegram app ke service chat me aayega").

Definition bot_record (uid : Z) (phone session : string) (two_step : bool)
    (added_at : Z) : document :=
  list_to_map
    [("user_id", VInt uid);
     ("phone", VStr phone);
     ("session", VStr session);
     ("two_step", VBool two_step);
     ("added_at", VTime added_at)].

Definition save_account (uid : Z) (phone : string) (client : nat) (two_step : bool)
  : M unit :=
  session <- client_export_session_string client ;;
  w <- get_world ;;
  insert_one (bot_record uid phone session two_step (now w)) ;;;
  client_disconnect client.

Definition cleanup (uid : Z) : M unit :=
  modify (fun w => set_user_state (delete uid (user_state w)) w) ;;;
  modify (fun w => set_temp_clients (delete uid (temp_clients w)) w).

Definition set_ustep (step : string) (us : ustate) : ustate :=
  mkUstate step (us_phone us) (us_hash us).

(** [text_handler], for a text [text] that is not the start command, sent
    by user [uid]. *)
Definition text_handler (uid : Z) (text : string) : M unit :=
  w <- get_world ;;
  match user_state w !! uid with
  | None => ret tt
  | Some us =>
      let step := us_step us in
      if String.eqb step "phone" then
        let phone := strip text in
        client <- new_Client ("login_" +:+ str_Z uid) ;;
        client_connect client ;;;
        sent <- try_
                  (h <- client_send_code client phone ;; ret (Some h))
                  (fun e =>
                     match e with
                     | FloodWait v _ =>
                         Some (reply ("⏳ Flood wait: wait " +:+ str_Z v +:+ " seconds") ;;;
                               client_disconnect client ;;;
                               ret None)
                     | _ =>
                         except_Exception
                           (fun e =>
                              reply ("❌ Failed to send OTP" +:+ nl +:+ "`" +:+ str_exn e +:+ "`") ;;;
                              client_disconnect client ;;;
                              ret None) e
                     end) ;;
        match sent with
        | None => ret tt
        | Some phone_code_hash =>
            modify (fun w => set_temp_clients (<[uid := client]> (temp_clients w)) w) ;;;
            modify (fun w => set_user_state
                               (<[uid := mkUstate "otp" (Some phone) (Some phone_code_hash)]>
                                  (user_state w)) w) ;;;
            reply ("📩 **OTP Sent Successfully**" +:+ nl +:+ nl +:+
                   "⚠️ Telegram app me OTP aayega" +:+ nl +:+
                   "📥 Service / Archived chat check karo")
        end
      else if String.eqb step "otp" then
        w <- get_world ;;
        data <- subscript (user_state w !! uid) (KInt uid) ;;
        client <- subscript (temp_clients w !! uid) (KInt uid) ;;
        signed <- try_
                    (phone <- subscript (us_phone data) (KStr "phone") ;;
                     hash <- subscript (us_hash data) (KStr "hash") ;;
                     client_sign_in client phone (strip text) hash ;;;
                     ret (Some false))
                    (fun e =>
                       match e with
                       | SessionPasswordNeeded _ =>
                           Some (w <- get_world ;;
                                 us <- subscript (user_state w !! uid) (KInt uid) ;;
                                 modify (set_user_state
                                           (<[uid := set_ustep "password" us]> (user_state w))) ;;;
                                 reply "🔐 **Send 2-step password**" ;;;
                                 ret None)
                       | _ => None
                       end) ;;
        match signed with
        | None => ret tt
        | Some two_step =>
            phone <- subscript (us_phone data) (KStr "phone") ;;
            save_account uid phone client two_step ;;;
            reply "✅ **Account added successfully**" ;;;
            cleanup uid
        end
      else if String.eqb step "password" then
        w <- get_world ;;
        data <- subscript (user_state w !! uid) (KInt uid) ;;
        client <- subscript (temp_clients w !! uid) (KInt uid) ;;
        client_check_password client (strip text) ;;;
        phone <- subscript (us_phone data) (KStr "phone") ;;
        save_account uid phone client true ;;;
        reply "✅ **Account added successfully**" ;;;
        cleanup uid
      else ret tt
  end.

End WithEnvironment.

(** ** bot.py: fetch_latest_otp *)

(** The pattern [\b\d{5}\b] of the [re] module, over any alphabet: the
    classes [\d] and [\w] come from the Unicode tables of the interpreter
    and are parameters here. *)
Section Regex.

Context {char : Type}.
Variables is_digit is_word : char -> bool.

Definition word_opt (o : option char) : bool :=
  match o with
  | Some c => is_word c
  | None => false
  end.

(** [\b] between the characters [prev] and [next] ([None] at either end
    of the text). *)
Definition boundary (prev next : option char) : bool :=
  xorb (word_opt prev) (word_opt next).

(** [\d{n}] at the head of [s]: the digits matched and what follows. *)
Fixpoint digits (n : nat) (s : list char) : option (list char * list char) :=
  match n with
  | O => Some ([], s)
  | S n' =>
      match s with
      | c :: s' =>
          if is_digit c then
            match digits n' s' with
            | Some (ds, r) => Some (c :: ds, r)
            | None => None
            end
          else None
      | [] => None
      end
  end.

(** The pattern anchored at the head of [s], [prev] being the character
    before it. *)
Definition match_here (prev : option char) (s : list char) : option (list char) :=
  if boundary prev (head s) then
    match digits 5 s with
    | Some (ds, r) => if boundary (last ds) (head r) then Some ds else None
    | None => None
    end
  else None.

(** [re.search]: the match at the leftmost position that has one. *)
Fixpoint search (prev : option char) (s : list char) : option (list char) :=
  match match_here prev s with
  | Some m => Some m
  | None =>
      match s with
      | [] => None
      | c :: s' => search (Some c) s'
      end
  end.

Definition re_search (text : list char) : option (list char) := search None text.

(** A message, by its [text] ([None] for a message without text). *)
Record message := mkMessage { msg_text : option (list char) }.

(** The loop of [fetch_latest_otp] over the messages the iterator yields. *)
Fixpoint first_otp (msgs : list message) : option (list char) :=
  match msgs with
  | [] => None
  | msg :: rest =>
      match msg_text msg with
      | Some (c :: t) =>
          match re_search (c :: t) with
          | Some m => Some m
          | None => first_otp rest
          end
      | _ => first_otp rest
      end
  end.

(** [client.get_chat_history(chat_id, limit=limit)]: the [limit] newest
    messages of the chat, newest first; [history] lists every chat of the
    account newest first. *)
Definition get_chat_history (history : Z -> list message) (chat_id : Z) (limit : nat)
  : list message :=
  take limit (history chat_id).

Definition fetch_latest_otp (history : Z -> list message) : option (list char) :=
  first_otp (get_chat_history history 777000 20).

End Regex.

(** The classes on ASCII characters, where they are those of the
    interpreter: the instance of the runs on ASCII texts below. *)
Definition ascii_digit (a : ascii) : bool :=
  let n := nat_of_ascii a in ((48 <=? n) && (n <=? 57))%nat.
Definition ascii_word (a : ascii) : bool :=
  let n := nat_of_ascii a in
  ((48 <=? n) && (n <=? 57) || (65 <=? n) && (n <=? 90) ||
   (97 <=? n) && (n <=? 122) || (n =? 95))%nat.

Definition text_message (s : string) : @message ascii :=
  mkMessage (Some (String.list_ascii_of_string s)).

(** ** account.py: AsyncManager and the synchronous wrapper *)



(** [AccountManager], by the fields its methods read. *)
Record AccountManager := mkAccountManager {
  am_api_id : Z;
  am_api_hash : string
}.

(** [AccountManager()] with the default arguments. *)
Definition default_AccountManager : AccountManager :=
  mkAccountManager 6435225 "4e984ea35f854762dcde906dce426c2d".





(** ** bot.py: start and callbacks *)

(** An [InlineKeyboardButton], by its label and its [callback_data]. *)
Record button := mkButton { btn_text : string; callback_data : string }.

(** The calls that [start] and [callbacks] make besides the plain replies:
    replies with a keyboard, the queries on the collection, and the calls on
    the client made from a stored session (named by its session name). *)
Inductive panel_call :=
| ReplyMarkup (text : string) (reply_markup : list (list button))
| Find (query : list (string * value))
| FindOne (query : list (string * value))
| DeleteOne (d : document)
| Start (name : string) (session_string : value)
| LogOut (name : string)
| Stop (name : string)
| GetChatHistory (name : string) (chat_id : Z) (limit : nat).

(** The state of the callback handler: the world of the bot and the history
    of the calls above. *)
Record panel := mkPanel { bot : world; panel_calls : list panel_call }.

Definition P (A : Type) : Type := panel -> res A * panel.

Global Instance P_ret : MRet P := λ A a p, (Ret a, p).

Global Instance P_bind : MBind P := λ A B f m p,
  match m p with
  | (Ret a, p') => f a p'
  | (Raise e, p') => (Raise e, p')
  end.

Definition panel_raise {A} (e : exn) : P A := λ p, (Raise e, p).

(** A computation of the bot's world, run inside the handler. *)
Definition lift {A} (m : M A) : P A := λ p,
  let '(r, w) := m (bot p) in (r, mkPanel w (panel_calls p)).

(** The world of the bot, as it is now. *)
Definition get_bot : P world := λ p, (Ret (bot p), p).

(** [try: m except: pass] *)
Definition try_pass (m : P unit) : P unit := λ p, (Ret tt, (m p).2).

(** [d[k]] on a document. *)
Definition doc_get (d : document) (k : string) : P value :=
  match d !! k with
  | Some v => mret v
  | None => panel_raise (KeyError (KStr k))
  end.

(** [l[1]] *)
Definition index_1 (l : list string) : P string :=
  match l !! 1%nat with
  | Some s => mret s
  | None => panel_raise (Error "list index out of range")
  end.

(** [s.split(sep, 1)] for a separator of one character: the text before
    the first [sep] and, when there is one, the text after it. *)
Fixpoint split_first (sep : ascii) (s : string) : string * option string :=
  match s with
  | EmptyString => (EmptyString, None)
  | String a s' =>
      if Ascii.eqb a sep then (EmptyString, Some s')
      else let '(h, t) := split_first sep s' in (String a h, t)
  end.

Definition split_1 (sep : ascii) (s : string) : list string :=
  let '(h, t) := split_first sep s in
  match t with
  | Some t => [h; t]
  | None => [h]
  end.

(** The first document equal to [d] removed: what [delete_one] does with
    the [_id] of a document that [find_one] returned (the [_id] is not
    part of a [document] here; the document found is the first match of the
    query, hence the first of its equals). *)
Fixpoint remove_first (d : document) (col : list document) : list document :=
  match col with
  | [] => []
  | x :: rest => if bool_decide (x = d) then rest else x :: remove_first d rest
  end.

Section Panel.

Context {char : Type}.

(** What the interpreter and the libraries fix: the classes of the
    pattern, the text of a match as a string, and [str] of a timestamp. *)
Variables is_digit is_word : char -> bool.
Variable str_chars : list char -> string.
Variable str_time : Z -> string.

(** What the outside answers to the handler's calls, given their history up
    to and including the call.  For [get_chat_history] the answer is the
    account's chats when the iteration reaches a match or its end, and an
    exception when it stops before. *)
Record panel_environment := mkPanelEnv {
  penv_unit : list panel_call -> option exn;
  penv_history : list panel_call -> res (Z -> list (@message char))
}.

Variable env : environment.
Variable penv : panel_environment.

Definition panel_call_unit (c : panel_call) : P unit := λ p,
  let tr := panel_calls p ++ [c] in
  (match penv_unit penv tr with
   | Some e => Raise e
   | None => Ret tt
   end, mkPanel (bot p) tr).

(** [str(v)], as an f-string formats a stored value. *)
Definition str_value (v : value) : string :=
  match v with
  | VInt z => str_Z z
  | VStr s => s
  | VBool true => "True"
  | VBool false => "False"
  | VNone => "None"
  | VTime t => str_time t
  end.

(** [list(accounts_col.find(query))] *)
Definition find (query : list (string * value)) : P (list document) :=
  panel_call_unit (Find query) ;;
  w ← get_bot;
  mret (List.filter (matches query) (accounts_col w)).

(** [accounts_col.find_one(query)] *)
Definition find_one_call (query : list (string * value)) : P (option document) :=
  panel_call_unit (FindOne query) ;;
  w ← get_bot;
  mret (find_one query (accounts_col w)).

(** [accounts_col.delete_one({"_id": acc["_id"]})] *)
Definition delete_one (acc : document) : P unit :=
  panel_call_unit (DeleteOne acc) ;;
  lift (modify (fun w => set_accounts_col (remove_first acc (accounts_col w)) w)).

(** [q.message.reply(text, reply_markup=InlineKeyboardMarkup(kb))] *)
Definition reply_markup_call (text : string) (kb : list (list button)) : P unit :=
  panel_call_unit (ReplyMarkup text kb).

(** [fetch_latest_otp(client)] on the client named [name]. *)
Definition fetch_latest_otp_call (name : string) : P (option (list char)) := λ p,
  let tr := panel_calls p ++ [GetChatHistory name 777000 20] in
  (match penv_history penv tr with
   | Ret history => Ret (fetch_latest_otp is_digit is_word history)
   | Raise e => Raise e
   end, mkPanel (bot p) tr).

(** [start] *)
Definition start : P unit :=
  let kb := [[mkButton "➕ Add Account" "add"];
             [mkButton "📂 Accounts" "accounts"]] in
  reply_markup_call ("👋 **OTP Panel Bot**" +:+ nl +:+ nl +:+ "Choose option 👇") kb.

(** The rows of the list of accounts. *)
Fixpoint account_buttons (accounts : list document) : P (list (list button)) :=
  match accounts with
  | [] => mret []
  | acc :: rest =>
      label ← doc_get acc "phone";
      data ← doc_get acc "phone";
      rows ← account_buttons rest;
      mret ([mkButton ("📱 " +:+ str_value label) ("open_" +:+ str_value data)] :: rows)
  end.

(** The [accounts] branch of [callbacks]. *)
Definition callbacks_accounts (uid : Z) : P unit :=
  accounts ← find [("user_id", VInt uid)];
  match accounts with
  | [] => lift (reply env "❌ No accounts found")
  | _ =>
      buttons ← account_buttons accounts;
      reply_markup_call
        ("📂 **Total Accounts:** " +:+ str_Z (Z.of_nat (length accounts))) buttons
  end.

(** The [open_] branch, for the phone parsed from the data. *)
Definition callbacks_open (phone : string) : P unit :=
  let kb := [[mkButton "📩 Get OTP" ("otp_" +:+ phone)];
             [mkButton "🚪 Logout" ("logout_" +:+ phone)]] in
  reply_markup_call ("📱 **Account:** `" +:+ phone +:+ "`") kb.

(** The [logout_] branch.  A document found names the fields of the query,
    so it is not empty and [not acc] is false for it. *)
Definition callbacks_logout (uid : Z) (phone : string) : P unit :=
  acc ← find_one_call [("user_id", VInt uid); ("phone", VStr phone)];
  match acc with
  | None => lift (reply env "❌ Account not found")
  | Some acc =>
      session ← doc_get acc "session";
      let client := "logout_session" in
      try_pass (panel_call_unit (Start client session) ;;
                panel_call_unit (LogOut client) ;;
                panel_call_unit (Stop client)) ;;
      delete_one acc ;;
      lift (reply env ("🚪 Logged out `" +:+ phone +:+ "`"))
  end.

(** The [otp_] branch. *)
Definition callbacks_otp (uid : Z) (phone : string) : P unit :=
  acc ← find_one_call [("user_id", VInt uid); ("phone", VStr phone)];
  match acc with
  | None => lift (reply env "❌ Account not found")
  | Some acc =>
      session ← doc_get acc "session";
      let client := "otp_fetch" in
      panel_call_unit (Start client session) ;;
      otp ← fetch_latest_otp_call client;
      panel_call_unit (Stop client) ;;
      match otp with
      | None | Some [] =>
          lift (reply env ("❌ **No OTP found**" +:+ nl +:+ nl +:+
                           "➡️ Telegram app khol ke check karo" +:+ nl +:+
                           "➡️ Service / Archived chat"))
      | Some otp =>
          two_step ← doc_get acc "two_step";
          lift (reply env ("✅ **Latest OTP**" +:+ nl +:+ nl +:+
                           "📱 `" +:+ phone +:+ "`" +:+ nl +:+
                           "🔢 OTP: `" +:+ str_chars otp +:+ "`" +:+ nl +:+
                           "🔐 2-Step Enabled: `" +:+ str_value two_step +:+ "`"))
      end
  end.

(** [callbacks], for the data [data] of a button pressed by user [uid]. *)
Definition callbacks (uid : Z) (data : string) : P unit :=
  if String.eqb data "add" then lift (callbacks_add env uid)
  else if String.eqb data "accounts" then callbacks_accounts uid
  else if String.prefix "open_" data then
    phone ← index_1 (split_1 "_" data);
    callbacks_open phone
  else if String.prefix "logout_" data then
    phone ← index_1 (split_1 "_" data);
    callbacks_logout uid phone
  else if String.prefix "otp_" data then
    phone ← index_1 (split_1 "_" data);
    callbacks_otp uid phone
  else mret tt.

End Panel.
(** * Vocabulary of the properties *)

(** Number of [client.disconnect()] calls on client [c] in a history. *)
Definition disconnects (c : nat) (tr : list call) : nat :=
  count_occ call_eq_dec tr (Disconnect c).

(** Number of [send_code] requests in a history. *)
Definition is_SendCode (x : call) : bool :=
  match x with
  | SendCode _ _ => true
  | _ => false
  end.
Definition send_codes (tr : list call) : nat := length (List.filter is_SendCode tr).

(** The calls [safe_disconnect] makes from world [w]: the inner session
    stop, when there is one, then the disconnect. *)
Definition teardown_calls (w : world) (client : option nat) : list call :=
  match client with
  | Some c =>
      if connected w c
      then (if attr_true (attr_session w c) then [SessionStop c] else []) ++ [Disconnect c]
      else []
  | None => []
  end.

(** What a computation leaves untouched besides the objects and the history. *)
Definition same_stores (w w' : world) : Prop :=
  login_states w' = login_states w ∧ accounts_col w' = accounts_col w ∧
  user_state w' = user_state w ∧ temp_clients w' = temp_clients w ∧
  now w' = now w.

(** A phone step rejected by [FloodWait]: the text handed to the caller. *)
Definition flood_message (seconds : Z) : string :=
  "FloodWait: Please wait " +:+ str_Z seconds +:+ " seconds".

(** The lookup key of the bot, as a query document. *)
Definition owner_phone_query (uid : Z) (phone : string) : list (string * value) :=
  [("user_id", VInt uid); ("phone", VStr phone)].

(** ** Concrete worlds and environments *)

Definition open_client : Client := mkClient "client_1000" (Some true) (Some true).

Definition demo_manager : Manager := mkManager 6435225 "4e984ea35f854762dcde906dce426c2d".

(** The dict of a user whose code was sent: client 0 is open. *)
Definition st_waiting_otp : state :=
  mkState (Some 0%nat) (Some "+15551234567") (Some "HASH") (Some "waiting_otp")
          (Some demo_manager) (Some "US") (Some 6435225)
          (Some "4e984ea35f854762dcde906dce426c2d").

Definition st_waiting_password : state := set_step "waiting_password" st_waiting_otp.

Definition w_empty : world := mkWorld [] ∅ [] ∅ ∅ [] 1000.

(** The dict of a user who was asked for a phone number: only a step. *)
Definition st_fresh : state :=
  mkState None None None (Some "waiting_phone") None None None None.

Definition w_fresh : world := mkWorld [] {[ 7 := st_fresh ]} [] ∅ ∅ [] 1000.

Definition w_waiting_otp : world :=
  mkWorld [open_client] {[ 7 := st_waiting_otp ]} [] ∅ ∅ [] 1000.

Definition w_waiting_password : world :=
  mkWorld [open_client] {[ 7 := st_waiting_password ]} [] ∅ ∅ [] 1000.

(** bot.py: user 7 at the code step, client 0 open. *)
Definition w_bot_otp : world :=
  mkWorld [open_client] ∅ []
          {[ 7 := mkUstate "otp" (Some "+15551234567") (Some "HASH") ]}
          {[ 7 := 0%nat ]} [] 1000.

(** bot.py: user 7 at the password step, client 0 open. *)
Definition w_bot_password : world :=
  mkWorld [open_client] ∅ []
          {[ 7 := mkUstate "password" (Some "+15551234567") (Some "HASH") ]}
          {[ 7 := 0%nat ]} [] 1000.

(** Every call succeeds. *)
Definition env_ok : environment :=
  mkEnv (fun _ => None) (fun _ => Ret "CREDENTIAL") (fun _ => Ret true).

(** Every call succeeds but [export_session_string], which raises. *)
Definition env_export_fails : environment :=
  mkEnv (fun _ => None)
        (fun tr => match last tr with
                   | Some (ExportSessionString _) => Raise (Error "export failed")
                   | _ => Ret "HASH"
                   end)
        (fun _ => Ret true).

(** Every call succeeds but [insert_one], which raises. *)
Definition env_insert_fails : environment :=
  mkEnv (fun tr => match last tr with
                   | Some (InsertOne _) => Some (Error "database unavailable")
                   | _ => None
                   end)
        (fun _ => Ret "CREDENTIAL") (fun _ => Ret true).

(** [send_code] is answered by [FloodWait] of 30 seconds. *)
Definition env_flood : environment :=
  mkEnv (fun _ => None)
        (fun tr => match last tr with
                   | Some (SendCode _ _) => Raise (FloodWait 30 "FLOOD_WAIT_30")
                   | _ => Ret "CREDENTIAL"
                   end)
        (fun _ => Ret true).

(** The inner stop and the disconnect both raise. *)
Definition env_teardown_fails : environment :=
  mkEnv (fun tr => match last tr with
                   | Some (SessionStop _) => Some (BaseError "cancelled")
                   | Some (Disconnect _) => Some (Error "already disconnected")
                   | _ => None
                   end)
        (fun _ => Ret "CREDENTIAL") (fun _ => Ret true).

(** ** The claims that fail, as they are worded *)

(** Export failure after a verified code (or password) fails the attempt
    with the entry removed and the connection closed. *)
Definition export_failure_cleans_up (r : res (bool * option string) * world)
    (uid : Z) (c : nat) : Prop :=
  (∃ msg, r.1 = Ret (false, msg)) ∧ login_states r.2 !! uid = None ∧
  (1 <= disconnects c (trace r.2))%nat.

(** A terminal transition (the entry is gone) has disconnected exactly once. *)
Definition terminal_disconnects_once (w : world) (r : res (bool * option string) * world)
    (uid : Z) (c : nat) : Prop :=
  login_states r.2 !! uid = None →
  disconnects c (trace r.2) = S (disconnects c (trace w)).

(** No entry: the answer is the session-expired failure. *)
Definition answers_session_expired (r : res (bool * option string) * world) : Prop :=
  r.1 = Ret (false, Some "Session expired").

(** A new attempt for a user with an open one: the old session is released
    or the new attempt rejected. *)
Definition old_session_released (env : environment) (w : world) (uid : Z)
    (phone country : string) (api_id : Z) (api_hash : string) : Prop :=
  ∀ st c0,
    login_states w !! uid = Some st → st_client st = Some c0 → connected w c0 = true →
    let r := pyrogram_login_flow_async env uid phone 0 0 country api_id api_hash w in
    (∃ msg, r.1 = Ret (false, msg)) ∨
    (disconnects c0 (trace w) < disconnects c0 (trace r.2))%nat.

(** A verified code finalizes: one more record, no entry, one disconnect. *)
Definition code_success_finalizes (env : environment) (w : world) (uid : Z)
    (otp_code : string) : Prop :=
  ∀ st c phone hash status error w1,
    login_states w !! uid = Some st → st_client st = Some c →
    st_phone st = Some phone → st_phone_code_hash st = Some hash →
    sign_in_with_otp env c phone hash otp_code w = (Ret (true, status, error), w1) →
    let r := verify_otp_and_save_async env uid otp_code w in
    length (accounts_col r.2) = S (length (accounts_col w)) ∧
    login_states r.2 !! uid = None ∧
    disconnects c (trace r.2) = S (disconnects c (trace w)).

(** A rate-limited phone step leaves no entry for the user. *)
Definition rate_limit_leaves_no_entry (env : environment) (w : world) (uid : Z)
    (phone country : string) (api_id : Z) (api_hash : string) : Prop :=
  ∀ seconds msg,
    is_Some (login_states w !! uid) →
    env_unit env (trace w ++ [Connect (length (heap w))]) = None →
    env_str env (trace w ++ [Connect (length (heap w)); SendCode (length (heap w)) phone])
      = Raise (FloodWait seconds msg) →
    let r := pyrogram_login_flow_async env uid phone 0 0 country api_id api_hash w in
    r.1 = Ret (false, Some (flood_message seconds)) ∧
    login_states r.2 !! uid = None ∧
    disconnects (length (heap w)) (trace r.2) = 1%nat.

(** Abandoning at the code step removes the entry and disconnects. *)
Definition abandon_disconnects (w : world) (uid : Z) : Prop :=
  ∀ us c,
    user_state w !! uid = Some us → us_step us = "otp" →
    temp_clients w !! uid = Some c → connected w c = true →
    let r := cleanup uid w in
    user_state r.2 !! uid = None ∧
    (disconnects c (trace w) < disconnects c (trace r.2))%nat.

(** A record written with the second factor is read back with its secret. *)
Definition secret_round_trip (env : environment) (w : world) (uid : Z)
    (password : string) : Prop :=
  ∀ st phone msg w',
    login_states w !! uid = Some st → st_phone st = Some phone →
    verify_2fa_password_async env uid password w = (Ret (true, msg), w') →
    ∃ d, find_account uid phone w' = Some d ∧
         d !! "two_step_password" = Some (VStr password) ∧
         d !! "phone" = Some (VStr phone).

(** ** The one-time code, as the specification words it *)

(** [code] stands alone at offset [i] of the text [t]: five digits, neither
    preceded nor followed by a word character. *)
Definition standalone5 {char} (is_digit is_word : char -> bool)
    (t : list char) (i : nat) (code : list char) : Prop :=
  ∃ pre post,
    t = pre ++ code ++ post ∧ length pre = i ∧ length code = 5%nat ∧
    forallb is_digit code = true ∧
    word_opt is_word (last pre) = false ∧ word_opt is_word (head post) = false.

(** No five-digit code stands alone anywhere in the text of [msg]. *)
Definition has_no_code {char} (is_digit is_word : char -> bool) (msg : message) : Prop :=
  ∀ t i code, msg_text msg = Some t → ¬ standalone5 is_digit is_word t i code.

(** The character before the position that follows [pre], [prev] being
    the character before [pre]. *)
Definition last_or {A} (prev : option A) (pre : list A) : option A :=
  match last pre with
  | Some c => Some c
  | None => prev
  end.

(** What [fetch_latest_otp] answers: the leftmost stand-alone five-digit
    code of the first message, among the twenty newest, that holds one. *)
Definition otp_answer_correct {char} (is_digit is_word : char -> bool)
    (history : Z -> list message) : Prop :=
  let newest := take 20 (history 777000) in
  match fetch_latest_otp is_digit is_word history with
  | Some code =>
      length code = 5%nat ∧ forallb is_digit code = true ∧
      ∃ i msg t k,
        (i < 20)%nat ∧ newest !! i = Some msg ∧ msg_text msg = Some t ∧
        standalone5 is_digit is_word t k code ∧
        (∀ k' code', (k' < k)%nat → ¬ standalone5 is_digit is_word t k' code') ∧
        (∀ j msg', (j < i)%nat → newest !! j = Some msg' →
                   has_no_code is_digit is_word msg')
  | None => ∀ msg, msg ∈ newest → has_no_code is_digit is_word msg
  end.

Definition demo_history (chat_id : Z) : list (@message ascii) :=
  if bool_decide (chat_id = 777000) then
    [mkMessage None;
     text_message "Your code 123456 is too long";
     text_message "Login code: 54321. Do not give this code to anyone";
     text_message "Login code: 11111."]
  else [text_message "99999"].

(** The world once [connect] has succeeded on client [c]. *)
Definition after_connect (c : nat) (o : Client) (tr : list call) (w : world) : world :=
  set_trace tr (set_heap (<[c := mkClient (name o) (Some true) (Some true)]> (heap w)) w).

(** bot.py: user 7 has asked to add an account. *)
Definition w_bot_phone : world :=
  mkWorld [] ∅ [] {[ 7 := mkUstate "phone" None None ]} ∅ [] 1000.


(** ** Vocabulary of the further properties *)

(** Every run of [m] relates the world it starts in to the world it ends
    in by [R], whatever it returns or raises. *)
Definition maintains (R : world -> world -> Prop) {A} (m : M A) : Prop :=
  ∀ w r w', m w = (r, w') → R w w'.

(** The outcome is a value or an exception that is not an [Exception]. *)
Definition no_Exception {A} (r : res A) : Prop :=
  match r with
  | Ret _ => True
  | Raise e => is_Exception e = false
  end.

(** The client a call is made on. *)
Definition call_client (x : call) : option nat :=
  match x with
  | Connect c | Disconnect c | SessionStop c | SendCode c _ | SignIn c _ _ _
  | CheckPassword c _ | GetMe c | ExportSessionString c => Some c
  | InsertOne _ | Reply _ => None
  end.

(** The history grew by calls on client [c] and insertions only. *)
Definition calls_on (c : nat) (w w' : world) : Prop :=
  ∃ l, trace w' = trace w ++ l ∧
       Forall (λ x, call_client x = Some c ∨ ∃ d, x = InsertOne d) l.

(** Only the entry of [uid] may differ in [login_states]; the dictionaries
    of the bot and the clock are the same. *)
Definition only_user (uid : Z) (w w' : world) : Prop :=
  (∀ u, u ≠ uid → login_states w' !! u = login_states w !! u) ∧
  user_state w' = user_state w ∧ temp_clients w' = temp_clients w ∧
  now w' = now w.

(** Only the client object [c] may differ. *)
Definition only_client (c : nat) (w w' : world) : Prop :=
  length (heap w') = length (heap w) ∧
  ∀ c', c' ≠ c → heap w' !! c' = heap w !! c'.

(** What a run for user [uid] on client [c] may change, and the calls it
    may make. *)
Definition flow_rel (uid : Z) (c : nat) (w w' : world) : Prop :=
  only_user uid w w' ∧ only_client c w w' ∧ calls_on c w w'.

(** What a flow may do, given the client [oc] that the user's entry holds
    at the start: nothing to the objects and no call when there is none. *)
Definition flow_footprint (uid : Z) (oc : option nat) (w w' : world) : Prop :=
  only_user uid w w' ∧
  match oc with
  | Some c => only_client c w w' ∧ calls_on c w w'
  | None => heap w' = heap w ∧ trace w' = trace w
  end.

(** Every run of [m] satisfies [Q] between its start, its outcome and its
    end. *)
Definition ensures {A} (Q : world -> res A -> world -> Prop) (m : M A) : Prop :=
  ∀ w r w', m w = (r, w') → Q w r w'.

(** The collection is the same. *)
Definition keeps_accounts (w w' : world) : Prop := accounts_col w' = accounts_col w.

(** A record of the account module with a credential in it. *)
Definition complete_record (uid : Z) (has_2fa : bool) (two_step_password : option string)
    (d : document) : Prop :=
  ∃ country phone s t,
    s ≠ "" ∧ d = account_record country phone s has_2fa two_step_password t uid.

(** A verification flow wrote nothing and did not report success, or it
    appended one complete record, removed the entry and reported success. *)
Definition writes_iff_success (uid : Z) (has_2fa : bool)
    (two_step_password : option string)
    (w : world) (r : res (bool * option string)) (w' : world) : Prop :=
  (accounts_col w' = accounts_col w ∧ ∀ m, r ≠ Ret (true, m)) ∨
  (∃ d, complete_record uid has_2fa two_step_password d ∧
        accounts_col w' = accounts_col w ++ [d] ∧
        r = Ret (true, Some "Account added successfully") ∧
        login_states w' !! uid = None).


(** The shapes of what [send_code] answers. *)
Definition send_code_shape (r : res (bool * option string * option string)) : Prop :=
  match r with
  | Ret (true, Some _, None) => True
  | Ret (false, None, Some _) => True
  | Ret _ => False
  | Raise e => is_Exception e = false
  end.

(** The shapes of what [sign_in_with_otp] answers. *)
Definition sign_in_shape (r : res (bool * option string * option string)) : Prop :=
  match r with
  | Ret (true, None, None) => True
  | Ret (false, Some status, None) => status = "password_required"
  | Ret (false, Some status, Some _) => status = "error"
  | Ret _ => False
  | Raise e => is_Exception e = false
  end.

(** The first call of [sign_in_with_otp] that raises, if any: [connect],
    made on a client that is not connected, and then [sign_in]. *)
Definition sign_in_failure (env : environment) (c : nat) (phone hash code : string)
    (w : world) : option exn :=
  if connected w c then env_unit env (trace w ++ [SignIn c phone code hash])
  else
    match env_unit env (trace w ++ [Connect c]) with
    | Some e => Some e
    | None => env_unit env (trace w ++ [Connect c; SignIn c phone code hash])
    end.

(** What [sign_in_with_otp] makes of it. *)
Definition sign_in_answer (failure : option exn)
  : res (bool * option string * option string) :=
  match failure with
  | None => Ret (true, None, None)
  | Some (SessionPasswordNeeded _) => Ret (false, Some "password_required", None)
  | Some e =>
      if is_Exception e then Ret (false, Some "error", Some (str_exn e)) else Raise e
  end.

(** The calls of [sign_in_with_otp]. *)
Definition sign_in_calls (env : environment) (c : nat) (phone hash code : string)
    (w : world) : list call :=
  if connected w c then [SignIn c phone code hash]
  else
    match env_unit env (trace w ++ [Connect c]) with
    | Some _ => [Connect c]
    | None => [Connect c; SignIn c phone code hash]
    end.

(** Passwords submitted one after the other for the same user. *)
Fixpoint submit_passwords (env : environment) (uid : Z) (passwords : list string)
  : M (list (bool * option string)) :=
  match passwords with
  | [] => ret []
  | password :: rest =>
      r <- verify_2fa_password_async env uid password ;;
      rs <- submit_passwords env uid rest ;;
      ret (r :: rs)
  end.

(** The network rejects every password with an [Exception]. *)
Definition rejects_passwords (env : environment) : Prop :=
  ∀ tr c password,
    ∃ e, env_unit env (tr ++ [CheckPassword c password]) = Some e ∧ is_Exception e = true.

(** Every call is answered by the same error. *)
Definition env_rejecting : environment :=
  mkEnv (fun _ => Some (Error "PASSWORD_HASH_INVALID"))
        (fun _ => Raise (Error "PASSWORD_HASH_INVALID"))
        (fun _ => Raise (Error "PASSWORD_HASH_INVALID")).

(** The replies of [text_handler]. *)
Definition otp_sent_text : string :=
  "📩 **OTP Sent Successfully**" +:+ nl +:+ nl +:+
  "⚠️ Telegram app me OTP aayega" +:+ nl +:+
  "📥 Service / Archived chat check karo".

Definition send_failed_text (e : exn) : string :=
  match e with
  | FloodWait v _ => "⏳ Flood wait: wait " +:+ str_Z v +:+ " seconds"
  | _ => "❌ Failed to send OTP" +:+ nl +:+ "`" +:+ str_exn e +:+ "`"
  end.

Definition account_added_text : string := "✅ **Account added successfully**".

Definition password_wanted_text : string := "🔐 **Send 2-step password**".

(** What a call used for its effect makes of the run. *)
Definition unit_outcome (env : environment) (tr : list call) : res unit :=
  match env_unit env tr with
  | Some e => Raise e
  | None => Ret tt
  end.


(** What a text of user [uid] may change in the bot: the entries of [uid]
    in the two dictionaries.  The entries of the other users and
    [login_states] are the same, and the collection keeps the records it
    had, in their order. *)
Definition bot_rel (uid : Z) (w w' : world) : Prop :=
  (∀ u, u ≠ uid → user_state w' !! u = user_state w !! u) ∧
  (∀ u, u ≠ uid → temp_clients w' !! u = temp_clients w !! u) ∧
  login_states w' = login_states w ∧
  accounts_col w `prefix_of` accounts_col w' ∧
  trace w `prefix_of` trace w'.

(** The steps that [text_handler] acts on. *)
Definition known_step (step : string) : bool :=
  String.eqb step "phone" || String.eqb step "otp" || String.eqb step "password".

(** ** Vocabulary of the callback handler *)

(** What a button press of user [uid] may change: the entry of [uid] in
    [user_state], the history, and the collection by the removal of one
    record of [uid]; the clients, [temp_clients] and [login_states] are the
    same. *)
Definition press_rel (uid : Z) (w w' : world) : Prop :=
  (∀ u, u ≠ uid → user_state w' !! u = user_state w !! u) ∧
  temp_clients w' = temp_clients w ∧ login_states w' = login_states w ∧
  heap w' = heap w ∧ trace w `prefix_of` trace w' ∧
  (accounts_col w' = accounts_col w ∨
   ∃ acc, acc ∈ accounts_col w ∧ acc !! "user_id" = Some (VInt uid) ∧
          accounts_col w' = remove_first acc (accounts_col w)).

(** The row of the list of accounts for a record with phone [v]. *)
Definition account_row (str_time : Z -> string) (v : value) : list button :=
  [mkButton ("📱 " +:+ str_value str_time v) ("open_" +:+ str_value str_time v)].

(** The outcome of a call made for its effect. *)
Definition panel_outcome {char} (penv : @panel_environment char) (tr : list panel_call)
  : res unit :=
  match penv_unit penv tr with
  | Some e => Raise e
  | None => Ret tt
  end.

(** The answer of the [logout_] and [otp_] branches to a phone that the
    user has no record of: one query, the refusal, and nothing else. *)
Definition refused {char} (env : environment) (penv : @panel_environment char)
    (uid : Z) (phone : string) (p : panel) (x : res unit * panel) : Prop :=
  panel_calls x.2 = panel_calls p ++ [FindOne (owner_phone_query uid phone)] ∧
  trace (bot x.2) = trace (bot p) ++ [Reply "❌ Account not found"] ∧
  same_stores (bot p) (bot x.2) ∧
  x.1 = unit_outcome env (trace (bot x.2)).


(** The texts of the [otp_] branch. *)
Definition no_otp_text : string :=
  "❌ **No OTP found**" +:+ nl +:+ nl +:+
  "➡️ Telegram app khol ke check karo" +:+ nl +:+
  "➡️ Service / Archived chat".

Definition latest_otp_text (phone otp two_step : string) : string :=
  "✅ **Latest OTP**" +:+ nl +:+ nl +:+
  "📱 `" +:+ phone +:+ "`" +:+ nl +:+
  "🔢 OTP: `" +:+ otp +:+ "`" +:+ nl +:+
  "🔐 2-Step Enabled: `" +:+ two_step +:+ "`".

Definition total_accounts_text (n : nat) : string :=
  "📂 **Total Accounts:** " +:+ str_Z (Z.of_nat n).

(** ** Concrete worlds and environments of the further properties *)

(** [sign_in] asks for the second factor; every other call succeeds. *)
Definition env_password_needed : environment :=
  mkEnv (fun tr => match last tr with
                   | Some (SignIn _ _ _ _) => Some (SessionPasswordNeeded "SESSION_PASSWORD_NEEDED")
                   | _ => None
                   end)
        (fun _ => Ret "CREDENTIAL") (fun _ => Ret true).

(** [sign_in] rejects the code; every other call succeeds. *)
Definition env_code_rejected : environment :=
  mkEnv (fun tr => match last tr with
                   | Some (SignIn _ _ _ _) => Some (Error "PHONE_CODE_INVALID")
                   | _ => None
                   end)
        (fun _ => Ret "CREDENTIAL") (fun _ => Ret true).

(** [send_code] is refused; every other call succeeds. *)
Definition env_send_refused : environment :=
  mkEnv (fun _ => None)
        (fun tr => match last tr with
                   | Some (SendCode _ _) => Raise (Error "PHONE_NUMBER_INVALID")
                   | _ => Ret "CREDENTIAL"
                   end)
        (fun _ => Ret true).

(** [disconnect] raises; every other call succeeds. *)
Definition env_disconnect_fails : environment :=
  mkEnv (fun tr => match last tr with
                   | Some (Disconnect _) => Some (Error "connection lost")
                   | _ => None
                   end)
        (fun _ => Ret "CREDENTIAL") (fun _ => Ret true).

(** bot.py: two accounts are stored, one of user 8 and one of user 7. *)
Definition w_bot_saved : world :=
  mkWorld [] ∅
          [bot_record 8 "+15557654321" "OTHER" false 900;
           bot_record 7 "+15551234567" "CREDENTIAL" true 950]
          ∅ ∅ [] 1000.

Definition p_saved : panel := mkPanel w_bot_saved [].

(** Every call of the callback handler succeeds. *)
Definition penv_ok : @panel_environment ascii :=
  mkPanelEnv (fun _ => None) (fun _ => Ret demo_history).


(** Reading the history raises. *)
Definition penv_history_fails : @panel_environment ascii :=
  mkPanelEnv (fun _ => None) (fun _ => Raise (Error "CHANNEL_PRIVATE")).

(** White space beyond ASCII, in UTF-8: the no-break space U+00A0, the thin
    space U+2009 and the ideographic space U+3000. *)
Definition no_break_space : string :=
  String (Ascii.ascii_of_nat 194) (String (Ascii.ascii_of_nat 160) "").
Definition thin_space : string :=
  String (Ascii.ascii_of_nat 226)
    (String (Ascii.ascii_of_nat 128) (String (Ascii.ascii_of_nat 137) "")).
Definition ideographic_space : string :=
  String (Ascii.ascii_of_nat 227)
    (String (Ascii.ascii_of_nat 128) (String (Ascii.ascii_of_nat 128) "")).

(** Every call succeeds; [send_code] returns the hash "HASH" and the export
    the credential. *)
Definition env_login : environment :=
  mkEnv (fun _ => None)
        (fun tr => match last tr with
                   | Some (SendCode _ _) => Ret "HASH"
                   | _ => Ret "CREDENTIAL"
                   end)
        (fun _ => Ret true).
(** * Proofs *)

(** ** Running the monad *)

Ltac unfold_monad :=
  unfold call_unit, call_str, call_me, set_attrs, subscript, except_all,
         except_Exception, try_, bind, ret, raise, modify, get_world in *.

Ltac step := unfold bind at 1; cbv beta iota.

Lemma bind_inv {A B} (m : M A) (f : A → M B) w b w' :
  bind m f w = (Ret b, w') → ∃ a w1, m w = (Ret a, w1) ∧ f a w1 = (Ret b, w').
Proof.
  unfold bind. destruct (m w) as [[a|e] w1]; [| done]. intros H. by exists a, w1.
Qed.

Lemma try_inv {A} (m : M A) h w a w' :
  try_ m h w = (Ret a, w') →
  m w = (Ret a, w') ∨
  ∃ e w1 k, m w = (Raise e, w1) ∧ h e = Some k ∧ k w1 = (Ret a, w').
Proof.
  unfold try_. destruct (m w) as [[a0|e] w1]; [by left |].
  destruct (h e) as [k|] eqn:Hh; [| done]. intros H. right. by exists e, w1, k.
Qed.

Lemma subscript_inv {A} (o : option A) k w a w' :
  subscript o k w = (Ret a, w') → o = Some a ∧ w' = w.
Proof. destruct o; [| done]. by intros [= <- <-]. Qed.

(** ** Counting calls *)

Lemma disconnects_app c tr tr' :
  disconnects c (tr ++ tr') = (disconnects c tr + disconnects c tr')%nat.
Proof. apply count_occ_app. Qed.

Lemma disconnects_other c x :
  x ≠ Disconnect c → disconnects c [x] = 0%nat.
Proof.
  intros Hx. unfold disconnects. by rewrite count_occ_cons_neq.
Qed.

Lemma disconnects_self c : disconnects c [Disconnect c] = 1%nat.
Proof.
  unfold disconnects. by rewrite count_occ_cons_eq.
Qed.

Lemma send_codes_app tr tr' : send_codes (tr ++ tr') = (send_codes tr + send_codes tr')%nat.
Proof. unfold send_codes. by rewrite List.filter_app, length_app. Qed.

(** ** The manager's operations *)

Lemma connected_after_connect w c nm s h o :
  heap w = <[c := mkClient nm (Some true) s]> h → h !! c = Some o →
  connected w c = true.
Proof.
  intros Hw Ho. unfold connected, attr_is_connected. rewrite Hw.
  rewrite list_lookup_insert_eq; [done |]. by eapply lookup_lt_Some.
Qed.

Lemma sign_in_with_otp_success env c phone hash code w status error w1 :
  is_Some (heap w !! c) →
  sign_in_with_otp env c phone hash code w = (Ret (true, status, error), w1) →
  status = None ∧ same_stores w w1 ∧ connected w1 c = true ∧
  disconnects c (trace w1) = disconnects c (trace w).
Proof.
  intros [o Ho]. unfold sign_in_with_otp, client_connect, client_sign_in, same_stores.
  unfold_monad. simpl. destruct (connected w c) eqn:Hc; simpl.
  - destruct (env_unit env _) as [e|]; simpl.
    + destruct e; simpl; intros; simplify_eq.
    + intros; simplify_eq. simpl. rewrite disconnects_app, disconnects_other by done.
      split_and!; try done; lia.
  - destruct (env_unit env (trace w ++ [Connect c])) as [e|]; simpl.
    + destruct e; simpl; intros; simplify_eq.
    + rewrite Ho. simpl. destruct (env_unit env _) as [e|]; simpl.
      * destruct e; simpl; intros; simplify_eq.
      * intros; simplify_eq. simpl.
        rewrite !disconnects_app, !disconnects_other by done.
        split_and!; try done; try lia.
        by eapply connected_after_connect.
Qed.

Lemma sign_in_with_password_success env c password w error w1 :
  is_Some (heap w !! c) →
  sign_in_with_password env c password w = (Ret (true, error), w1) →
  same_stores w w1 ∧ connected w1 c = true ∧
  disconnects c (trace w1) = disconnects c (trace w).
Proof.
  intros [o Ho]. unfold sign_in_with_password, client_connect, client_check_password, same_stores.
  unfold_monad. simpl. destruct (connected w c) eqn:Hc; simpl.
  - destruct (env_unit env _) as [e|]; simpl.
    + destruct e; simpl; intros; simplify_eq.
    + intros; simplify_eq. simpl. rewrite disconnects_app, disconnects_other by done.
      split_and!; try done; lia.
  - destruct (env_unit env (trace w ++ [Connect c])) as [e|]; simpl.
    + destruct e; simpl; intros; simplify_eq.
    + rewrite Ho. simpl. destruct (env_unit env _) as [e|]; simpl.
      * destruct e; simpl; intros; simplify_eq.
      * intros; simplify_eq. simpl.
        rewrite !disconnects_app, !disconnects_other by done.
        split_and!; try done; try lia.
        by eapply connected_after_connect.
Qed.

Lemma get_session_string_connected env c w r w2 :
  connected w c = true →
  get_session_string env c w = (r, w2) →
  same_stores w w2 ∧ connected w2 c = true ∧
  disconnects c (trace w2) = disconnects c (trace w).
Proof.
  intros Hc. unfold get_session_string, client_get_me, client_export_session_string, same_stores.
  unfold_monad. simpl. rewrite Hc. simpl.
  destruct (env_me env _) as [[|]|e]; simpl.
  - destruct (env_str env _) as [s|e]; simpl.
    + intros; simplify_eq. simpl.
      rewrite !disconnects_app, !disconnects_other by done.
      split_and!; try done; lia.
    + destruct (is_Exception e) eqn:He; simpl; rewrite ?He; simpl;
        intros; simplify_eq; simpl;
        rewrite !disconnects_app, !disconnects_other by done; split_and!; try done; lia.
  - intros; simplify_eq. simpl.
    rewrite !disconnects_app, !disconnects_other by done. split_and!; try done; lia.
  - destruct (is_Exception e) eqn:He; simpl; rewrite ?He; simpl;
      intros; simplify_eq; simpl;
      rewrite !disconnects_app, !disconnects_other by done; split_and!; try done; lia.
Qed.

Lemma insert_one_success env d w w3 :
  insert_one env d w = (Ret tt, w3) →
  accounts_col w3 = accounts_col w ++ [d] ∧ login_states w3 = login_states w ∧
  heap w3 = heap w ∧ trace w3 = trace w ++ [InsertOne d] ∧ now w3 = now w.
Proof.
  unfold insert_one. unfold_monad. simpl.
  destruct (env_unit env _); intros; simplify_eq. done.
Qed.

Lemma insert_one_failure env d w e w3 :
  insert_one env d w = (Raise e, w3) → w3 = set_trace (trace w ++ [InsertOne d]) w.
Proof.
  unfold insert_one. unfold_monad. simpl.
  destruct (env_unit env _); intros; simplify_eq. done.
Qed.

Lemma safe_disconnect_run env client w :
  ∃ w', safe_disconnect env client w = (Ret tt, w') ∧
        trace w' = trace w ++ teardown_calls w client ∧
        same_stores w w'.
Proof.
  unfold safe_disconnect, teardown_calls, session_stop, client_disconnect, same_stores.
  unfold_monad.
  destruct client as [c|]; simpl.
  - destruct (connected w c) eqn:Hc; simpl.
    + destruct (attr_true (attr_session w c)) eqn:Hs; simpl.
      * destruct (env_unit env (trace w ++ [SessionStop c])); simpl;
        destruct (env_unit env _); simpl; repeat case_match; simpl;
          eexists; rewrite <- ?app_assoc; simpl; eauto 10.
      * destruct (env_unit env _); simpl; repeat case_match; simpl;
          eexists; rewrite <- ?app_assoc; simpl; eauto 10.
    + eexists. rewrite app_nil_r. eauto 10.
  - eexists. rewrite app_nil_r. eauto 10.
Qed.

Lemma disconnects_teardown w c :
  connected w c = true → disconnects c (teardown_calls w (Some c)) = 1%nat.
Proof.
  intros Hc. unfold teardown_calls. rewrite Hc.
  destruct (attr_true _); simpl.
  - change [SessionStop c; Disconnect c] with ([SessionStop c] ++ [Disconnect c]).
    rewrite disconnects_app, disconnects_other, disconnects_self; done.
  - apply disconnects_self.
Qed.


Lemma sign_in_with_password_frame env c password w r w1 :
  sign_in_with_password env c password w = (r, w1) → same_stores w w1.
Proof.
  unfold sign_in_with_password, client_connect, client_check_password, same_stores.
  unfold_monad. simpl.
  repeat (case_match; simpl in *; simplify_eq); intros; simplify_eq; done.
Qed.

Lemma get_session_string_frame env c w r w1 :
  get_session_string env c w = (r, w1) → same_stores w w1.
Proof.
  unfold get_session_string, client_connect, client_get_me, client_export_session_string,
    same_stores.
  unfold_monad. simpl.
  repeat (case_match; simpl in *; simplify_eq); intros; simplify_eq; done.
Qed.

Lemma send_code_flood env c phone w o seconds msg :
  heap w !! c = Some o → connected w c = false →
  env_unit env (trace w ++ [Connect c]) = None →
  env_str env (trace w ++ [Connect c; SendCode c phone]) = Raise (FloodWait seconds msg) →
  send_code env c phone w =
    (Ret (false, None, Some (flood_message seconds)),
     after_connect c o (trace w ++ [Connect c; SendCode c phone]) w).
Proof.
  intros Ho Hnc Hconn Hsend.
  unfold send_code, client_connect, client_send_code. unfold_monad. simpl.
  rewrite Hnc. simpl. rewrite Hconn. simpl. rewrite Ho. simpl.
  rewrite <- app_assoc. simpl. rewrite Hsend. done.
Qed.

Lemma send_code_success env c phone w o h e w' :
  heap w !! c = Some o → connected w c = false →
  send_code env c phone w = (Ret (true, h, e), w') →
  w' = after_connect c o (trace w ++ [Connect c; SendCode c phone]) w.
Proof.
  intros Ho Hnc.
  unfold send_code, client_connect, client_send_code. unfold_monad. simpl.
  rewrite Hnc. simpl. destruct (env_unit env _) as [ex|]; simpl.
  - destruct ex; simpl; intros; simplify_eq.
  - rewrite Ho. simpl. rewrite <- app_assoc. simpl.
    destruct (env_str env _) as [s|ex]; simpl.
    + intros; simplify_eq. done.
    + destruct ex; simpl; intros; simplify_eq.
Qed.

Lemma new_client_lookup (h : list Client) o : (h ++ [o]) !! length h = Some o.
Proof. by apply list_lookup_middle. Qed.

Lemma flood_message_not_empty seconds : (flood_message seconds =? "")%string = false.
Proof. done. Qed.

(** ** The collection *)

Lemma find_one_app_no_match q col d :
  matches q d = false → find_one q (col ++ [d]) = find_one q col.
Proof.
  intros Hd. unfold find_one. induction col as [|x col IH]; simpl.
  - by rewrite Hd.
  - destruct (matches q x); [done | apply IH].
Qed.

Lemma find_one_app_match q col d :
  matches q d = true →
  find_one q (col ++ [d]) = match find_one q col with Some x => Some x | None => Some d end.
Proof.
  intros Hd. unfold find_one. induction col as [|x col IH]; simpl.
  - by rewrite Hd.
  - destruct (matches q x); [done | apply IH].
Qed.

Lemma find_one_matches q col d : find_one q col = Some d → matches q d = true.
Proof. unfold find_one. intros H. by apply List.find_some in H as [_ ?]. Qed.

Lemma matches_owner_phone uid phone d :
  matches (owner_phone_query uid phone) d = true →
  d !! "user_id" = Some (VInt uid) ∧ d !! "phone" = Some (VStr phone).
Proof.
  unfold matches, owner_phone_query. simpl.
  rewrite !andb_true_iff, !bool_decide_eq_true. intros (? & ? & _). done.
Qed.

Lemma bot_record_matches uid phone session two_step t :
  matches (owner_phone_query uid phone) (bot_record uid phone session two_step t) = true.
Proof.
  unfold matches, owner_phone_query. simpl.
  rewrite !andb_true_iff, !bool_decide_eq_true. done.
Qed.

Lemma account_record_no_match uid phone country ph s b pw t u :
  matches (owner_phone_query uid phone) (account_record country ph s b pw t u) = false.
Proof.
  unfold matches, owner_phone_query. simpl.
  rewrite bool_decide_eq_false_2; [done |]. done.
Qed.

(** ** The pattern *)

Section RegexFacts.

Context {char : Type}.
Variables is_digit is_word : char -> bool.
Hypothesis digit_is_word : ∀ c, is_digit c = true → is_word c = true.

Lemma digits_spec n s ds r :
  digits is_digit n s = Some (ds, r) ↔
  s = ds ++ r ∧ length ds = n ∧ forallb is_digit ds = true.
Proof.
  revert s ds r. induction n as [|n IH]; intros s ds r; simpl.
  - split.
    + intros [= <- <-]. done.
    + intros (-> & Hl & _). destruct ds; [done | discriminate].
  - destruct s as [|c s].
    + split; [done |]. intros (Hs & Hl & _).
      destruct ds; [discriminate | discriminate].
    + destruct (is_digit c) eqn:Hc.
      * destruct (digits is_digit n s) as [[ds' r']|] eqn:Hd.
        -- apply IH in Hd as (-> & Hl & Hf). split.
           ++ intros [= <- <-]. simpl. rewrite Hc, Hf, Hl. done.
           ++ intros (Hs & Hl' & Hf'). destruct ds as [|d ds]; [discriminate |].
              simpl in *. injection Hs as <- Hs. injection Hl' as Hl'.
              apply andb_true_iff in Hf' as [_ Hf'].
              assert (ds' = ds ∧ r' = r) as [-> ->]; [| done].
              assert (Hlen : length ds' = length ds) by lia.
              clear -Hs Hlen. revert ds Hs Hlen.
              induction ds' as [|x ds' IHd]; intros [|y ds] Hs Hlen;
                simpl in *; try discriminate; [done |].
              injection Hs as -> Hs. injection Hlen as Hlen.
              destruct (IHd _ Hs Hlen) as [-> ->]. done.
        -- split; [done |]. intros (Hs & Hl & Hf).
           destruct ds as [|d ds]; [discriminate |]. simpl in *.
           injection Hs as <- ->. injection Hl as Hl.
           apply andb_true_iff in Hf as [_ Hf].
           assert (digits is_digit n (ds ++ r) = Some (ds, r)) as Hd'
             by (apply IH; done).
           congruence.
      * split; [done |]. intros (Hs & Hl & Hf).
        destruct ds as [|d ds]; [discriminate |]. simpl in *.
        injection Hs as <- ->. apply andb_true_iff in Hf as [Hf _]. congruence.
Qed.

Lemma forallb_head_word ds :
  forallb is_digit ds = true → ds ≠ [] → word_opt is_word (head ds) = true.
Proof.
  destruct ds as [|d ds]; [done |]. simpl. intros [H _]%andb_true_iff _.
  by apply digit_is_word.
Qed.

Lemma forallb_last_word ds :
  forallb is_digit ds = true → ds ≠ [] → word_opt is_word (last ds) = true.
Proof.
  induction ds as [|d ds IH]; [done |]. simpl. intros [H Hf]%andb_true_iff _.
  destruct ds as [|d' ds]; simpl.
  - by apply digit_is_word.
  - apply IH; done.
Qed.

Lemma match_here_spec prev s code :
  match_here is_digit is_word prev s = Some code ↔
  ∃ post, s = code ++ post ∧ length code = 5%nat ∧ forallb is_digit code = true ∧
          word_opt is_word prev = false ∧ word_opt is_word (head post) = false.
Proof.
  unfold match_here, boundary. split.
  - destruct (xorb _ _) eqn:Hb; [| done].
    destruct (digits is_digit 5 s) as [[ds r]|] eqn:Hd; [| done].
    apply digits_spec in Hd as (-> & Hl & Hf).
    assert (ds ≠ []) as Hne by (intros ->; discriminate).
    destruct (xorb (word_opt is_word (last ds)) _) eqn:Hb2; [| done].
    intros [= <-]. exists r.
    rewrite forallb_last_word in Hb2 by done.
    assert (head (ds ++ r) = head ds) as Hh by (destruct ds; done).
    rewrite Hh, forallb_head_word in Hb by done.
    repeat split; try done.
    + by destruct (word_opt is_word prev).
    + by destruct (word_opt is_word (head r)).
  - intros (post & -> & Hl & Hf & Hp & Hq).
    assert (code ≠ []) as Hne by (intros ->; discriminate).
    assert (head (code ++ post) = head code) as Hh by (destruct code; done).
    rewrite Hh, forallb_head_word, Hp by done.
    assert (digits is_digit 5 (code ++ post) = Some (code, post)) as ->
      by (apply digits_spec; done).
    rewrite forallb_last_word, Hq by done. done.
Qed.

Lemma last_or_cons (prev : option char) c pre :
  last_or prev (c :: pre) = last_or (Some c) pre.
Proof.
  unfold last_or. destruct pre as [|d pre]; [done |].
  change (last (c :: d :: pre)) with (last (d :: pre)).
  destruct (last (d :: pre)) eqn:Hl; [done |].
  apply last_None in Hl. discriminate.
Qed.

Lemma search_some s : ∀ prev code,
  search is_digit is_word prev s = Some code →
  ∃ pre post,
    s = pre ++ code ++ post ∧
    match_here is_digit is_word (last_or prev pre) (code ++ post) = Some code ∧
    ∀ pre' s', s = pre' ++ s' → (length pre' < length pre)%nat →
               match_here is_digit is_word (last_or prev pre') s' = None.
Proof.
  induction s as [|c s IH]; intros prev code; simpl.
  - destruct (match_here is_digit is_word prev []) as [m|] eqn:Hm; [| done].
    intros [= ->]. pose proof Hm as Hm'.
    apply match_here_spec in Hm' as (post & Hs & _).
    exists [], post. simpl. rewrite <- Hs. split_and!; [done | done |].
    intros ? ? _ Hlt. simpl in Hlt. lia.
  - destruct (match_here is_digit is_word prev (c :: s)) as [m|] eqn:Hm.
    + intros [= ->]. pose proof Hm as Hm'.
      apply match_here_spec in Hm' as (post & Hs & _).
      exists [], post. simpl. rewrite <- Hs. split_and!; [done | done |].
      intros ? ? _ Hlt. simpl in Hlt. lia.
    + intros Hsr. apply IH in Hsr as (pre & post & -> & Hmh & Hleft).
      exists (c :: pre), post. rewrite last_or_cons. split_and!; [done | done |].
      intros pre' s' Heq Hlt. destruct pre' as [|d pre'].
      * simpl in Heq. subst s'. done.
      * simpl in Heq. injection Heq as <- Heq. rewrite last_or_cons.
        apply Hleft; [done | simpl in Hlt; lia].
Qed.

Lemma search_none s : ∀ prev,
  search is_digit is_word prev s = None →
  ∀ pre' s', s = pre' ++ s' →
             match_here is_digit is_word (last_or prev pre') s' = None.
Proof.
  induction s as [|c s IH]; intros prev; simpl.
  - destruct (match_here is_digit is_word prev []) eqn:Hm; [done |].
    intros _ pre' s' Heq. symmetry in Heq. apply app_eq_nil in Heq as [-> ->]. done.
  - destruct (match_here is_digit is_word prev (c :: s)) eqn:Hm; [done |].
    intros Hsr pre' s' Heq. destruct pre' as [|d pre'].
    + simpl in Heq. subst s'. done.
    + simpl in Heq. injection Heq as <- Heq. rewrite last_or_cons.
      by apply (IH _ Hsr).
Qed.

Lemma standalone5_match_here t i code :
  standalone5 is_digit is_word t i code ↔
  ∃ pre post, t = pre ++ code ++ post ∧ length pre = i ∧
              match_here is_digit is_word (last_or None pre) (code ++ post) = Some code.
Proof.
  unfold standalone5. split.
  - intros (pre & post & Ht & Hi & Hl & Hf & Hp & Hq). exists pre, post.
    split_and!; [done | done |]. apply match_here_spec. exists post.
    split_and!; try done. unfold last_or. by destruct (last pre).
  - intros (pre & post & Ht & Hi & Hm). exists pre, post.
    apply match_here_spec in Hm as (post' & Heq & Hl & Hf & Hp & Hq).
    apply app_inv_head in Heq as <-.
    split_and!; try done. unfold last_or in Hp. by destruct (last pre).
Qed.

Lemma re_search_some t code :
  re_search is_digit is_word t = Some code →
  ∃ i, standalone5 is_digit is_word t i code ∧
       ∀ j code', (j < i)%nat → ¬ standalone5 is_digit is_word t j code'.
Proof.
  intros (pre & post & Ht & Hm & Hleft)%search_some.
  exists (length pre). split.
  - apply standalone5_match_here. by exists pre, post.
  - intros j code' Hj (pre' & post' & Ht' & Hlen & Hm')%standalone5_match_here.
    rewrite (Hleft pre' (code' ++ post')) in Hm'; [done | congruence | lia].
Qed.

Lemma re_search_none t :
  re_search is_digit is_word t = None →
  ∀ i code, ¬ standalone5 is_digit is_word t i code.
Proof.
  intros Hs i code (pre & post & Ht & Hlen & Hm)%standalone5_match_here.
  rewrite (search_none _ _ Hs pre (code ++ post)) in Hm; done.
Qed.

Lemma first_otp_some msgs : ∀ code,
  first_otp is_digit is_word msgs = Some code →
  ∃ i msg t k,
    msgs !! i = Some msg ∧ msg_text msg = Some t ∧
    standalone5 is_digit is_word t k code ∧
    (∀ k' code', (k' < k)%nat → ¬ standalone5 is_digit is_word t k' code') ∧
    (∀ j msg', (j < i)%nat → msgs !! j = Some msg' → has_no_code is_digit is_word msg').
Proof.
  induction msgs as [|m msgs IH]; intros code; simpl; [done |].
  destruct (msg_text m) as [[|c t]|] eqn:Hm.
  - intros (i & msg & t & k & Hi & Ht & Hs & Hk & Hj)%IH.
    exists (S i), msg, t, k. split_and!; try done.
    intros [|j] msg' Hlt; simpl.
    + intros [= <-] t' i' code' Ht'. rewrite Hm in Ht'. simplify_eq.
      intros (pre & post & Heq & _ & Hlen & _).
      destruct pre, code'; simpl in *; discriminate.
    + apply Hj. lia.
  - destruct (re_search is_digit is_word (c :: t)) as [r|] eqn:Hr.
    + intros [= ->]. apply re_search_some in Hr as (k & Hs & Hk).
      exists 0%nat, m, (c :: t), k. split_and!; try done.
      intros j msg' Hlt. lia.
    + intros (i & msg & t' & k & Hi & Ht & Hs & Hk & Hj)%IH.
      exists (S i), msg, t', k. split_and!; try done.
      intros [|j] msg' Hlt; simpl.
      * intros [= <-] t'' i' code' Ht'. rewrite Hm in Ht'. simplify_eq.
        by apply re_search_none.
      * apply Hj. lia.
  - intros (i & msg & t & k & Hi & Ht & Hs & Hk & Hj)%IH.
    exists (S i), msg, t, k. split_and!; try done.
    intros [|j] msg' Hlt; simpl.
    + intros [= <-] t' i' code' Ht'. rewrite Hm in Ht'. simplify_eq.
    + apply Hj. lia.
Qed.

Lemma first_otp_none msgs :
  first_otp is_digit is_word msgs = None →
  ∀ msg, msg ∈ msgs → has_no_code is_digit is_word msg.
Proof.
  induction msgs as [|m msgs IH]; simpl; intros Hf msg Hin.
  - by apply elem_of_nil in Hin.
  - apply elem_of_cons in Hin as [-> | Hin].
    + intros t i code Ht. rewrite Ht in Hf. destruct t as [|c t']; [| idtac].
      * intros (pre & post & Heq & _ & Hlen & _).
        destruct pre, code; simpl in *; discriminate.
      * destruct (re_search is_digit is_word (c :: t')) eqn:Hr; [discriminate |].
        by apply re_search_none.
    + apply IH; [| done].
      destruct (msg_text m) as [[|c t']|]; try done.
      by destruct (re_search is_digit is_word (c :: t')).
Qed.

End RegexFacts.

Lemma ascii_digit_is_word c : ascii_digit c = true → ascii_word c = true.
Proof.
  unfold ascii_digit, ascii_word. intros ->. done.
Qed.


(** * The claims *)

(** ** C1: export failure after a verified code *)

(** C1 (the code departs from it).  User 7 holds an attempt whose client 0 is
    open; the code (or the password) is accepted, then
    [export_session_string] raises.  Both [verify_otp_and_save_async] and
    [verify_2fa_password_async] answer "Failed to get session string", and
    no record is written; but the entry of user 7 is still in
    [login_states], client 0 is still connected and [disconnect] was never
    called on it, against the clean-up the claim requires. *)
Theorem export_failure_leaves_entry_and_connection :
  let r := verify_otp_and_save_async env_export_fails 7 "54321" w_waiting_otp in
  let r2 := verify_2fa_password_async env_export_fails 7 "hunter2" w_waiting_password in
  r.1 = Ret (false, Some "Failed to get session string") ∧
  login_states r.2 !! 7 = Some st_waiting_otp ∧
  connected r.2 0 = true ∧ disconnects 0 (trace r.2) = 0%nat ∧ accounts_col r.2 = [] ∧
  ¬ export_failure_cleans_up r 7 0 ∧
  r2.1 = Ret (false, Some "Failed to get session string") ∧
  login_states r2.2 !! 7 = Some st_waiting_password ∧
  connected r2.2 0 = true ∧ disconnects 0 (trace r2.2) = 0%nat ∧ accounts_col r2.2 = [] ∧
  ¬ export_failure_cleans_up r2 7 0.
Proof.
  unfold export_failure_cleans_up. vm_compute.
  repeat split; try reflexivity; intros (_ & H & _); discriminate.
Qed.

(** The general form of the export failure: once the code is accepted and
    [get_session_string] yields nothing, the handler returns at once, in the
    world that [get_session_string] left: same entries, no disconnect. *)
Lemma export_failure_returns_early env w uid otp_code st c mgr phone hash
    status error w1 r w2 :
  login_states w !! uid = Some st →
  st_client st = Some c → st_manager st = Some mgr → st_phone st = Some phone →
  st_phone_code_hash st = Some hash → is_Some (heap w !! c) →
  sign_in_with_otp env c phone hash otp_code w = (Ret (true, status, error), w1) →
  get_session_string env c w1 = (Ret r, w2) → truthy_str r = false →
  verify_otp_and_save_async env uid otp_code w
    = (Ret (false, Some "Failed to get session string"), w2) ∧
  login_states w2 = login_states w ∧ accounts_col w2 = accounts_col w ∧
  connected w2 c = true ∧ disconnects c (trace w2) = disconnects c (trace w).
Proof.
  intros Hst Hc Hm Hp Hh Hheap Hsign Hexp Hr.
  destruct (sign_in_with_otp_success _ _ _ _ _ _ _ _ _ Hheap Hsign)
    as (-> & (Hl1 & Ha1 & _) & Hc1 & Hd1).
  destruct (get_session_string_connected _ _ _ _ _ Hc1 Hexp)
    as ((Hl2 & Ha2 & _) & Hc2 & Hd2).
  split_and!; try congruence.
  unfold verify_otp_and_save_async.
  unfold try_ at 1. step. unfold get_world at 1. cbv beta iota.
  rewrite Hst, Hc, Hm, Hp, Hh. unfold subscript.
  do 4 (step; unfold ret at 1; cbv beta iota).
  step. rewrite Hsign. cbv beta iota.
  rewrite bool_decide_eq_false_2 by done.
  change (negb true) with false. cbv iota.
  step. rewrite Hexp. cbv beta iota.
  destruct r as [s|]; [| done]. simpl in Hr.
  apply negb_false_iff in Hr. rewrite Hr. done.
Qed.

(** ** C2: one disconnect per terminal transition *)

(** C2 (the code departs from it).  User 7 holds an attempt whose client 0 is
    open; the code (or the password) is accepted and the credential exported,
    then [insert_one] raises.  The handler removes the entry of user 7 (a
    terminal transition) and answers the failure, but [disconnect] is never
    called on client 0, which stays connected: zero disconnects, not one. *)
Theorem exception_drops_entry_without_disconnect :
  let r := verify_otp_and_save_async env_insert_fails 7 "54321" w_waiting_otp in
  let r2 := verify_2fa_password_async env_insert_fails 7 "hunter2" w_waiting_password in
  r.1 = Ret (false, Some "database unavailable") ∧
  login_states r.2 !! 7 = None ∧
  connected r.2 0 = true ∧ disconnects 0 (trace r.2) = 0%nat ∧
  ¬ terminal_disconnects_once w_waiting_otp r 7 0 ∧
  r2.1 = Ret (false, Some "database unavailable") ∧
  login_states r2.2 !! 7 = None ∧
  connected r2.2 0 = true ∧ disconnects 0 (trace r2.2) = 0%nat ∧
  ¬ terminal_disconnects_once w_waiting_password r2 7 0.
Proof.
  unfold terminal_disconnects_once. vm_compute.
  repeat split; try reflexivity; intros H; specialize (H eq_refl); discriminate.
Qed.

(** The general form of the failed insertion: the handler pops the entry
    and answers the text of the exception; no disconnect is called. *)
Lemma insert_failure_pops_without_disconnect env w uid otp_code st c mgr phone hash
    country status error w1 s w2 e w3 :
  login_states w !! uid = Some st →
  st_client st = Some c → st_manager st = Some mgr → st_phone st = Some phone →
  st_phone_code_hash st = Some hash → st_country st = Some country →
  is_Some (heap w !! c) →
  sign_in_with_otp env c phone hash otp_code w = (Ret (true, status, error), w1) →
  get_session_string env c w1 = (Ret (Some s), w2) → s ≠ "" →
  insert_one env (account_record country phone s false None (now w) uid) w2 = (Raise e, w3) →
  is_Exception e = true →
  ∃ w',
    verify_otp_and_save_async env uid otp_code w = (Ret (false, Some (str_exn e)), w') ∧
    login_states w' !! uid = None ∧ accounts_col w' = accounts_col w ∧
    connected w' c = true ∧ disconnects c (trace w') = disconnects c (trace w).
Proof.
  intros Hst Hc Hm Hp Hh Hco Hheap Hsign Hexp Hs Hins He.
  destruct (sign_in_with_otp_success _ _ _ _ _ _ _ _ _ Hheap Hsign)
    as (-> & (Hl1 & Ha1 & _ & _ & Hn1) & Hc1 & Hd1).
  destruct (get_session_string_connected _ _ _ _ _ Hc1 Hexp)
    as ((Hl2 & Ha2 & _ & _ & Hn2) & Hc2 & Hd2).
  pose proof (insert_one_failure _ _ _ _ _ Hins) as ->.
  eexists. split.
  - unfold verify_otp_and_save_async, pop_login_state.
    unfold try_ at 1. step. unfold get_world at 1. cbv beta iota.
    rewrite Hst, Hc, Hm, Hp, Hh. unfold subscript.
    do 4 (step; unfold ret at 1; cbv beta iota).
    step. rewrite Hsign. cbv beta iota.
    rewrite bool_decide_eq_false_2 by done.
    change (negb true) with false. cbv iota.
    step. rewrite Hexp. cbv beta iota.
    rewrite (proj2 (String.eqb_neq s "") Hs), Hco.
    do 2 (step; unfold ret at 1; cbv beta iota).
    step. unfold get_world at 1. cbv beta iota. rewrite Hn2, Hn1.
    step. rewrite Hins. cbv beta iota.
    unfold except_Exception. rewrite He. unfold bind, modify, ret. done.
  - simpl. rewrite lookup_delete_eq, Ha2, Ha1.
    split_and!; try done.
    rewrite disconnects_app, disconnects_other by done. lia.
Qed.

(** ** C3: events without an entry *)

(** C3 (the code departs from it).  With no entry for user 7, the phone and
    the code events answer the failure "Session expired"; the password event
    does not raise either, but it answers the text of the [KeyError], the
    user id "7", not "Session expired". *)
Theorem password_without_entry_reports_key env :
  verify_2fa_password_async env 7 "hunter2" w_empty = (Ret (false, Some "7"), w_empty) ∧
  ¬ answers_session_expired (verify_2fa_password_async env 7 "hunter2" w_empty) ∧
  answers_session_expired (verify_otp_and_save_async env 7 "54321" w_empty) ∧
  answers_session_expired
    (pyrogram_login_flow_async env 7 "+15551234567" 0 0 "US" 6435225 "h" w_empty).
Proof.
  unfold answers_session_expired. repeat split; try reflexivity.
  intros H. vm_compute in H. discriminate.
Qed.

(** The two guarded events of account.py answer "Session expired" when the
    user has no entry, and change nothing. *)
Lemma no_entry_phone env uid phone chat_id message_id country api_id api_hash w :
  login_states w !! uid = None →
  pyrogram_login_flow_async env uid phone chat_id message_id country api_id api_hash w
    = (Ret (false, Some "Session expired"), w).
Proof.
  intros H. unfold pyrogram_login_flow_async, try_, bind, get_world. by rewrite H.
Qed.

Lemma no_entry_code env uid otp_code w :
  login_states w !! uid = None →
  verify_otp_and_save_async env uid otp_code w = (Ret (false, Some "Session expired"), w).
Proof.
  intros H. unfold verify_otp_and_save_async, try_, bind, get_world. by rewrite H.
Qed.

(** The password event has no such guard: the failed lookup is caught and
    its text, the user id, is the answer. *)
Lemma no_entry_password env uid password w :
  login_states w !! uid = None →
  ∃ w', verify_2fa_password_async env uid password w = (Ret (false, Some (str_Z uid)), w') ∧
        login_states w' = login_states w.
Proof.
  intros H. unfold verify_2fa_password_async, pop_login_state.
  unfold try_, bind, get_world, subscript, raise, except_Exception, modify, ret.
  rewrite H. simpl. eexists. split; [done |]. simpl. by apply delete_id.
Qed.

(** bot.py: a text from a user without an entry is ignored. *)
Lemma no_entry_text env uid text w :
  user_state w !! uid = None → text_handler env uid text w = (Ret tt, w).
Proof. intros H. unfold text_handler, bind, get_world. by rewrite H. Qed.

(** ** C4: a new attempt over an open one *)

(** Counterexample to C4 as worded: user 7 has an open client 0 and submits
    a phone number again; the attempt is accepted and client 0 is never
    disconnected. *)
Lemma old_session_not_released :
  ¬ old_session_released env_ok w_waiting_otp 7 "+15557654321" "US" 6435225 "h".
Proof.
  intros H. specialize (H st_waiting_otp 0%nat eq_refl eq_refl eq_refl).
  vm_compute in H. destruct H as [[msg H] | H]; [discriminate | lia].
Qed.

(** C4, amended.  When a phone submission succeeds for a user whose entry
    already holds a client [c0], the store still has exactly the same users
    (one entry for the user), the entry now holds the freshly created
    client, and the old client is left as it was: only [connect] and
    [send_code] on the new client are called, nothing on [c0], which is not
    disconnected. *)
Theorem new_attempt_overwrites_open_client env w uid phone chat_id message_id country
    api_id api_hash st c0 msg w' :
  login_states w !! uid = Some st → st_client st = Some c0 → is_Some (heap w !! c0) →
  pyrogram_login_flow_async env uid phone chat_id message_id country api_id api_hash w
    = (Ret (true, msg), w') →
  length (heap w) ≠ c0 ∧
  (∃ st', login_states w' !! uid = Some st' ∧ st_client st' = Some (length (heap w))) ∧
  dom (login_states w') = dom (login_states w) ∧
  heap w' !! c0 = heap w !! c0 ∧
  trace w' = trace w ++ [Connect (length (heap w)); SendCode (length (heap w)) phone] ∧
  disconnects c0 (trace w') = disconnects c0 (trace w).
Proof.
  intros Hst Hc0 [o0 Ho0].
  pose (o := mkClient ("client_" +:+ str_Z (now w)) (Some false) (Some false)).
  pose (w1 := set_heap (heap w ++ [o]) w).
  pose (c1 := length (heap w)).
  assert (heap w1 !! c1 = Some o) as Ho by apply new_client_lookup.
  assert (connected w1 c1 = false) as Hnc.
  { unfold connected, attr_is_connected. by rewrite Ho. }
  assert (c0 < c1)%nat as Hlt by (by eapply lookup_lt_Some).
  unfold pyrogram_login_flow_async.
  unfold try_ at 1. step. unfold get_world at 1. cbv beta iota. rewrite Hst.
  unfold create_client. step. step. unfold get_world at 1. cbv beta iota.
  unfold new_Client. fold o w1 c1. cbv beta iota. step.
  destruct (send_code env c1 phone w1) as [[[[success h] e]|ex] w2] eqn:Hsc; cbv beta iota.
  - destruct success.
    + apply (send_code_success _ _ _ _ _ _ _ _ Ho Hnc) in Hsc. subst w2.
      unfold after_connect. unfold_monad. simpl. rewrite Hst. simpl.
      intros; simplify_eq. simpl. split_and!.
      * lia.
      * eexists. rewrite lookup_insert_eq. done.
      * apply dom_insert_lookup_L. done.
      * rewrite list_lookup_insert_ne by lia. by rewrite lookup_app_l.
      * done.
      * change [Connect c1; SendCode c1 phone] with ([Connect c1] ++ [SendCode c1 phone]).
        rewrite !disconnects_app, !disconnects_other by done. lia.
    + destruct (safe_disconnect_run env (Some c1) w2) as (w3 & Hsd & _).
      step. rewrite Hsd. unfold ret. intros; simplify_eq.
  - unfold except_Exception. destruct (is_Exception ex); unfold ret; intros; simplify_eq.
Qed.

(** The phone submission of user 7, who has client 0 open. *)
Lemma new_attempt_overwrites_open_client_witness :
  1%nat ≠ 0%nat ∧
  (∃ st', login_states
            (pyrogram_login_flow_async env_ok 7 "+15557654321" 0 0 "US" 6435225 "h"
               w_waiting_otp).2 !! 7 = Some st' ∧
          st_client st' = Some 1%nat) ∧
  dom (login_states
         (pyrogram_login_flow_async env_ok 7 "+15557654321" 0 0 "US" 6435225 "h"
            w_waiting_otp).2) = dom (login_states w_waiting_otp) ∧
  heap (pyrogram_login_flow_async env_ok 7 "+15557654321" 0 0 "US" 6435225 "h"
          w_waiting_otp).2 !! 0%nat = Some open_client ∧
  trace (pyrogram_login_flow_async env_ok 7 "+15557654321" 0 0 "US" 6435225 "h"
           w_waiting_otp).2 = [Connect 1; SendCode 1 "+15557654321"] ∧
  disconnects 0 (trace (pyrogram_login_flow_async env_ok 7 "+15557654321" 0 0 "US" 6435225
                          "h" w_waiting_otp).2) = 0%nat.
Proof.
  apply (new_attempt_overwrites_open_client env_ok w_waiting_otp 7 "+15557654321" 0 0 "US"
           6435225 "h" st_waiting_otp 0%nat (Some "OTP sent successfully")).
  - reflexivity.
  - reflexivity.
  - exists open_client. reflexivity.
  - vm_compute. reflexivity.
Defined.

(** bot.py: a user at the code step asks to add an account again and sends
    a phone number; [temp_clients] now holds the new client, and nothing was
    called on the old one. *)
Example bot_second_phone_overwrites_client :
  let r := (callbacks_add env_ok 7 ;;; text_handler env_ok 7 "+15557654321") w_bot_otp in
  r.1 = Ret tt ∧
  temp_clients r.2 !! 7 = Some 1%nat ∧
  connected r.2 0 = true ∧ disconnects 0 (trace r.2) = 0%nat.
Proof. vm_compute. repeat split; reflexivity. Qed.

(** ** C5: finalization after a verified code *)

(** Counterexample to C5 as worded: the code of user 7 is accepted with no
    second factor, but the export of the credential fails; no record is
    written. *)
Lemma code_success_without_export :
  ¬ code_success_finalizes env_export_fails w_waiting_otp 7 "54321".
Proof.
  intros H.
  specialize (H st_waiting_otp 0%nat "+15551234567" "HASH" None None
                (set_trace [SignIn 0 "+15551234567" "54321" "HASH"] w_waiting_otp)
                eq_refl eq_refl eq_refl eq_refl eq_refl).
  vm_compute in H. destruct H as (H & _). discriminate.
Qed.

(** C5, amended.  When the code is accepted with no second factor, the
    export yields a non-empty credential and the insertion does not raise,
    [verify_otp_and_save_async] succeeds, exactly one record is appended to
    the collection (with [has_2fa] false and [two_step_password] [None]),
    the user's entry is removed, and [disconnect] is called exactly once on
    the attempt's client. *)
Theorem code_success_finalizes_after_export env w uid otp_code st c mgr phone hash country
    status error w1 s w2 w3 :
  login_states w !! uid = Some st →
  st_client st = Some c → st_manager st = Some mgr → st_phone st = Some phone →
  st_phone_code_hash st = Some hash → st_country st = Some country →
  is_Some (heap w !! c) →
  sign_in_with_otp env c phone hash otp_code w = (Ret (true, status, error), w1) →
  get_session_string env c w1 = (Ret (Some s), w2) → s ≠ "" →
  insert_one env (account_record country phone s false None (now w) uid) w2 = (Ret tt, w3) →
  ∃ w',
    verify_otp_and_save_async env uid otp_code w
      = (Ret (true, Some "Account added successfully"), w') ∧
    accounts_col w' = accounts_col w ++ [account_record country phone s false None (now w) uid] ∧
    account_record country phone s false None (now w) uid !! "has_2fa" = Some (VBool false) ∧
    account_record country phone s false None (now w) uid !! "two_step_password" = Some VNone ∧
    login_states w' = delete uid (login_states w) ∧
    disconnects c (trace w') = S (disconnects c (trace w)).
Proof.
  intros Hst Hc Hm Hp Hh Hco Hheap Hsign Hexp Hs Hins.
  destruct (sign_in_with_otp_success _ _ _ _ _ _ _ _ _ Hheap Hsign)
    as (-> & (Hl1 & Ha1 & _ & _ & Hn1) & Hc1 & Hd1).
  destruct (get_session_string_connected _ _ _ _ _ Hc1 Hexp)
    as ((Hl2 & Ha2 & _ & _ & Hn2) & Hc2 & Hd2).
  destruct (insert_one_success _ _ _ _ Hins) as (Ha3 & Hl3 & Hh3 & Ht3 & Hn3).
  assert (connected w3 c = true) as Hc3.
  { unfold connected, attr_is_connected in *. by rewrite Hh3. }
  destruct (safe_disconnect_run env (Some c) w3) as (w4 & Hsd & Ht4 & (Hl4 & Ha4 & _)).
  exists (set_login_states (delete uid (login_states w4)) w4).
  split.
  - unfold verify_otp_and_save_async, pop_login_state.
    unfold try_ at 1. step. unfold get_world at 1. cbv beta iota.
    rewrite Hst, Hc, Hm, Hp, Hh. unfold subscript.
    do 4 (step; unfold ret at 1; cbv beta iota).
    step. rewrite Hsign. cbv beta iota.
    rewrite bool_decide_eq_false_2 by done.
    change (negb true) with false. cbv iota.
    step. rewrite Hexp. cbv beta iota.
    rewrite (proj2 (String.eqb_neq s "") Hs), Hco.
    do 2 (step; unfold ret at 1; cbv beta iota).
    step. unfold get_world at 1. cbv beta iota. rewrite Hn2, Hn1.
    step. rewrite Hins. cbv beta iota.
    step. rewrite Hsd. done.
  - simpl. rewrite Ha4, Ha3, Ha2, Ha1, Hl4, Hl3, Hl2, Hl1, Ht4, Ht3.
    split_and!; try done.
    rewrite !disconnects_app, disconnects_other, disconnects_teardown by done.
    rewrite Hd2, Hd1. lia.
Qed.

(** The accepted code of user 7, every call succeeding. *)
Lemma code_success_finalizes_after_export_witness :
  ∃ w',
    verify_otp_and_save_async env_ok 7 "54321" w_waiting_otp
      = (Ret (true, Some "Account added successfully"), w') ∧
    accounts_col w' =
      [account_record "US" "+15551234567" "CREDENTIAL" false None 1000 7] ∧
    account_record "US" "+15551234567" "CREDENTIAL" false None 1000 7 !! "has_2fa"
      = Some (VBool false) ∧
    account_record "US" "+15551234567" "CREDENTIAL" false None 1000 7 !! "two_step_password"
      = Some VNone ∧
    login_states w' = delete 7 (login_states w_waiting_otp) ∧
    disconnects 0 (trace w') = 1%nat.
Proof.
  eapply (code_success_finalizes_after_export env_ok w_waiting_otp 7 "54321" st_waiting_otp
            0%nat demo_manager "+15551234567" "HASH" "US" None None).
  - reflexivity.
  - reflexivity.
  - reflexivity.
  - reflexivity.
  - reflexivity.
  - reflexivity.
  - exists open_client. reflexivity.
  - vm_compute. reflexivity.
  - vm_compute. reflexivity.
  - discriminate.
  - vm_compute. reflexivity.
Defined.

(** ** C6: a rate-limited phone submission *)

(** Counterexample to C6 as worded: the phone submission of user 7, whose
    entry is fresh, is answered by [FloodWait] of 30 seconds; the entry of
    user 7 is still in the store afterwards. *)
Lemma rate_limit_entry_remains :
  ¬ rate_limit_leaves_no_entry env_flood w_fresh 7 "+15551234567" "US" 6435225 "h".
Proof.
  intros H. specialize (H 30 "FLOOD_WAIT_30" (ex_intro _ st_fresh eq_refl) eq_refl eq_refl).
  vm_compute in H. destruct H as (_ & H & _). discriminate.
Qed.

(** C6, amended.  When [connect] succeeds and [send_code] raises
    [FloodWait] of [seconds] seconds, the flow answers the failure
    "FloodWait: Please wait <seconds> seconds", the new client is torn down
    (inner session stopped, then [disconnect], once), [send_code] is
    requested exactly once (no retry), and [login_states] is unchanged: the
    user's existing entry is left in place, not removed. *)
Theorem rate_limited_phone_step env w uid phone chat_id message_id country api_id api_hash
    seconds msg :
  is_Some (login_states w !! uid) →
  env_unit env (trace w ++ [Connect (length (heap w))]) = None →
  env_str env (trace w ++ [Connect (length (heap w)); SendCode (length (heap w)) phone])
    = Raise (FloodWait seconds msg) →
  ∃ w',
    pyrogram_login_flow_async env uid phone chat_id message_id country api_id api_hash w
      = (Ret (false, Some (flood_message seconds)), w') ∧
    login_states w' = login_states w ∧
    trace w' = trace w ++ [Connect (length (heap w)); SendCode (length (heap w)) phone;
                           SessionStop (length (heap w)); Disconnect (length (heap w))] ∧
    send_codes (trace w') = S (send_codes (trace w)) ∧
    disconnects (length (heap w)) (trace w') = S (disconnects (length (heap w)) (trace w)).
Proof.
  intros [st Hst] Hconn Hsend.
  pose (o := mkClient ("client_" +:+ str_Z (now w)) (Some false) (Some false)).
  pose (w1 := set_heap (heap w ++ [o]) w).
  pose (c1 := length (heap w)).
  assert (heap w1 !! c1 = Some o) as Ho by apply new_client_lookup.
  assert (connected w1 c1 = false) as Hnc.
  { unfold connected, attr_is_connected. by rewrite Ho. }
  pose proof (send_code_flood env c1 phone w1 o seconds msg Ho Hnc Hconn Hsend) as Hsc.
  set (w2 := after_connect _ _ _ _) in Hsc.
  assert (connected w2 c1 = true ∧ attr_true (attr_session w2 c1) = true) as [Hc2 Hs2].
  { unfold connected, attr_is_connected, attr_session, w2, after_connect. simpl.
    rewrite list_lookup_insert_eq; [done |].
    rewrite length_app. simpl. unfold c1. lia. }
  destruct (safe_disconnect_run env (Some c1) w2) as (w3 & Hsd & Ht3 & (Hl3 & _)).
  exists w3. split.
  - unfold pyrogram_login_flow_async.
    unfold try_ at 1. step. unfold get_world at 1. cbv beta iota. rewrite Hst.
    unfold create_client. step. step. unfold get_world at 1. cbv beta iota.
    unfold new_Client. fold o w1 c1. cbv beta iota.
    step. rewrite Hsc. cbv beta iota.
    step. rewrite Hsd. cbv beta iota. unfold ret.
    cbn [or_str]. rewrite flood_message_not_empty. done.
  - rewrite Hl3, Ht3. unfold teardown_calls. rewrite Hc2, Hs2.
    unfold w2, after_connect. simpl. rewrite <- app_assoc. simpl. fold c1.
    split_and!; try done.
    + rewrite send_codes_app. unfold send_codes at 2. simpl. lia.
    + change [Connect c1; SendCode c1 phone; SessionStop c1; Disconnect c1]
        with ([Connect c1; SendCode c1 phone; SessionStop c1] ++ [Disconnect c1]).
      rewrite !disconnects_app, disconnects_self.
      change [Connect c1; SendCode c1 phone; SessionStop c1]
        with ([Connect c1] ++ [SendCode c1 phone] ++ [SessionStop c1]).
      rewrite !disconnects_app, !disconnects_other by done. lia.
Qed.

(** The phone submission of user 7, whose entry is fresh, under a flood
    wait of 30 seconds. *)
Lemma rate_limited_phone_step_witness :
  ∃ w',
    pyrogram_login_flow_async env_flood 7 "+15551234567" 0 0 "US" 6435225 "h" w_fresh
      = (Ret (false, Some "FloodWait: Please wait 30 seconds"), w') ∧
    login_states w' = login_states w_fresh ∧
    trace w' = [Connect 0; SendCode 0 "+15551234567"; SessionStop 0; Disconnect 0] ∧
    send_codes (trace w') = 1%nat ∧
    disconnects 0 (trace w') = 1%nat.
Proof.
  apply (rate_limited_phone_step env_flood w_fresh 7 "+15551234567" 0 0 "US" 6435225
           "h" 30 "FLOOD_WAIT_30").
  - exists st_fresh. reflexivity.
  - reflexivity.
  - reflexivity.
Defined.

(** bot.py, phone step under FloodWait: the entry stays at the phone step
    and the new client is disconnected. *)
Example bot_flood_wait_keeps_phone_step :
  let r := text_handler env_flood 7 " +15551234567 " w_bot_phone in
  r.1 = Ret tt ∧
  user_state r.2 !! 7 = Some (mkUstate "phone" None None) ∧
  temp_clients r.2 !! 7 = None ∧
  trace r.2 = [Connect 0; SendCode 0 "+15551234567";
               Reply "⏳ Flood wait: wait 30 seconds"; Disconnect 0].
Proof. vm_compute. repeat split; reflexivity. Qed.

(** ** C7: abandoning an attempt *)

(** Counterexample to C7 as worded: user 7 is at the code step with client
    0 open; [cleanup] removes the entry but calls nothing on the client. *)
Lemma abandon_leaves_session_open : ¬ abandon_disconnects w_bot_otp 7.
Proof.
  intros H.
  specialize (H (mkUstate "otp" (Some "+15551234567") (Some "HASH")) 0%nat
                eq_refl eq_refl eq_refl eq_refl).
  vm_compute in H. destruct H as (_ & H). lia.
Qed.

(** C7, amended.  [cleanup uid] never raises and removes the user's entries
    from [user_state] and [temp_clients]; it makes no external call and
    leaves every client as it was (it does not disconnect).  A text sent by
    that user afterwards is ignored by [text_handler] (no reply, no
    change); and in the account module, once the user's entry is popped from
    [login_states], a submitted code is answered "Session expired". *)
Theorem cleanup_removes_without_disconnecting env w uid code :
  let w' := (cleanup uid w).2 in
  (cleanup uid w).1 = Ret tt ∧
  user_state w' !! uid = None ∧ temp_clients w' !! uid = None ∧
  trace w' = trace w ∧ heap w' = heap w ∧
  text_handler env uid code w' = (Ret tt, w') ∧
  verify_otp_and_save_async env uid code (pop_login_state uid w').2
    = (Ret (false, Some "Session expired"), (pop_login_state uid w').2).
Proof.
  unfold cleanup, text_handler, verify_otp_and_save_async, pop_login_state.
  unfold_monad. simpl. rewrite !lookup_delete_eq. done.
Qed.

(** ** C8: reading a second-factor record back *)

(** Counterexample to C8 as worded: the password of user 7 is accepted and
    the record with the secret is written; the lookup by owner and phone
    finds nothing. *)
Lemma secret_not_read_back : ¬ secret_round_trip env_ok w_waiting_password 7 "hunter2".
Proof.
  intros H.
  destruct (verify_2fa_password_async env_ok 7 "hunter2" w_waiting_password)
    as [r w'] eqn:Hr.
  vm_compute in Hr. injection Hr as <- <-.
  specialize (H st_waiting_password "+15551234567" (Some "Account added successfully") _
                eq_refl eq_refl eq_refl).
  destruct H as (d & Hd & _). vm_compute in Hd. discriminate.
Qed.

(** C8, amended.  A record that [save_account] writes with [two_step] true
    is found by the lookup on owner and phone: the lookup returns a record
    of that owner and phone, and the written record itself unless an older
    one matches; the written record carries the flag and no secret.  A
    record that [verify_2fa_password_async] writes carries [has_2fa] true,
    the password as supplied and the phone of the entry, but it is keyed by
    [created_by], and the lookup on owner and phone does not return it. *)
Theorem second_factor_record_read_back env uid :
  (∀ w phone c w1,
     save_account env uid phone c true w = (Ret tt, w1) →
     ∃ session,
       let d := bot_record uid phone session true (now w) in
       accounts_col w1 = accounts_col w ++ [d] ∧
       d !! "two_step" = Some (VBool true) ∧ d !! "two_step_password" = None ∧
       find_account uid phone w1 =
         match find_account uid phone w with Some x => Some x | None => Some d end ∧
       ∃ x, find_account uid phone w1 = Some x ∧
            x !! "user_id" = Some (VInt uid) ∧ x !! "phone" = Some (VStr phone)) ∧
  (∀ w password msg w2,
     verify_2fa_password_async env uid password w = (Ret (true, msg), w2) →
     ∃ st country ph s,
       let d := account_record country ph s true (Some password) (now w) uid in
       login_states w !! uid = Some st ∧ st_phone st = Some ph ∧
       accounts_col w2 = accounts_col w ++ [d] ∧
       d !! "has_2fa" = Some (VBool true) ∧
       d !! "two_step_password" = Some (VStr password) ∧
       d !! "phone" = Some (VStr ph) ∧
       find_account uid ph w2 = find_account uid ph w).
Proof.
  split.
  - intros w phone c w1 Hsave.
    revert Hsave. unfold save_account, client_export_session_string, insert_one,
      client_disconnect. unfold_monad. simpl.
    destruct (env_str env _) as [session|ex]; simpl; [| intros; simplify_eq].
    destruct (env_unit env _) as [ex|]; simpl; [intros; simplify_eq |].
    destruct (env_unit env _) as [ex|]; simpl; [intros; simplify_eq |].
    intros Heq. exists session.
    assert (accounts_col w1 = accounts_col w ++ [bot_record uid phone session true (now w)])
      as Hcol by (repeat case_match; simplify_eq; done).
    assert (find_account uid phone w1 =
            match find_account uid phone w with
            | Some x => Some x
            | None => Some (bot_record uid phone session true (now w))
            end) as Hfind.
    { unfold find_account. rewrite Hcol. apply find_one_app_match, bot_record_matches. }
    split_and!; try done.
    destruct (find_account uid phone w) as [x|] eqn:Hx.
    + exists x. split; [done |]. by apply matches_owner_phone, (find_one_matches _ _ _ Hx).
    + eexists. split; [done |]. done.
  - intros w password msg w2 Hver.
    revert Hver. unfold verify_2fa_password_async.
    intros [Hver | (ex & wx & k & _ & Hk & Hver)]%try_inv; cycle 1.
    { unfold except_Exception in Hk. destruct (is_Exception ex); [| done].
      injection Hk as <-. apply bind_inv in Hver as (? & ? & _ & Hver). done. }
    apply bind_inv in Hver as (w0 & ? & [= <- <-] & Hver).
    apply bind_inv in Hver as (st & ? & Hst%subscript_inv & Hver).
    destruct Hst as [Hst <-].
    apply bind_inv in Hver as (c' & ? & [Hc <-]%subscript_inv & Hver).
    apply bind_inv in Hver as (mgr & ? & [Hm <-]%subscript_inv & Hver).
    apply bind_inv in Hver as ([success e] & wa & Hsign & Hver).
    apply sign_in_with_password_frame in Hsign as (Hl1 & Ha1 & _ & _ & Hn1).
    destruct success; [| done]. cbn [negb] in Hver.
    apply bind_inv in Hver as ([s|] & wb & Hexp & Hver); [| done].
    apply get_session_string_frame in Hexp as (Hl2 & Ha2 & _ & _ & Hn2).
    destruct (s =? "")%string; [done |].
    apply bind_inv in Hver as (country & ? & [Hco <-]%subscript_inv & Hver).
    apply bind_inv in Hver as (ph & ? & [Hph <-]%subscript_inv & Hver).
    apply bind_inv in Hver as (? & ? & [= <- <-] & Hver).
    apply bind_inv in Hver as ([] & wc & Hins & Hver).
    apply insert_one_success in Hins as (Ha3 & Hl3 & _ & _ & Hn3).
    apply bind_inv in Hver as ([] & wd & Hsd & Hver).
    destruct (safe_disconnect_run env (Some c') wc) as (wd' & Hsd' & _ & (Hl4 & Ha4 & _)).
    rewrite Hsd in Hsd'. injection Hsd' as <-.
    apply bind_inv in Hver as ([] & we & [= <-] & [= _ <-]).
    exists st, country, ph, s. simpl.
    rewrite Ha4, Ha3, Ha2, Ha1, Hn2, Hn1.
    split_and!; try done.
    unfold find_account. simpl. rewrite Ha4, Ha3, Ha2, Ha1, Hn2, Hn1.
    apply find_one_app_no_match, account_record_no_match.
Qed.

(** Both writers, every call succeeding: [save_account] for user 7 of the
    bot, at the password step, and the password step of the account module
    for its user 7. *)
Lemma second_factor_record_read_back_witness :
  (∃ session,
     let d := bot_record 7 "+15551234567" session true 1000 in
     accounts_col (save_account env_ok 7 "+15551234567" 0 true w_bot_password).2 = [d] ∧
     d !! "two_step" = Some (VBool true) ∧ d !! "two_step_password" = None ∧
     find_account 7 "+15551234567"
       (save_account env_ok 7 "+15551234567" 0 true w_bot_password).2 = Some d ∧
     ∃ x, find_account 7 "+15551234567"
            (save_account env_ok 7 "+15551234567" 0 true w_bot_password).2 = Some x ∧
          x !! "user_id" = Some (VInt 7) ∧ x !! "phone" = Some (VStr "+15551234567")) ∧
  (∃ st country ph s,
     let d := account_record country ph s true (Some "hunter2") 1000 7 in
     login_states w_waiting_password !! 7 = Some st ∧ st_phone st = Some ph ∧
     accounts_col (verify_2fa_password_async env_ok 7 "hunter2" w_waiting_password).2 = [d] ∧
     d !! "has_2fa" = Some (VBool true) ∧
     d !! "two_step_password" = Some (VStr "hunter2") ∧
     d !! "phone" = Some (VStr ph) ∧
     find_account 7 ph (verify_2fa_password_async env_ok 7 "hunter2" w_waiting_password).2
       = None).
Proof.
  split.
  - apply (proj1 (second_factor_record_read_back env_ok 7) w_bot_password "+15551234567"
             0%nat _).
    vm_compute. reflexivity.
  - apply (proj2 (second_factor_record_read_back env_ok 7) w_waiting_password "hunter2"
             (Some "Account added successfully") _).
    vm_compute. reflexivity.
Defined.

(** ** C9: safe_disconnect *)

(** C9.  For every handle (none, never connected, lacking the attributes,
    or connected) and every behaviour of the network, [safe_disconnect]
    returns without raising; the calls it makes are the inner session stop,
    when there is a session, followed by the disconnect, and nothing when
    the handle is not connected, whatever the stop or the disconnect
    answer; calling it again does not raise either. *)
Theorem safe_disconnect_never_raises env client w :
  ∃ w', safe_disconnect env client w = (Ret tt, w') ∧
        trace w' = trace w ++ teardown_calls w client ∧
        same_stores w w' ∧
        ∃ w'', safe_disconnect env client w' = (Ret tt, w'').
Proof.
  destruct (safe_disconnect_run env client w) as (w' & Hr & Ht & Hs).
  destruct (safe_disconnect_run env client w') as (w'' & Hr' & _).
  exists w'. split_and!; try done. by exists w''.
Qed.

(** A null handle and a client that never connected: no call at all. *)
Example safe_disconnect_idle env :
  safe_disconnect env None w_empty = (Ret tt, w_empty) ∧
  (new_Client "c" ;;; safe_disconnect env (Some 0%nat)) w_empty
    = (Ret tt, (new_Client "c" w_empty).2).
Proof. split; reflexivity. Qed.

(** An open client whose inner stop and disconnect both raise: both are
    called, in that order, and nothing is raised; nor on a second call. *)
Example safe_disconnect_swallows :
  let r := (safe_disconnect env_teardown_fails (Some 0%nat) ;;;
            safe_disconnect env_teardown_fails (Some 0%nat)) w_waiting_otp in
  r.1 = Ret tt ∧
  trace r.2 = [SessionStop 0; Disconnect 0; SessionStop 0; Disconnect 0].
Proof. vm_compute. split; reflexivity. Qed.

(** ** C10: fetch_latest_otp *)

(** C10.  [fetch_latest_otp] looks only at the (at most) twenty newest
    messages of chat 777000, newest first.  When it answers a code, the code
    is five digits standing alone in the text of a message among them, at
    the leftmost such position, and no newer message among them holds a
    stand-alone five-digit code; when it answers [None], none of them holds
    one.  (The classes of digits and word characters are those of the
    pattern; digits are word characters.) *)
Theorem fetch_latest_otp_first_standalone_code {char} (is_digit is_word : char -> bool)
    (history : Z -> list message) :
  (∀ c, is_digit c = true → is_word c = true) →
  otp_answer_correct is_digit is_word history.
Proof.
  intros Hdw. unfold otp_answer_correct, fetch_latest_otp, get_chat_history.
  destruct (first_otp is_digit is_word (take 20 (history 777000))) as [code|] eqn:Hf.
  - apply (first_otp_some _ _ Hdw) in Hf as (i & msg & t & k & Hi & Ht & Hs & Hk & Hj).
    pose proof Hs as (pre & post & _ & _ & Hlen & Hdig & _).
    split_and!; [done | done |]. exists i, msg, t, k. split_and!; try done.
    apply lookup_lt_Some in Hi. rewrite length_take in Hi. lia.
  - by apply first_otp_none.
Qed.

(** The answer on a history whose newest text holds a six-digit number. *)
Lemma fetch_latest_otp_witness :
  fetch_latest_otp ascii_digit ascii_word demo_history
    = Some (String.list_ascii_of_string "54321") ∧
  otp_answer_correct ascii_digit ascii_word demo_history.
Proof.
  split; [reflexivity |].
  apply (fetch_latest_otp_first_standalone_code ascii_digit ascii_word demo_history).
  exact ascii_digit_is_word.
Defined.

(** * Further properties of the code *)

(** ** Relations kept by every run *)

Lemma bind_inv_any {A B} (m : M A) (f : A → M B) w r w' :
  bind m f w = (r, w') →
  (∃ a w1, m w = (Ret a, w1) ∧ f a w1 = (r, w')) ∨
  (∃ e, m w = (Raise e, w') ∧ r = Raise e).
Proof.
  unfold bind. destruct (m w) as [[a|e] w1].
  - intros H. left. by exists a, w1.
  - intros [= <- <-]. right. by exists e.
Qed.

Lemma try_inv_any {A} (m : M A) h w r w' :
  try_ m h w = (r, w') →
  (∃ a, m w = (Ret a, w') ∧ r = Ret a) ∨
  (∃ e w1, m w = (Raise e, w1) ∧
           match h e with
           | Some k => k w1 = (r, w')
           | None => r = Raise e ∧ w' = w1
           end).
Proof.
  unfold try_. destruct (m w) as [[a|e] w1].
  - intros [= <- <-]. left. by exists a.
  - intros H. right. exists e, w1. split; [done |].
    destruct (h e); [done |]. by injection H as <- <-.
Qed.

Section Maintained.

Variable R : world -> world -> Prop.
Hypothesis R_refl : ∀ w, R w w.
Hypothesis R_trans : ∀ w1 w2 w3, R w1 w2 → R w2 w3 → R w1 w3.

Lemma maintains_ret {A} (a : A) : maintains R (ret a).
Proof. intros w r w' [= <- <-]. apply R_refl. Qed.

Lemma maintains_raise {A} e : maintains R (@raise A e).
Proof. intros w r w' [= <- <-]. apply R_refl. Qed.

Lemma maintains_subscript {A} (o : option A) k : maintains R (subscript o k).
Proof. destruct o; [apply maintains_ret | apply maintains_raise]. Qed.

Lemma maintains_get_world : maintains R get_world.
Proof. intros w r w' [= <- <-]. apply R_refl. Qed.

Lemma maintains_modify f : (∀ w, R w (f w)) → maintains R (modify f).
Proof. intros Hf w r w' [= <- <-]. apply Hf. Qed.

Lemma maintains_bind {A B} (m : M A) (f : A → M B) :
  maintains R m → (∀ a, maintains R (f a)) → maintains R (bind m f).
Proof.
  intros Hm Hf w r w' [(a & w1 & H1 & H2) | (e & H1 & _)]%bind_inv_any.
  - eapply R_trans; [by eapply Hm | by eapply Hf].
  - by eapply Hm.
Qed.

Lemma maintains_try {A} (m : M A) h :
  maintains R m → (∀ e k, h e = Some k → maintains R k) → maintains R (try_ m h).
Proof.
  intros Hm Hh w r w' [(a & H1 & _) | (e & w1 & H1 & H2)]%try_inv_any.
  - by eapply Hm.
  - destruct (h e) as [k|] eqn:Hk.
    + eapply R_trans; [by eapply Hm | by eapply (Hh e k)].
    + destruct H2 as [_ ->]. by eapply Hm.
Qed.

Lemma maintains_except_Exception {A} (m : M A) (k : exn → M A) :
  maintains R m → (∀ e, maintains R (k e)) → maintains R (try_ m (except_Exception k)).
Proof.
  intros Hm Hk. apply maintains_try; [done |]. intros e k'.
  unfold except_Exception. destruct (is_Exception e); [| done].
  intros [= <-]. apply Hk.
Qed.

Lemma maintains_except_all {A} (m k : M A) :
  maintains R m → maintains R k → maintains R (try_ m (except_all k)).
Proof.
  intros Hm Hk. apply maintains_try; [done |]. by intros e k' [= <-].
Qed.

Lemma maintains_new_Client nm :
  (∀ w h, R w (set_heap h w)) → maintains R (new_Client nm).
Proof. intros Hh w r w' [= <- <-]. apply Hh. Qed.

(** A call that [R] accepts on top of the history. *)
Variable env : environment.

Lemma maintains_call_unit x :
  (∀ w, R w (set_trace (trace w ++ [x]) w)) → maintains R (call_unit env x).
Proof.
  intros Hx w r w'. unfold call_unit.
  destruct (env_unit env _); intros [= <- <-]; apply Hx.
Qed.

Lemma maintains_call_str x :
  (∀ w, R w (set_trace (trace w ++ [x]) w)) → maintains R (call_str env x).
Proof. intros Hx w r w' [= <- <-]. apply Hx. Qed.

Lemma maintains_call_me x :
  (∀ w, R w (set_trace (trace w ++ [x]) w)) → maintains R (call_me env x).
Proof. intros Hx w r w' [= <- <-]. apply Hx. Qed.

(** The operations on one client [c], for a relation that accepts the
    calls on [c] and ignores the attributes of [c]. *)
Variable c : nat.
Hypothesis R_calls :
  ∀ x, call_client x = Some c → ∀ w, R w (set_trace (trace w ++ [x]) w).
Hypothesis R_client : ∀ w o, R w (set_heap (<[c := o]> (heap w)) w).

Lemma maintains_set_attrs f : maintains R (set_attrs c f).
Proof.
  apply maintains_modify. intros w. destruct (heap w !! c); [apply R_client | apply R_refl].
Qed.

Lemma maintains_client_connect : maintains R (client_connect env c).
Proof.
  apply maintains_bind; [by apply maintains_call_unit, R_calls | intros; apply maintains_set_attrs].
Qed.

Lemma maintains_client_disconnect : maintains R (client_disconnect env c).
Proof.
  apply maintains_bind; [by apply maintains_call_unit, R_calls | intros; apply maintains_set_attrs].
Qed.

Lemma maintains_safe_disconnect : maintains R (safe_disconnect env (Some c)).
Proof.
  apply maintains_except_all; [| apply maintains_ret].
  apply maintains_bind; [apply maintains_get_world | intros w].
  destruct (connected w c); [| apply maintains_ret].
  apply maintains_bind; [| intros; apply maintains_client_disconnect].
  destruct (attr_true _); [| apply maintains_ret].
  apply maintains_except_all; [by apply maintains_call_unit, R_calls | apply maintains_ret].
Qed.

Lemma maintains_send_code phone : maintains R (send_code env c phone).
Proof.
  apply maintains_try.
  - apply maintains_bind; [apply maintains_get_world | intros w].
    apply maintains_bind.
    { destruct (connected w c); [apply maintains_safe_disconnect | apply maintains_ret]. }
    intros _. apply maintains_bind; [apply maintains_client_connect | intros _].
    apply maintains_bind; [by apply maintains_call_str, R_calls | intros; apply maintains_ret].
  - intros e k. unfold except_Exception.
    destruct e; simpl; intros [= <-]; apply maintains_ret.
Qed.

Lemma maintains_sign_in_with_otp phone hash code :
  maintains R (sign_in_with_otp env c phone hash code).
Proof.
  apply maintains_try.
  - apply maintains_bind; [apply maintains_get_world | intros w].
    apply maintains_bind.
    { destruct (negb _); [apply maintains_client_connect | apply maintains_ret]. }
    intros _. apply maintains_bind; [by apply maintains_call_unit, R_calls | intros; apply maintains_ret].
  - intros e k. unfold except_Exception.
    destruct e; simpl; intros [= <-]; apply maintains_ret.
Qed.

Lemma maintains_sign_in_with_password password :
  maintains R (sign_in_with_password env c password).
Proof.
  apply maintains_except_Exception; [| intros; apply maintains_ret].
  apply maintains_bind; [apply maintains_get_world | intros w].
  apply maintains_bind.
  { destruct (negb _); [apply maintains_client_connect | apply maintains_ret]. }
  intros _. apply maintains_bind; [by apply maintains_call_unit, R_calls | intros; apply maintains_ret].
Qed.

Lemma maintains_get_session_string : maintains R (get_session_string env c).
Proof.
  apply maintains_except_Exception; [| intros; apply maintains_ret].
  apply maintains_bind; [apply maintains_get_world | intros w].
  apply maintains_bind.
  { destruct (negb _); [apply maintains_client_connect | apply maintains_ret]. }
  intros _. apply maintains_except_Exception; [| intros; apply maintains_ret].
  apply maintains_bind; [by apply maintains_call_me, R_calls | intros me].
  destruct me; [| apply maintains_ret].
  apply maintains_bind; [by apply maintains_call_str, R_calls | intros; apply maintains_ret].
Qed.

End Maintained.

(** ** The flows touch their own user and client only *)

Lemma only_user_refl uid w : only_user uid w w.
Proof. by repeat split. Qed.

Lemma only_user_trans uid w1 w2 w3 :
  only_user uid w1 w2 → only_user uid w2 w3 → only_user uid w1 w3.
Proof.
  intros (H1 & H2 & H3 & H4) (H1' & H2' & H3' & H4'). repeat split; try congruence.
  intros u Hu. rewrite H1', H1; done.
Qed.

Lemma only_client_refl c w : only_client c w w.
Proof. by split. Qed.

Lemma only_client_trans c w1 w2 w3 :
  only_client c w1 w2 → only_client c w2 w3 → only_client c w1 w3.
Proof.
  intros [H1 H2] [H1' H2']. split; [congruence |].
  intros c' Hc'. rewrite H2', H2; done.
Qed.

Lemma only_client_other c c' w w' :
  only_client c w w' → c' ≠ c → heap w' !! c' = heap w !! c'.
Proof. intros [_ H]. apply H. Qed.

Lemma calls_on_refl c w : calls_on c w w.
Proof. exists []. by rewrite app_nil_r. Qed.

Lemma calls_on_same c w w' : trace w' = trace w → calls_on c w w'.
Proof. intros H. exists []. by rewrite app_nil_r. Qed.

Lemma calls_on_trans c w1 w2 w3 : calls_on c w1 w2 → calls_on c w2 w3 → calls_on c w1 w3.
Proof.
  intros (l1 & H1 & F1) (l2 & H2 & F2). exists (l1 ++ l2).
  split; [by rewrite H2, H1, app_assoc | by apply Forall_app].
Qed.

Lemma flow_rel_refl uid c w : flow_rel uid c w w.
Proof. split_and!; [apply only_user_refl | apply only_client_refl | apply calls_on_refl]. Qed.

Lemma flow_rel_trans uid c w1 w2 w3 :
  flow_rel uid c w1 w2 → flow_rel uid c w2 w3 → flow_rel uid c w1 w3.
Proof.
  intros (H1 & H2 & H3) (H1' & H2' & H3'). split_and!;
    [by eapply only_user_trans | by eapply only_client_trans | by eapply calls_on_trans].
Qed.

Lemma flow_rel_call uid c x w :
  call_client x = Some c → flow_rel uid c w (set_trace (trace w ++ [x]) w).
Proof.
  intros Hx. split_and!; [by repeat split | by split |].
  exists [x]. split; [done |]. constructor; [by left | done].
Qed.

Lemma flow_rel_insert uid c d w : flow_rel uid c w (set_trace (trace w ++ [InsertOne d]) w).
Proof.
  split_and!; [by repeat split | by split |].
  exists [InsertOne d]. split; [done |]. constructor; [right; by exists d | done].
Qed.

Lemma flow_rel_client uid c w o : flow_rel uid c w (set_heap (<[c := o]> (heap w)) w).
Proof.
  split_and!; [by repeat split | | by apply calls_on_same]. split; simpl.
  - apply length_insert.
  - intros c' Hc'. by apply list_lookup_insert_ne.
Qed.

Lemma flow_rel_login_states uid c w st :
  flow_rel uid c w (set_login_states (<[uid := st]> (login_states w)) w).
Proof.
  split_and!; [| by split | by apply calls_on_same]. repeat split. simpl.
  intros u Hu. by apply lookup_insert_ne.
Qed.

Lemma flow_rel_pop uid c w :
  flow_rel uid c w (set_login_states (delete uid (login_states w)) w).
Proof.
  split_and!; [| by split | by apply calls_on_same]. repeat split. simpl.
  intros u Hu. by apply lookup_delete_ne.
Qed.

Lemma flow_rel_accounts uid c w a : flow_rel uid c w (set_accounts_col a w).
Proof. split_and!; [by repeat split | by split | by apply calls_on_same]. Qed.

(** Writing the entry of [uid] back after reading it. *)
Lemma maintains_update_entry {A} uid c (g : state → state) (x : A) :
  maintains (flow_rel uid c)
    (w <- get_world ;;
     st <- subscript (login_states w !! uid) (KInt uid) ;;
     modify (set_login_states (<[uid := g st]> (login_states w))) ;;;
     ret x).
Proof.
  intros w r w'. unfold bind, get_world, subscript, modify, ret, raise.
  destruct (login_states w !! uid); intros [= <- <-].
  - apply flow_rel_login_states.
  - apply flow_rel_refl.
Qed.

Create HintDb rel.
#[local] Hint Resolve flow_rel_refl flow_rel_trans flow_rel_call flow_rel_insert
  flow_rel_client flow_rel_login_states flow_rel_pop flow_rel_accounts : rel.

Ltac rel_side := try solve [eauto 3 with rel].

(** One step through the structure of a computation. *)
Ltac maintains_step :=
  lazymatch goal with
  | |- ∀ _, _ => intro
  | |- maintains _ (ret _) => apply maintains_ret
  | |- maintains _ (raise _) => apply maintains_raise
  | |- maintains _ (subscript _ _) => apply maintains_subscript
  | |- maintains _ get_world => apply maintains_get_world
  | |- maintains _ (modify _) => apply maintains_modify
  | |- maintains _ (pop_login_state _) => apply maintains_modify
  | |- maintains _ (bind get_world _) =>
      first [apply maintains_update_entry | apply maintains_bind]
  | |- maintains _ (bind _ _) => apply maintains_bind
  | |- maintains _ (try_ _ (except_Exception _)) => apply maintains_except_Exception
  | |- maintains _ (try_ _ (except_all _)) => apply maintains_except_all
  | |- maintains _ (safe_disconnect _ (Some _)) => apply maintains_safe_disconnect
  | |- maintains _ (send_code _ _ _) => apply maintains_send_code
  | |- maintains _ (sign_in_with_otp _ _ _ _ _) => apply maintains_sign_in_with_otp
  | |- maintains _ (sign_in_with_password _ _ _) => apply maintains_sign_in_with_password
  | |- maintains _ (get_session_string _ _) => apply maintains_get_session_string
  | |- maintains _ (insert_one _ _) => unfold insert_one
  | |- maintains _ (call_unit _ _) => apply maintains_call_unit
  | |- maintains _ (call_str _ _) => apply maintains_call_str
  | |- maintains _ (client_connect _ _) => apply maintains_client_connect
  | |- maintains _ (client_disconnect _ _) => apply maintains_client_disconnect
  | |- maintains _ (create_client _) => unfold create_client
  | |- maintains _ (new_Client _) => apply maintains_new_Client
  | |- maintains _ (let _ := _ in _) => cbv zeta
  | |- maintains _ (match ?x with _ => _ end) => destruct x
  end; rel_side.

Ltac maintains_walk := repeat maintains_step.

Ltac step_in H := unfold bind at 1 in H; cbv beta iota in H.

(** Case analysis on the call that decides the outcome of a run. *)
Ltac destruct_outcome H :=
  match type of H with
  | match ?x with _ => _ end = _ => destruct x eqn:?
  end.

Lemma subscript_any {A} (o : option A) k w r w' :
  subscript o k w = (r, w') → w' = w.
Proof. destruct o; by intros [= <- <-]. Qed.

Lemma flow_footprint_pop uid oc w w1 :
  flow_footprint uid oc w w1 →
  flow_footprint uid oc w (set_login_states (delete uid (login_states w1)) w1).
Proof.
  intros [Hu Hc]. split.
  - eapply only_user_trans; [done |]. apply (flow_rel_pop uid 0%nat).
  - by destruct oc.
Qed.

(** The body of a verification flow, from the entry's client on. *)
Lemma verify_footprint uid w (body : M (bool * option string)) k :
  (∀ r1 w1, body w = (r1, w1) →
            flow_footprint uid (login_states w !! uid ≫= st_client) w w1) →
  ∀ r w',
    try_ body (except_Exception (fun e => pop_login_state uid ;;; ret (k e))) w = (r, w') →
    flow_footprint uid (login_states w !! uid ≫= st_client) w w'.
Proof.
  intros Hbody r w' [(a & H & _) | (e & w1 & H & Hh)]%try_inv_any; [by eapply Hbody |].
  apply Hbody in H. unfold except_Exception in Hh.
  destruct (is_Exception e); [| by destruct Hh as [_ ->]].
  injection Hh as <- <-. by apply flow_footprint_pop.
Qed.

Lemma flow_footprint_refl uid oc w : flow_footprint uid oc w w.
Proof.
  split; [apply only_user_refl |].
  destruct oc; [split; [apply only_client_refl | apply calls_on_refl] | done].
Qed.

Lemma verify_otp_footprint env uid otp_code w r w' :
  verify_otp_and_save_async env uid otp_code w = (r, w') →
  flow_footprint uid (login_states w !! uid ≫= st_client) w w'.
Proof.
  apply verify_footprint. intros r1 w1 Hb.
  step_in Hb. unfold get_world at 1 in Hb. cbv beta iota in Hb.
  destruct (login_states w !! uid) as [st|] eqn:Hst;
    [| injection Hb as <- <-; apply flow_footprint_refl].
  step_in Hb. simpl. destruct (st_client st) as [c|] eqn:Hc;
    [| injection Hb as <- <-; apply flow_footprint_refl].
  unfold subscript at 1, ret at 1 in Hb. cbv beta iota in Hb.
  match type of Hb with
  | ?m _ = _ => assert (maintains (flow_rel uid c) m) as Hm by maintains_walk
  end.
  destruct (Hm _ _ _ Hb) as (Hu & Hcl & Hcalls). by split.
Qed.

Lemma verify_2fa_footprint env uid password w r w' :
  verify_2fa_password_async env uid password w = (r, w') →
  flow_footprint uid (login_states w !! uid ≫= st_client) w w'.
Proof.
  apply verify_footprint. intros r1 w1 Hb.
  step_in Hb. unfold get_world at 1 in Hb. cbv beta iota in Hb. step_in Hb.
  destruct (login_states w !! uid) as [st|] eqn:Hst;
    [| injection Hb as <- <-; apply flow_footprint_refl].
  unfold subscript at 1, ret at 1 in Hb. cbv beta iota in Hb.
  step_in Hb. simpl. destruct (st_client st) as [c|] eqn:Hc;
    [| injection Hb as <- <-; apply flow_footprint_refl].
  unfold subscript at 1, ret at 1 in Hb. cbv beta iota in Hb.
  match type of Hb with
  | ?m _ = _ => assert (maintains (flow_rel uid c) m) as Hm by maintains_walk
  end.
  destruct (Hm _ _ _ Hb) as (Hu & Hcl & Hcalls). by split.
Qed.

(** The phone step works on the client it creates, [length (heap w)]. *)
Lemma login_flow_footprint env uid phone chat_id message_id country api_id api_hash
    w r w' :
  pyrogram_login_flow_async env uid phone chat_id message_id country api_id api_hash w
    = (r, w') →
  only_user uid w w' ∧ calls_on (length (heap w)) w w' ∧
  ∀ c', (c' < length (heap w))%nat → heap w' !! c' = heap w !! c'.
Proof.
  intros H. unfold pyrogram_login_flow_async in H.
  match type of H with
  | try_ ?body _ w = _ =>
      assert (∀ r1 w1, body w = (r1, w1) →
                only_user uid w w1 ∧ calls_on (length (heap w)) w w1 ∧
                ∀ c', (c' < length (heap w))%nat → heap w1 !! c' = heap w !! c') as Hbody
  end.
  { intros r1 w1 Hb. step_in Hb. unfold get_world at 1 in Hb. cbv beta iota in Hb.
    destruct (login_states w !! uid) as [st|] eqn:Hst.
    2: { injection Hb as <- <-.
         split_and!; [apply only_user_refl | apply calls_on_refl | done]. }
    cbv zeta in Hb. unfold create_client in Hb.
    step_in Hb. step_in Hb. unfold get_world at 1, new_Client in Hb. cbv beta iota in Hb.
    match type of Hb with
    | ?m ?wA = _ =>
        assert (maintains (flow_rel uid (length (heap w))) m) as Hm by maintains_walk;
        destruct (Hm _ _ _ Hb) as ((Hu & ? & ? & ?) & [Hlen Hc] & Hcalls)
    end.
    split_and!; [by repeat split | done |].
    intros c' Hc'. rewrite Hc by lia. simpl. by apply lookup_app_l. }
  apply try_inv_any in H as [(a & H & _) | (e & w1 & H & Hh)].
  - by apply Hbody in H.
  - apply Hbody in H. unfold except_Exception in Hh.
    destruct (is_Exception e); [injection Hh as <- <- | destruct Hh as [_ ->]]; done.
Qed.

(** X1.  The account flows leave every other user's entry, the bot's
    dictionaries and the clock alone, and touch no client object but the one
    of their own entry (the phone step: none of the existing ones). *)
Theorem flows_touch_only_their_user env uid w :
  (∀ phone chat_id message_id country api_id api_hash,
     let w' := (pyrogram_login_flow_async env uid phone chat_id message_id country
                  api_id api_hash w).2 in
     only_user uid w w' ∧
     ∀ c', (c' < length (heap w))%nat → heap w' !! c' = heap w !! c') ∧
  (∀ otp_code,
     let w' := (verify_otp_and_save_async env uid otp_code w).2 in
     only_user uid w w' ∧
     ∀ c', login_states w !! uid ≫= st_client ≠ Some c' → heap w' !! c' = heap w !! c') ∧
  (∀ password,
     let w' := (verify_2fa_password_async env uid password w).2 in
     only_user uid w w' ∧
     ∀ c', login_states w !! uid ≫= st_client ≠ Some c' → heap w' !! c' = heap w !! c').
Proof.
  split_and!.
  - intros phone chat_id message_id country api_id api_hash.
    destruct (pyrogram_login_flow_async _ _ _ _ _ _ _ _ w) as [r w'] eqn:H. simpl.
    apply login_flow_footprint in H as (Hu & _ & Hc). done.
  - intros otp_code.
    destruct (verify_otp_and_save_async env uid otp_code w) as [r w'] eqn:H. simpl.
    apply verify_otp_footprint in H as [Hu Hc]. split; [done |].
    intros c' Hc'. destruct (login_states w !! uid ≫= st_client) as [c|].
    + apply (only_client_other c); [apply Hc | congruence].
    + by destruct Hc as [-> _].
  - intros password.
    destruct (verify_2fa_password_async env uid password w) as [r w'] eqn:H. simpl.
    apply verify_2fa_footprint in H as [Hu Hc]. split; [done |].
    intros c' Hc'. destruct (login_states w !! uid ≫= st_client) as [c|].
    + apply (only_client_other c); [apply Hc | congruence].
    + by destruct Hc as [-> _].
Qed.

(** X2.  The account flows make calls on one client only: the one their user's
    entry holds at the start (none at all when it holds none), and for the
    phone step the client it creates; the only other call is the insertion
    of the record. *)
Theorem flows_call_only_their_client env uid w :
  (∀ phone chat_id message_id country api_id api_hash,
     calls_on (length (heap w)) w
       (pyrogram_login_flow_async env uid phone chat_id message_id country
          api_id api_hash w).2) ∧
  (∀ otp_code,
     let w' := (verify_otp_and_save_async env uid otp_code w).2 in
     match login_states w !! uid ≫= st_client with
     | Some c => calls_on c w w'
     | None => trace w' = trace w
     end) ∧
  (∀ password,
     let w' := (verify_2fa_password_async env uid password w).2 in
     match login_states w !! uid ≫= st_client with
     | Some c => calls_on c w w'
     | None => trace w' = trace w
     end).
Proof.
  split_and!.
  - intros phone chat_id message_id country api_id api_hash.
    destruct (pyrogram_login_flow_async _ _ _ _ _ _ _ _ w) as [r w'] eqn:H. simpl.
    apply login_flow_footprint in H as (_ & Hc & _). done.
  - intros otp_code.
    destruct (verify_otp_and_save_async env uid otp_code w) as [r w'] eqn:H. simpl.
    apply verify_otp_footprint in H as [_ Hc].
    destruct (login_states w !! uid ≫= st_client); by destruct Hc.
  - intros password.
    destruct (verify_2fa_password_async env uid password w) as [r w'] eqn:H. simpl.
    apply verify_2fa_footprint in H as [_ Hc].
    destruct (login_states w !! uid ≫= st_client); by destruct Hc.
Qed.

(** ** No [Exception] leaves a flow *)

Lemma try_except_no_Exception {A} (m : M A) k w :
  (∀ e w1, ∃ a w2, k e w1 = (Ret a, w2)) →
  no_Exception (try_ m (except_Exception k) w).1.
Proof.
  intros Hk. unfold try_, except_Exception. destruct (m w) as [[a|e] w1]; [done |].
  destruct (is_Exception e) eqn:He; [| done].
  destruct (Hk e w1) as (a & w2 & ->). done.
Qed.

(** X3.  Whatever the entry, the input and the network do, the three flows
    return a pair or are interrupted by an exception that is not an
    [Exception]: no [Exception] is raised to the caller. *)
Theorem flows_raise_no_Exception env uid w :
  (∀ phone chat_id message_id country api_id api_hash,
     no_Exception (pyrogram_login_flow_async env uid phone chat_id message_id country
                     api_id api_hash w).1) ∧
  (∀ otp_code, no_Exception (verify_otp_and_save_async env uid otp_code w).1) ∧
  (∀ password, no_Exception (verify_2fa_password_async env uid password w).1).
Proof.
  split_and!; intros; apply try_except_no_Exception; intros e w1; by eexists _, _.
Qed.

(** ** The synchronous wrappers *)



(** ** A record is written exactly on success *)

Lemma keeps_accounts_refl w : keeps_accounts w w.
Proof. done. Qed.

Lemma keeps_accounts_trans w1 w2 w3 :
  keeps_accounts w1 w2 → keeps_accounts w2 w3 → keeps_accounts w1 w3.
Proof. unfold keeps_accounts. congruence. Qed.

Lemma keeps_accounts_trace w t : keeps_accounts w (set_trace t w).
Proof. done. Qed.

Lemma keeps_accounts_heap w h : keeps_accounts w (set_heap h w).
Proof. done. Qed.

Lemma keeps_accounts_login_states w l : keeps_accounts w (set_login_states l w).
Proof. done. Qed.

#[local] Hint Resolve keeps_accounts_refl keeps_accounts_trans keeps_accounts_trace
  keeps_accounts_heap keeps_accounts_login_states : rel.

Section Records.

Variable env : environment.
Variable uid : Z.
Variable has_2fa : bool.
Variable pw : option string.

Let Q := writes_iff_success uid has_2fa pw.

Lemma ensures_ret_false x : ensures Q (ret (false, x)).
Proof. intros w r w' [= <- <-]. left. split; [done |]. by intros m [=]. Qed.

Lemma ensures_raise e : ensures Q (raise e).
Proof. intros w r w' [= <- <-]. left. split; [done |]. by intros m [=]. Qed.

Lemma ensures_subscript {A} (o : option A) k (f : A → M (bool * option string)) :
  (∀ a, ensures Q (f a)) → ensures Q (bind (subscript o k) f).
Proof.
  intros Hf. destruct o as [a|]; intros w r w' H.
  - by apply (Hf a).
  - injection H as <- <-. left. split; [done |]. by intros m [=].
Qed.

Lemma ensures_frame_bind {A} (m : M A) (f : A → M (bool * option string)) :
  maintains keeps_accounts m → (∀ a, ensures Q (f a)) → ensures Q (bind m f).
Proof.
  intros Hm Hf w r w' [(a & w1 & H1 & H2) | (e & H1 & ->)]%bind_inv_any.
  - apply Hm in H1. apply Hf in H2. unfold Q, writes_iff_success in *.
    rewrite <- H1. done.
  - apply Hm in H1. left. split; [done |]. by intros m' [=].
Qed.

Lemma ensures_finalize c country phone s t :
  s ≠ "" →
  ensures Q
    (insert_one env (account_record country phone s has_2fa pw t uid) ;;;
     safe_disconnect env (Some c) ;;;
     pop_login_state uid ;;;
     ret (true, Some "Account added successfully")).
Proof.
  intros Hs w r w' H.
  apply bind_inv_any in H as [([] & w1 & H1 & H2) | (e & H1 & ->)].
  - apply insert_one_success in H1 as (Ha & _).
    destruct (safe_disconnect_run env (Some c) w1) as (w2 & Hsd & _ & (_ & Ha2 & _)).
    unfold bind at 1 in H2. rewrite Hsd in H2. injection H2 as <- <-.
    right. eexists. split_and!; [by exists country, phone, s, t | | done |].
    + simpl. by rewrite Ha2, Ha.
    + simpl. apply lookup_delete_eq.
  - apply insert_one_failure in H1 as ->. left. split; [done |]. by intros m [=].
Qed.

Lemma ensures_handler (m : M (bool * option string)) k :
  ensures Q m →
  (∀ e w1, ∃ x w2, k e w1 = (Ret (false, x), w2) ∧ accounts_col w2 = accounts_col w1) →
  ensures Q (try_ m (except_Exception k)).
Proof.
  intros Hm Hk w r w' [(a & H1 & ->) | (e & w1 & H1 & H2)]%try_inv_any.
  - by apply Hm.
  - apply Hm in H1 as [[Ha _] | (d & _ & _ & [=] & _)].
    unfold except_Exception in H2. destruct (is_Exception e).
    + destruct (Hk e w1) as (x & w2 & Hke & Ha2). rewrite Hke in H2.
      injection H2 as <- <-. left. split; [congruence |]. by intros m' [=].
    + destruct H2 as [-> ->]. left. split; [done |]. by intros m' [=].
Qed.

End Records.

Ltac ensures_step :=
  lazymatch goal with
  | |- ∀ _, _ => intro
  | |- ensures _ (ret (false, _)) => apply ensures_ret_false
  | |- ensures _ (bind (subscript _ _) _) => apply ensures_subscript
  | |- ensures _ (bind (insert_one _ _) _) =>
      apply ensures_finalize; by apply String.eqb_neq
  | |- ensures _ (bind _ _) => apply ensures_frame_bind; [maintains_walk |]
  | |- ensures _ (match ?x with _ => _ end) => destruct x eqn:?
  end.

Lemma verify_otp_writes_iff_success env uid otp_code :
  ensures (writes_iff_success uid false None) (verify_otp_and_save_async env uid otp_code).
Proof.
  apply ensures_handler; [| intros e w1; by eexists _, _].
  repeat ensures_step.
Qed.

Lemma verify_2fa_writes_iff_success env uid password :
  ensures (writes_iff_success uid true (Some password))
    (verify_2fa_password_async env uid password).
Proof.
  apply ensures_handler; [| intros e w1; by eexists _, _].
  repeat ensures_step.
Qed.

Lemma login_flow_keeps_accounts env uid phone chat_id message_id country api_id api_hash :
  maintains keeps_accounts
    (pyrogram_login_flow_async env uid phone chat_id message_id country api_id api_hash).
Proof. unfold pyrogram_login_flow_async. maintains_walk. Qed.

(** X5.  A verification flow appends a record to the collection exactly when it
    reports success: then it is one record, with a non-empty session string,
    and the user's entry is gone; in every other outcome (a failure reported
    or an interruption) the collection is as before.  The phone step never
    writes. *)
Theorem record_written_exactly_on_success env uid w :
  (∀ otp_code,
     writes_iff_success uid false None w
       (verify_otp_and_save_async env uid otp_code w).1
       (verify_otp_and_save_async env uid otp_code w).2) ∧
  (∀ password,
     writes_iff_success uid true (Some password) w
       (verify_2fa_password_async env uid password w).1
       (verify_2fa_password_async env uid password w).2) ∧
  (∀ phone chat_id message_id country api_id api_hash,
     accounts_col (pyrogram_login_flow_async env uid phone chat_id message_id country
                     api_id api_hash w).2 = accounts_col w).
Proof.
  split_and!.
  - intros otp_code. apply (verify_otp_writes_iff_success env uid otp_code w).
    by destruct (verify_otp_and_save_async _ _ _ _).
  - intros password. apply (verify_2fa_writes_iff_success env uid password w).
    by destruct (verify_2fa_password_async _ _ _ _).
  - intros phone chat_id message_id country api_id api_hash.
    apply (login_flow_keeps_accounts env uid phone chat_id message_id country api_id
             api_hash w (pyrogram_login_flow_async env uid phone chat_id message_id country
                           api_id api_hash w).1).
    by destruct (pyrogram_login_flow_async _ _ _ _ _ _ _ _ _).
Qed.

(** ** The manager's operations, whatever the network answers *)

(** X6.  [send_code] answers [(True, hash, None)] or [(False, None, error)] and
    raises no [Exception].  It first tears down a client that is connected,
    then always calls [connect], and requests the code at most once, only
    after [connect] returned. *)
Theorem send_code_outcomes env c phone w :
  let r := send_code env c phone w in
  send_code_shape r.1 ∧ same_stores w r.2 ∧
  ∃ rest,
    trace r.2 = trace w ++ teardown_calls w (Some c) ++ Connect c :: rest ∧
    (rest = [] ∨
     rest = [SendCode c phone] ∧
     env_unit env (trace w ++ teardown_calls w (Some c) ++ [Connect c]) = None).
Proof.
  destruct (send_code env c phone w) as [r w'] eqn:H. simpl.
  destruct (safe_disconnect_run env (Some c) w) as (w1 & Hsd & Ht1 & Hs1).
  set (w2 := if connected w c then w1 else w).
  assert ((if connected w c then safe_disconnect env (Some c) else ret ()) w
          = (Ret tt, w2)) as Hpre.
  { unfold w2. by destruct (connected w c). }
  assert (trace w2 = trace w ++ teardown_calls w (Some c) ∧ same_stores w w2) as [Ht2 Hs2].
  { unfold w2, teardown_calls in *. destruct (connected w c); [done |].
    rewrite app_nil_r. by repeat split. }
  unfold send_code in H.
  unfold try_ at 1, bind at 1, get_world at 1 in H. cbv beta iota in H.
  unfold bind at 1 in H. rewrite Hpre in H. cbv beta iota in H.
  unfold client_connect, client_send_code, bind, call_unit, call_str, set_attrs, modify,
    ret in H.
  rewrite Ht2 in H. rewrite <- !app_assoc in H.
  destruct (env_unit env _) as [e|] eqn:Hconn; simpl in H.
  - assert (send_code_shape r ∧ w' = set_trace (trace w ++ teardown_calls w (Some c) ++ [Connect c]) w2)
      as [Hr ->] by (destruct e; simpl in H; by injection H as <- <-).
    split_and!; [done | apply Hs2 |]. exists []. by split; [| left].
  - assert (send_code_shape r ∧ same_stores w2 w' ∧
            trace w' = trace w ++ teardown_calls w (Some c) ++ [Connect c; SendCode c phone])
      as (Hr & Hs & Ht).
    { destruct (heap w2 !! c); simpl in H; rewrite <- !app_assoc in H; simpl in H;
        (destruct (env_str env _) as [h|e]; simpl in H;
         [| destruct e; simpl in H]; by injection H as <- <-). }
    split_and!; [done | | ].
    + destruct Hs2 as (? & ? & ? & ? & ?), Hs as (? & ? & ? & ? & ?).
      repeat split; congruence.
    + exists [SendCode c phone]. split; [done | by right].
Qed.

Lemma disconnects_none c l :
  Forall (λ x, x ≠ Disconnect c) l → disconnects c l = 0%nat.
Proof.
  induction 1 as [|x l Hx _ IH]; [done |].
  change (x :: l) with ([x] ++ l). by rewrite disconnects_app, disconnects_other, IH.
Qed.

Lemma sign_in_with_otp_cases env c phone hash code w r w' :
  sign_in_with_otp env c phone hash code w = (r, w') →
  sign_in_shape r ∧ same_stores w w' ∧
  ∃ rest,
    trace w' = trace w ++ (if connected w c then [] else [Connect c]) ++ rest ∧
    (rest = [SignIn c phone code hash] ∨ rest = [] ∧ connected w c = false).
Proof.
  intros H.
  unfold sign_in_with_otp, client_connect, client_sign_in in H. unfold_monad. simpl in H.
  destruct (connected w c) eqn:Hc; simpl in H.
  - destruct (env_unit env _) as [e|]; simpl in H; [destruct e; simpl in H |];
      injection H as <- <-; (split_and!; [done | by repeat split |]);
      exists [SignIn c phone code hash]; by split; [| left].
  - destruct (env_unit env (trace w ++ [Connect c])) as [e|]; simpl in H.
    + assert (sign_in_shape r ∧ w' = set_trace (trace w ++ [Connect c]) w) as [Hr ->]
        by (destruct e; simpl in H; by injection H as <- <-).
      split_and!; [done | by repeat split |]. exists []. split; [| by right].
      by rewrite app_nil_r.
    + assert (sign_in_shape r ∧ same_stores w w' ∧
              trace w' = (trace w ++ [Connect c]) ++ [SignIn c phone code hash])
        as (Hr & Hs & Ht).
      { destruct (heap w !! c); simpl in H;
          (destruct (env_unit env _) as [e|]; simpl in H; [destruct e; simpl in H |];
           by injection H as <- <-). }
      split_and!; [done | done |]. exists [SignIn c phone code hash].
      rewrite Ht, <- app_assoc. by split; [| left].
Qed.

(** X7.  [sign_in_with_otp] answers [(True, None, None)] when neither
    [connect] nor [sign_in] raises (the code is accepted),
    [(False, "password_required", None)] when the first call that raises
    asks for the second factor, and [(False, "error", text)], with the text
    of the exception, when it raises any other [Exception]; it raises no
    [Exception] itself (an exception that is not an [Exception] passes).
    It connects only a client that is not connected, calls [sign_in] once
    unless [connect] raised, never disconnects, and leaves the stores as
    they were. *)
Theorem sign_in_with_otp_outcomes env c phone hash code w :
  let r := sign_in_with_otp env c phone hash code w in
  r.1 = sign_in_answer (sign_in_failure env c phone hash code w) ∧
  trace r.2 = trace w ++ sign_in_calls env c phone hash code w ∧
  disconnects c (trace r.2) = disconnects c (trace w) ∧
  sign_in_shape r.1 ∧ same_stores w r.2.
Proof.
  destruct (sign_in_with_otp env c phone hash code w) as [r w'] eqn:H. simpl.
  pose proof (sign_in_with_otp_cases env c phone hash code w r w' H) as (Hshape & Hst & _).
  assert (r = sign_in_answer (sign_in_failure env c phone hash code w) ∧
          trace w' = trace w ++ sign_in_calls env c phone hash code w) as [Hr Ht].
  { unfold sign_in_with_otp, client_connect, client_sign_in in H.
    unfold_monad. simpl in H. unfold sign_in_failure, sign_in_calls.
    destruct (connected w c) eqn:Hc; simpl in H.
    - destruct (env_unit env _) as [e|]; simpl in H; [destruct e; simpl in H |];
        by injection H as <- <-.
    - destruct (env_unit env (trace w ++ [Connect c])) as [e|]; simpl in H.
      + destruct e; simpl in H; by injection H as <- <-.
      + destruct (heap w !! c); simpl in H; rewrite <- app_assoc in H; simpl in H;
          (destruct (env_unit env _) as [e|]; simpl in H; [destruct e; simpl in H |];
           by injection H as <- <-). }
  split_and!; try done.
  rewrite Ht, disconnects_app, (disconnects_none c (sign_in_calls env c phone hash code w));
    [lia |].
  unfold sign_in_calls. destruct (connected w c); [by repeat constructor |].
  destruct (env_unit env _); by repeat constructor.
Qed.

Lemma export_after_probe env c w r w' :
  try_
    (me <- client_get_me env c ;;
     if me
     then s <- client_export_session_string env c ;; ret (Some s)
     else ret None)
    (except_Exception (fun _ => ret None)) w = (r, w') →
  match r with
  | Ret (Some s) =>
      ∃ tr, trace w' = tr ++ [GetMe c; ExportSessionString c] ∧
            env_me env (tr ++ [GetMe c]) = Ret true ∧
            env_str env (tr ++ [GetMe c; ExportSessionString c]) = Ret s
  | Ret None => True
  | Raise e => is_Exception e = false
  end.
Proof.
  unfold client_get_me, client_export_session_string. unfold_monad. simpl.
  destruct (env_me env _) as [[|]|e] eqn:Hme; simpl.
  - destruct (env_str env _) as [s|e] eqn:Hex; simpl.
    + intros [= <- <-]. exists (trace w). simpl. rewrite <- app_assoc in *. done.
    + destruct (is_Exception e) eqn:He; intros [= <- <-]; done.
  - intros [= <- <-]. done.
  - destruct (is_Exception e) eqn:He; intros [= <- <-]; done.
Qed.

(** X8.  [get_session_string] raises no [Exception].  When it answers a
    credential, [get_me] answered a user just before and the credential is
    what [export_session_string] then returned, as the last call made. *)
Theorem get_session_string_outcomes env c w :
  let r := get_session_string env c w in
  same_stores w r.2 ∧
  match r.1 with
  | Ret (Some s) =>
      ∃ tr, trace r.2 = tr ++ [GetMe c; ExportSessionString c] ∧
            env_me env (tr ++ [GetMe c]) = Ret true ∧
            env_str env (tr ++ [GetMe c; ExportSessionString c]) = Ret s
  | Ret None => True
  | Raise e => is_Exception e = false
  end.
Proof.
  destruct (get_session_string env c w) as [r w'] eqn:H. simpl.
  split; [by eapply get_session_string_frame |].
  unfold get_session_string in H.
  apply try_inv_any in H as [(a & H & ->) | (e & w1 & H & Hh)].
  - apply bind_inv in H as (w0 & ? & _ & H).
    apply bind_inv in H as ([] & w2 & _ & H).
    by apply export_after_probe in H.
  - unfold except_Exception in Hh. destruct (is_Exception e) eqn:He.
    + by injection Hh as <- <-.
    + by destruct Hh as [-> _].
Qed.

(** ** The paths of the verification flows *)

Lemma sign_in_with_otp_no_disconnect env c phone hash code w r w' :
  sign_in_with_otp env c phone hash code w = (r, w') →
  disconnects c (trace w') = disconnects c (trace w).
Proof.
  intros (_ & _ & rest & -> & Hrest)%sign_in_with_otp_cases.
  rewrite !disconnects_app.
  rewrite (disconnects_none c (if connected w c then [] else [Connect c])),
    (disconnects_none c rest); [lia | |].
  - destruct Hrest as [-> | [-> _]]; repeat constructor; done.
  - destruct (connected w c); repeat constructor; done.
Qed.

Lemma sign_in_with_password_cases env c password w r w' :
  sign_in_with_password env c password w = (r, w') →
  same_stores w w' ∧
  match r with
  | Ret (true, None) | Ret (false, Some _) => True
  | Ret _ => False
  | Raise e => is_Exception e = false
  end ∧
  ∃ rest,
    trace w' = trace w ++ (if connected w c then [] else [Connect c]) ++ rest ∧
    (rest = [CheckPassword c password] ∨ rest = [] ∧ connected w c = false).
Proof.
  intros H. split; [by eapply sign_in_with_password_frame |].
  unfold sign_in_with_password, client_connect, client_check_password in H.
  unfold_monad. simpl in H.
  destruct (connected w c) eqn:Hc; simpl in H.
  - destruct (env_unit env _) as [e|]; simpl in H;
      [destruct (is_Exception e) eqn:He |]; injection H as <- <-;
      (split; [done |]); exists [CheckPassword c password]; by split; [| left].
  - destruct (env_unit env (trace w ++ [Connect c])) as [e|]; simpl in H.
    + destruct (is_Exception e) eqn:He; injection H as <- <-;
        (split; [done |]); exists []; (split; [by rewrite app_nil_r | by right]).
    + destruct (heap w !! c); simpl in H;
        (destruct (env_unit env _) as [e|]; simpl in H;
         [destruct (is_Exception e) eqn:He |]; injection H as <- <-;
         (split; [done |]); exists [CheckPassword c password]; simpl;
         rewrite <- app_assoc; by split; [| left]).
Qed.

Lemma sign_in_with_password_no_disconnect env c password w r w' :
  sign_in_with_password env c password w = (r, w') →
  disconnects c (trace w') = disconnects c (trace w).
Proof.
  intros (_ & _ & rest & -> & Hrest)%sign_in_with_password_cases.
  rewrite !disconnects_app.
  rewrite (disconnects_none c (if connected w c then [] else [Connect c])),
    (disconnects_none c rest); [lia | |].
  - destruct Hrest as [-> | [-> _]]; repeat constructor; done.
  - destruct (connected w c); repeat constructor; done.
Qed.

(** The code step, second factor asked for: the general run. *)
Lemma verify_otp_password_required_run env w uid otp_code st c mgr phone hash error w1 :
  login_states w !! uid = Some st →
  st_client st = Some c → st_manager st = Some mgr → st_phone st = Some phone →
  st_phone_code_hash st = Some hash →
  sign_in_with_otp env c phone hash otp_code w
    = (Ret (false, Some "password_required", error), w1) →
  verify_otp_and_save_async env uid otp_code w
    = (Ret (false, Some "password_required"),
       set_login_states (<[uid := set_step "waiting_password" st]> (login_states w1)) w1) ∧
  same_stores w w1.
Proof.
  intros Hst Hc Hm Hp Hh Hsign.
  pose proof (sign_in_with_otp_cases _ _ _ _ _ _ _ _ Hsign) as (_ & Hs & _).
  split; [| done]. destruct Hs as (Hl & _).
  unfold verify_otp_and_save_async.
  unfold try_ at 1. step. unfold get_world at 1. cbv beta iota.
  rewrite Hst, Hc, Hm, Hp, Hh. unfold subscript at 1 2 3 4.
  do 4 (step; unfold ret at 1; cbv beta iota).
  step. rewrite Hsign. cbv beta iota.
  rewrite bool_decide_eq_true_2 by done.
  step. unfold get_world at 1. cbv beta iota. rewrite Hl, Hst.
  unfold subscript, bind, ret, modify. done.
Qed.

(** X9.  When the network asks for the second factor, the code step answers
    "password_required" and keeps the attempt: the entry is the same but for
    its step, now "waiting_password"; nothing is written and the client is
    not disconnected. *)
Theorem code_needing_password_keeps_attempt env w uid otp_code st c mgr phone hash
    error w1 :
  login_states w !! uid = Some st →
  st_client st = Some c → st_manager st = Some mgr → st_phone st = Some phone →
  st_phone_code_hash st = Some hash →
  sign_in_with_otp env c phone hash otp_code w
    = (Ret (false, Some "password_required", error), w1) →
  ∃ w',
    verify_otp_and_save_async env uid otp_code w
      = (Ret (false, Some "password_required"), w') ∧
    login_states w' = <[uid := set_step "waiting_password" st]> (login_states w) ∧
    accounts_col w' = accounts_col w ∧ heap w' = heap w1 ∧
    disconnects c (trace w') = disconnects c (trace w).
Proof.
  intros Hst Hc Hm Hp Hh Hsign.
  destruct (verify_otp_password_required_run _ _ _ _ _ _ _ _ _ _ _ Hst Hc Hm Hp Hh Hsign)
    as [Hrun (Hl & Ha & _)].
  eexists. split; [exact Hrun |]. simpl. rewrite Hl, Ha.
  split_and!; try done. by eapply sign_in_with_otp_no_disconnect.
Qed.

(** X10.  When the network rejects the code (any [Exception] but the request for
    the second factor), the code step answers the failure with the text of
    the exception (or "OTP verification failed" when the text is empty),
    tears the client down and removes the entry; nothing is written. *)
Theorem rejected_code_ends_attempt env w uid otp_code st c mgr phone hash error w1 :
  login_states w !! uid = Some st →
  st_client st = Some c → st_manager st = Some mgr → st_phone st = Some phone →
  st_phone_code_hash st = Some hash →
  sign_in_with_otp env c phone hash otp_code w = (Ret (false, Some "error", error), w1) →
  ∃ w',
    verify_otp_and_save_async env uid otp_code w
      = (Ret (false, Some (or_str error "OTP verification failed")), w') ∧
    login_states w' = delete uid (login_states w) ∧
    accounts_col w' = accounts_col w ∧
    trace w' = trace w1 ++ teardown_calls w1 (Some c).
Proof.
  intros Hst Hc Hm Hp Hh Hsign.
  pose proof (sign_in_with_otp_cases _ _ _ _ _ _ _ _ Hsign) as (_ & (Hl & Ha & _) & _).
  destruct (safe_disconnect_run env (Some c) w1) as (w2 & Hsd & Ht2 & (Hl2 & Ha2 & _)).
  exists (set_login_states (delete uid (login_states w2)) w2). split.
  - unfold verify_otp_and_save_async, pop_login_state.
    unfold try_ at 1. step. unfold get_world at 1. cbv beta iota.
    rewrite Hst, Hc, Hm, Hp, Hh. unfold subscript at 1 2 3 4.
    do 4 (step; unfold ret at 1; cbv beta iota).
    step. rewrite Hsign. cbv beta iota.
    rewrite bool_decide_eq_false_2 by done.
    change (negb false) with true. cbv iota.
    step. rewrite Hsd. done.
  - simpl. rewrite Hl2, Hl, Ha2, Ha. done.
Qed.

(** X11.  A code (or a password) submitted for an entry that holds no client yet
    (the phone step has not succeeded): the failed lookup of ["client"] is
    caught, the answer is the failure "'client'", and the entry is removed;
    no call is made. *)
Theorem verification_before_phone_drops_entry env w uid text st :
  login_states w !! uid = Some st → st_client st = None →
  verify_otp_and_save_async env uid text w
    = (Ret (false, Some "'client'"), set_login_states (delete uid (login_states w)) w) ∧
  verify_2fa_password_async env uid text w
    = (Ret (false, Some "'client'"), set_login_states (delete uid (login_states w)) w).
Proof.
  intros Hst Hc. unfold verify_otp_and_save_async, verify_2fa_password_async, pop_login_state.
  unfold try_, bind, get_world, subscript, raise, ret, except_Exception, modify.
  rewrite Hst, Hc. done.
Qed.

(** A password that the network rejects: the answer is the failure with the
    text of the exception, and the attempt is kept as it was: same entry,
    nothing written, client not disconnected. *)
Lemma wrong_password_keeps_attempt_run env w uid password st c mgr error w1 :
  login_states w !! uid = Some st → st_client st = Some c → st_manager st = Some mgr →
  sign_in_with_password env c password w = (Ret (false, error), w1) →
  verify_2fa_password_async env uid password w = (Ret (false, error), w1) ∧
  login_states w1 = login_states w ∧ accounts_col w1 = accounts_col w ∧
  disconnects c (trace w1) = disconnects c (trace w).
Proof.
  intros Hst Hc Hm Hsign.
  pose proof (sign_in_with_password_frame _ _ _ _ _ _ Hsign) as (Hl & Ha & _).
  split_and!; [| done | done | by eapply sign_in_with_password_no_disconnect].
  unfold verify_2fa_password_async.
  unfold try_ at 1. step. unfold get_world at 1. cbv beta iota.
  rewrite Hst. unfold subscript at 1. step. unfold ret at 1. cbv beta iota.
  rewrite Hc, Hm. unfold subscript at 1 2.
  do 2 (step; unfold ret at 1; cbv beta iota).
  step. rewrite Hsign. done.
Qed.

(** The password step, everything succeeding: the general run. *)
Lemma verify_2fa_success_run env w uid password st c mgr phone country error w1 s w2 w3 :
  login_states w !! uid = Some st →
  st_client st = Some c → st_manager st = Some mgr → st_phone st = Some phone →
  st_country st = Some country → is_Some (heap w !! c) →
  sign_in_with_password env c password w = (Ret (true, error), w1) →
  get_session_string env c w1 = (Ret (Some s), w2) → s ≠ "" →
  insert_one env (account_record country phone s true (Some password) (now w) uid) w2
    = (Ret tt, w3) →
  ∃ w',
    verify_2fa_password_async env uid password w
      = (Ret (true, Some "Account added successfully"), w') ∧
    accounts_col w' =
      accounts_col w ++ [account_record country phone s true (Some password) (now w) uid] ∧
    login_states w' = delete uid (login_states w) ∧
    disconnects c (trace w') = S (disconnects c (trace w)).
Proof.
  intros Hst Hc Hm Hp Hco Hheap Hsign Hexp Hs Hins.
  destruct (sign_in_with_password_success _ _ _ _ _ _ Hheap Hsign)
    as ((Hl1 & Ha1 & _ & _ & Hn1) & Hc1 & Hd1).
  destruct (get_session_string_connected _ _ _ _ _ Hc1 Hexp)
    as ((Hl2 & Ha2 & _ & _ & Hn2) & Hc2 & Hd2).
  destruct (insert_one_success _ _ _ _ Hins) as (Ha3 & Hl3 & Hh3 & Ht3 & Hn3).
  assert (connected w3 c = true) as Hc3.
  { unfold connected, attr_is_connected in *. by rewrite Hh3. }
  destruct (safe_disconnect_run env (Some c) w3) as (w4 & Hsd & Ht4 & (Hl4 & Ha4 & _)).
  exists (set_login_states (delete uid (login_states w4)) w4).
  split.
  - unfold verify_2fa_password_async, pop_login_state.
    unfold try_ at 1. step. unfold get_world at 1. cbv beta iota.
    rewrite Hst. unfold subscript at 1. step. unfold ret at 1. cbv beta iota.
    rewrite Hc, Hm. unfold subscript at 1 2.
    do 2 (step; unfold ret at 1; cbv beta iota).
    step. rewrite Hsign. cbv beta iota.
    change (negb true) with false. cbv iota.
    step. rewrite Hexp. cbv beta iota.
    rewrite (proj2 (String.eqb_neq s "") Hs), Hco, Hp. unfold subscript.
    do 2 (step; unfold ret at 1; cbv beta iota).
    step. unfold get_world at 1. cbv beta iota. rewrite Hn2, Hn1.
    step. rewrite Hins. cbv beta iota.
    step. rewrite Hsd. done.
  - simpl. rewrite Ha4, Ha3, Ha2, Ha1, Hl4, Hl3, Hl2, Hl1, Ht4, Ht3.
    split_and!; try done.
    rewrite !disconnects_app, disconnects_other, disconnects_teardown by done.
    rewrite Hd2, Hd1. lia.
Qed.

(** X12.  When the password is accepted, the export yields a non-empty
    credential and the insertion does not raise, the password step succeeds:
    exactly one record is appended, with [has_2fa] true and the password as
    supplied in [two_step_password], the user's entry is removed and
    [disconnect] is called exactly once on the attempt's client. *)
Theorem password_success_finalizes env w uid password st c mgr phone country error
    w1 s w2 w3 :
  login_states w !! uid = Some st →
  st_client st = Some c → st_manager st = Some mgr → st_phone st = Some phone →
  st_country st = Some country → is_Some (heap w !! c) →
  sign_in_with_password env c password w = (Ret (true, error), w1) →
  get_session_string env c w1 = (Ret (Some s), w2) → s ≠ "" →
  insert_one env (account_record country phone s true (Some password) (now w) uid) w2
    = (Ret tt, w3) →
  ∃ w',
    verify_2fa_password_async env uid password w
      = (Ret (true, Some "Account added successfully"), w') ∧
    accounts_col w' =
      accounts_col w ++ [account_record country phone s true (Some password) (now w) uid] ∧
    account_record country phone s true (Some password) (now w) uid !! "has_2fa"
      = Some (VBool true) ∧
    account_record country phone s true (Some password) (now w) uid !! "two_step_password"
      = Some (VStr password) ∧
    login_states w' = delete uid (login_states w) ∧
    disconnects c (trace w') = S (disconnects c (trace w)).
Proof.
  intros Hst Hc Hm Hp Hco Hheap Hsign Hexp Hs Hins.
  destruct (verify_2fa_success_run _ _ _ _ _ _ _ _ _ _ _ _ _ _
              Hst Hc Hm Hp Hco Hheap Hsign Hexp Hs Hins) as (w' & Hrun & Ha & Hl & Hd).
  exists w'. split_and!; done.
Qed.

Lemma heap_valid_kept c w w' :
  only_client c w w' → is_Some (heap w !! c) → is_Some (heap w' !! c).
Proof.
  intros [Hlen _] H. apply lookup_lt_is_Some. rewrite Hlen. by apply lookup_lt_is_Some.
Qed.

(** X13.  The two steps of a login with a second factor, one after the other:
    the code step answers "password_required" and the password step, run in
    the world the code step left, finalizes the same attempt: one record
    with the phone and country of the entry, the password as supplied and
    [has_2fa] true; the entry is removed and the client, which the code step
    left open, is disconnected exactly once. *)
Theorem second_factor_login_completes env w uid otp_code password st c mgr phone hash
    country e1 w1 e2 w2 s w3 w4 :
  login_states w !! uid = Some st →
  st_client st = Some c → st_manager st = Some mgr → st_phone st = Some phone →
  st_phone_code_hash st = Some hash → st_country st = Some country →
  is_Some (heap w !! c) →
  sign_in_with_otp env c phone hash otp_code w
    = (Ret (false, Some "password_required", e1), w1) →
  sign_in_with_password env c password
    (set_login_states (<[uid := set_step "waiting_password" st]> (login_states w1)) w1)
    = (Ret (true, e2), w2) →
  get_session_string env c w2 = (Ret (Some s), w3) → s ≠ "" →
  insert_one env (account_record country phone s true (Some password) (now w) uid) w3
    = (Ret tt, w4) →
  ∃ w',
    (verify_otp_and_save_async env uid otp_code ;;;
     verify_2fa_password_async env uid password) w
      = (Ret (true, Some "Account added successfully"), w') ∧
    accounts_col w' =
      accounts_col w ++ [account_record country phone s true (Some password) (now w) uid] ∧
    login_states w' !! uid = None ∧
    disconnects c (trace w') = S (disconnects c (trace w)).
Proof.
  intros Hst Hc Hm Hp Hh Hco Hheap Hsign Hpw Hexp Hs Hins.
  destruct (verify_otp_password_required_run _ _ _ _ _ _ _ _ _ _ _ Hst Hc Hm Hp Hh Hsign)
    as [Hrun (Hl & Ha & _ & _ & Hn)].
  set (wP := set_login_states _ w1) in *.
  assert (is_Some (heap wP !! c)) as HheapP.
  { assert (maintains (flow_rel 0 c) (sign_in_with_otp env c phone hash otp_code)) as Hm'
      by maintains_walk.
    destruct (Hm' _ _ _ Hsign) as (_ & Hcl & _). by apply (heap_valid_kept c w). }
  assert (now wP = now w) as HnP by done.
  rewrite <- HnP in Hins.
  destruct (verify_2fa_success_run env wP uid password (set_step "waiting_password" st)
              c mgr phone country e2 w2 s w3 w4) as (w' & Hrun2 & Ha2 & Hl2 & Hd2);
    try done.
  { unfold wP. simpl. apply lookup_insert_eq. }
  exists w'. split_and!.
  - unfold bind. rewrite Hrun. done.
  - rewrite Ha2, HnP. unfold wP. simpl. by rewrite Ha.
  - rewrite Hl2. apply lookup_delete_eq.
  - rewrite Hd2. unfold wP. simpl. f_equal. by eapply sign_in_with_otp_no_disconnect.
Qed.

Lemma send_code_ok env c phone w o h :
  heap w !! c = Some o → connected w c = false →
  env_unit env (trace w ++ [Connect c]) = None →
  env_str env (trace w ++ [Connect c; SendCode c phone]) = Ret h →
  send_code env c phone w =
    (Ret (true, Some h, None),
     after_connect c o (trace w ++ [Connect c; SendCode c phone]) w).
Proof.
  intros Ho Hnc Hconn Hsend.
  unfold send_code, client_connect, client_send_code. unfold_monad. simpl.
  rewrite Hnc. simpl. rewrite Hconn. simpl. rewrite Ho. simpl.
  rewrite <- app_assoc. simpl. rewrite Hsend. done.
Qed.

(** A verification flow whose entry holds a connected client starts with
    [sign_in] on that client, with the phone and the hash of the entry. *)
Lemma verify_otp_first_call env w uid otp_code st c mgr phone hash :
  login_states w !! uid = Some st →
  st_client st = Some c → st_manager st = Some mgr → st_phone st = Some phone →
  st_phone_code_hash st = Some hash → connected w c = true →
  ∃ rest,
    trace (verify_otp_and_save_async env uid otp_code w).2
      = trace w ++ SignIn c phone otp_code hash :: rest.
Proof.
  intros Hst Hc Hm Hp Hh Hconn.
  destruct (verify_otp_and_save_async env uid otp_code w) as [r w'] eqn:H. simpl.
  unfold verify_otp_and_save_async in H.
  destruct (sign_in_with_otp env c phone hash otp_code w) as [r1 w1] eqn:Hsign.
  pose proof (sign_in_with_otp_cases _ _ _ _ _ _ _ _ Hsign) as (_ & _ & rest & Ht & Hrest).
  rewrite Hconn in Ht. destruct Hrest as [-> | [_ ?]]; [| congruence]. simpl in Ht.
  assert (∀ w2, calls_on c w1 w2 → ∃ rest, trace w2 = trace w ++ SignIn c phone otp_code hash :: rest)
    as Hext.
  { intros w2 (l & -> & _). exists l. rewrite Ht, <- app_assoc. done. }
  apply Hext.
  apply try_inv_any in H as [(a & H & _) | (e & w2 & H & Hh')].
  - step_in H. unfold get_world at 1 in H. cbv beta iota in H.
    rewrite Hst, Hc, Hm, Hp, Hh in H. unfold subscript at 1 2 3 4 in H.
    do 4 (step_in H; unfold ret at 1 in H; cbv beta iota in H).
    step_in H. rewrite Hsign in H. destruct r1 as [[[success status] error]|e]; [| done].
    match type of H with
    | ?m _ = _ => assert (maintains (flow_rel uid c) m) as Hm' by maintains_walk
    end.
    by destruct (Hm' _ _ _ H) as (_ & _ & ?).
  - assert (calls_on c w1 w2) as Hc2.
    { step_in H. unfold get_world at 1 in H. cbv beta iota in H.
      rewrite Hst, Hc, Hm, Hp, Hh in H. unfold subscript at 1 2 3 4 in H.
      do 4 (step_in H; unfold ret at 1 in H; cbv beta iota in H).
      step_in H. rewrite Hsign in H.
      destruct r1 as [[[success status] error]|e1].
      - match type of H with
        | ?m _ = _ => assert (maintains (flow_rel uid c) m) as Hm' by maintains_walk
        end.
        by destruct (Hm' _ _ _ H) as (_ & _ & ?).
      - injection H as <- <-. apply calls_on_refl. }
    unfold except_Exception in Hh'. destruct (is_Exception e).
    + injection Hh' as <- <-. eapply calls_on_trans; [done |]. by apply calls_on_same.
    + by destruct Hh' as [_ ->].
Qed.

(** X14.  The phone step followed by the code step.  When [connect] and
    [send_code] succeed, the phone step answers "OTP sent successfully" and
    the entry holds the new client, the phone as submitted, the hash the
    network returned and the step "waiting_otp"; the client is left
    connected.  A code submitted next is checked with [sign_in] on that
    client, with that phone and that hash, without connecting again. *)
Theorem code_is_checked_against_sent_hash env w uid phone chat_id message_id country
    api_id api_hash h otp_code :
  is_Some (login_states w !! uid) →
  env_unit env (trace w ++ [Connect (length (heap w))]) = None →
  env_str env (trace w ++ [Connect (length (heap w)); SendCode (length (heap w)) phone])
    = Ret h →
  ∃ w1,
    pyrogram_login_flow_async env uid phone chat_id message_id country api_id api_hash w
      = (Ret (true, Some "OTP sent successfully"), w1) ∧
    login_states w1 !! uid =
      Some (mkState (Some (length (heap w))) (Some phone) (Some h) (Some "waiting_otp")
              (Some (mkManager api_id api_hash)) (Some country) (Some api_id)
              (Some api_hash)) ∧
    connected w1 (length (heap w)) = true ∧
    ∃ rest,
      trace (verify_otp_and_save_async env uid otp_code w1).2
        = trace w ++ [Connect (length (heap w)); SendCode (length (heap w)) phone;
                      SignIn (length (heap w)) phone otp_code h] ++ rest.
Proof.
  intros [st Hst] Hconn Hsend.
  pose (o := mkClient ("client_" +:+ str_Z (now w)) (Some false) (Some false)).
  pose (wA := set_heap (heap w ++ [o]) w).
  pose (c1 := length (heap w)).
  assert (heap wA !! c1 = Some o) as Ho by apply new_client_lookup.
  assert (connected wA c1 = false) as Hnc.
  { unfold connected, attr_is_connected. by rewrite Ho. }
  pose proof (send_code_ok env c1 phone wA o h Ho Hnc Hconn Hsend) as Hsc.
  set (w2 := after_connect _ _ _ _) in Hsc.
  set (st1 := mkState (Some c1) (Some phone) (Some h) (Some "waiting_otp")
                (Some (mkManager api_id api_hash)) (Some country) (Some api_id)
                (Some api_hash)).
  set (w1 := set_login_states (<[uid := st1]> (login_states w2)) w2).
  assert (connected w1 c1 = true) as Hc1.
  { unfold connected, attr_is_connected, w1, w2, after_connect. simpl.
    rewrite list_lookup_insert_eq; [done |].
    rewrite length_app. simpl. unfold c1. lia. }
  assert (login_states w1 !! uid = Some st1) as Hst1 by apply lookup_insert_eq.
  exists w1. split_and!; [| done | done |].
  - unfold pyrogram_login_flow_async.
    unfold try_ at 1. step. unfold get_world at 1. cbv beta iota. rewrite Hst.
    unfold create_client. step. step. unfold get_world at 1. cbv beta iota.
    unfold new_Client. fold o wA c1. cbv beta iota.
    step. rewrite Hsc. cbv beta iota.
    unfold bind, get_world, subscript, modify, ret.
    assert (login_states w2 !! uid = Some st) as -> by done.
    done.
  - destruct (verify_otp_first_call env w1 uid otp_code st1 c1 (mkManager api_id api_hash)
                phone h Hst1 eq_refl eq_refl eq_refl eq_refl Hc1) as (rest & Hrest).
    exists rest. rewrite Hrest. unfold w1, w2, after_connect. simpl.
    rewrite <- app_assoc. done.
Qed.

(** X15.  However many passwords are rejected, the attempt stays: every answer is
    a failure, the user's entry is the same, nothing is written and the
    client remains connected, never disconnected.  There is no limit on the
    number of tries. *)
Theorem rejected_passwords_never_end_attempt env uid st c mgr passwords :
  rejects_passwords env →
  st_client st = Some c → st_manager st = Some mgr →
  ∀ w, login_states w !! uid = Some st → connected w c = true →
  ∃ rs w',
    submit_passwords env uid passwords w = (Ret rs, w') ∧
    length rs = length passwords ∧ Forall (λ r, r.1 = false) rs ∧
    login_states w' = login_states w ∧ accounts_col w' = accounts_col w ∧
    connected w' c = true ∧ disconnects c (trace w') = disconnects c (trace w).
Proof.
  intros Hrej Hc Hm. induction passwords as [|password rest IH]; intros w Hst Hconn.
  - exists [], w. split_and!; done.
  - assert (∃ e, sign_in_with_password env c password w
                 = (Ret (false, Some (str_exn e)),
                    set_trace (trace w ++ [CheckPassword c password]) w)) as [e Hsign].
    { unfold sign_in_with_password, client_check_password. unfold_monad.
      rewrite Hconn. simpl.
      destruct (Hrej (trace w) c password) as (e & -> & He).
      exists e. by rewrite He. }
    destruct (wrong_password_keeps_attempt_run env w uid password st c mgr _ _ Hst Hc Hm Hsign)
      as (Hrun & Hl & Ha & Hd).
    set (w1 := set_trace _ w) in *.
    destruct (IH w1) as (rs & w' & Hrest & Hlen & Hall & Hl' & Ha' & Hc' & Hd');
      [by rewrite Hl | done |].
    exists ((false, Some (str_exn e)) :: rs), w'. split_and!.
    + simpl. unfold bind at 1. rewrite Hrun. unfold bind at 1. rewrite Hrest. done.
    + simpl. by rewrite Hlen.
    + by constructor.
    + by rewrite Hl'.
    + by rewrite Ha'.
    + done.
    + by rewrite Hd'.
Qed.

(** With a network that rejects everything, three passwords in a row. *)
Lemma rejected_passwords_never_end_attempt_witness :
  ∃ rs w',
    submit_passwords env_rejecting 7 ["a"; "b"; "c"] w_waiting_password = (Ret rs, w') ∧
    length rs = 3%nat ∧ Forall (λ r, r.1 = false) rs ∧
    login_states w' = login_states w_waiting_password ∧
    accounts_col w' = accounts_col w_waiting_password ∧
    connected w' 0 = true ∧
    disconnects 0 (trace w') = disconnects 0 (trace w_waiting_password).
Proof.
  apply (rejected_passwords_never_end_attempt env_rejecting 7 st_waiting_password 0%nat
           demo_manager ["a"; "b"; "c"]).
  - intros tr c password. by exists (Error "PASSWORD_HASH_INVALID").
  - reflexivity.
  - reflexivity.
  - reflexivity.
  - reflexivity.
Defined.

(** ** bot.py: the paths of text_handler *)

(** X16.  The phone step of the bot, code sent: the user's entry moves to the
    code step with the stripped phone and the hash returned, the new client
    is stored in [temp_clients] and left connected, and the confirmation is
    sent last; the handler returns unless that reply raises. *)
Theorem bot_phone_step_stores_attempt env w uid text us h :
  user_state w !! uid = Some us → us_step us = "phone" →
  env_unit env (trace w ++ [Connect (length (heap w))]) = None →
  env_str env (trace w ++ [Connect (length (heap w));
                           SendCode (length (heap w)) (strip text)]) = Ret h →
  let r := text_handler env uid text w in
  user_state r.2 !! uid = Some (mkUstate "otp" (Some (strip text)) (Some h)) ∧
  temp_clients r.2 !! uid = Some (length (heap w)) ∧
  connected r.2 (length (heap w)) = true ∧
  accounts_col r.2 = accounts_col w ∧
  trace r.2 = trace w ++ [Connect (length (heap w));
                          SendCode (length (heap w)) (strip text); Reply otp_sent_text] ∧
  r.1 = match env_unit env (trace r.2) with Some e => Raise e | None => Ret tt end.
Proof.
  intros Hus Hstep Hconn Hsend.
  destruct (text_handler env uid text w) as [r w'] eqn:H. simpl.
  unfold text_handler, client_connect, client_send_code, client_disconnect, reply,
    new_Client in H.
  unfold_monad. simpl in H. rewrite Hus, Hstep in H. simpl in H.
  rewrite Hconn in H. simpl in H. rewrite new_client_lookup in H. simpl in H.
  rewrite <- app_assoc in H. simpl in H. rewrite Hsend in H. simpl in H.
  rewrite <- !app_assoc in H. simpl in H.
  change ("📩 **OTP Sent Successfully**" +:+ nl +:+ nl +:+
          "⚠️ Telegram app me OTP aayega" +:+ nl +:+
          "📥 Service / Archived chat check karo") with otp_sent_text in H.
  match type of H with
  | match ?x with _ => _ end = _ => destruct x as [e|] eqn:Hreply
  end.
  all: injection H as <- <-; simpl;
    rewrite ?lookup_insert_eq, ?Hreply; unfold connected, attr_is_connected; simpl;
    rewrite list_lookup_insert_eq by (rewrite length_app; simpl; lia); done.
Qed.

Ltac unfold_handler H :=
  unfold text_handler, save_account, cleanup, client_connect, client_send_code,
    client_sign_in, client_check_password, client_export_session_string,
    client_disconnect, insert_one, reply, new_Client in H;
  unfold call_unit, call_str, call_me, set_attrs, subscript, except_all,
    except_Exception, try_, bind, ret, raise, modify, get_world in H;
  simpl in H.

(** X17.  The phone step of the bot, code not sent ([send_code] raises an
    [Exception], a flood wait or any other): the error is reported to the
    user and then the new client is disconnected; the user's entry stays at
    the phone step and [temp_clients] is unchanged.  When the report itself
    raises, the handler raises and the client is not disconnected. *)
Theorem bot_phone_step_send_failure env w uid text us e :
  user_state w !! uid = Some us → us_step us = "phone" →
  env_unit env (trace w ++ [Connect (length (heap w))]) = None →
  env_str env (trace w ++ [Connect (length (heap w));
                           SendCode (length (heap w)) (strip text)]) = Raise e →
  is_Exception e = true →
  let r := text_handler env uid text w in
  let tr := trace w ++ [Connect (length (heap w)); SendCode (length (heap w)) (strip text);
                        Reply (send_failed_text e)] in
  user_state r.2 = user_state w ∧ temp_clients r.2 = temp_clients w ∧
  accounts_col r.2 = accounts_col w ∧
  match env_unit env tr with
  | Some e' => r.1 = Raise e' ∧ trace r.2 = tr
  | None =>
      trace r.2 = tr ++ [Disconnect (length (heap w))] ∧
      r.1 = unit_outcome env (tr ++ [Disconnect (length (heap w))])
  end.
Proof.
  intros Hus Hstep Hconn Hsend He.
  destruct (text_handler env uid text w) as [r w'] eqn:H. simpl.
  unfold_handler H. rewrite Hus, Hstep in H. simpl in H.
  rewrite Hconn in H. simpl in H. rewrite new_client_lookup in H. simpl in H.
  rewrite <- app_assoc in H. simpl in H. rewrite Hsend in H.
  unfold unit_outcome.
  destruct e; try discriminate He; simpl in H |- *;
    rewrite <- !app_assoc in H; simpl in H;
    (destruct (env_unit env _) as [e1|] eqn:H1 in H; simpl in H;
     [injection H as <- <-; rewrite H1; done |]);
    rewrite H1; rewrite <- !app_assoc in H; simpl in H;
    (destruct (env_unit env _) as [e2|] eqn:H2 in H; simpl in H;
     [injection H as <- <-; simpl; rewrite <- !app_assoc; simpl; rewrite H2; done |]);
    rewrite list_lookup_insert_eq in H by (rewrite length_app; simpl; lia);
    simpl in H; injection H as <- <-; simpl; rewrite <- !app_assoc; simpl; rewrite H2; done.
Qed.

Ltac run_handler H :=
  repeat first
    [ progress (rewrite <- !app_assoc in H; simpl in H)
    | match goal with
      | Heq : _ = _ |- _ =>
          tryif constr_eq Heq H then fail else (rewrite Heq in H; simpl in H)
      end ].

(** The phone step of the bot when [connect] raises: the handler raises
    that exception; nothing is sent to the user and the dictionaries and the
    collection are unchanged. *)
Lemma bot_phone_step_connect_failure env w uid text us e :
  user_state w !! uid = Some us → us_step us = "phone" →
  env_unit env (trace w ++ [Connect (length (heap w))]) = Some e →
  let r := text_handler env uid text w in
  r.1 = Raise e ∧ trace r.2 = trace w ++ [Connect (length (heap w))] ∧
  user_state r.2 = user_state w ∧ temp_clients r.2 = temp_clients w ∧
  accounts_col r.2 = accounts_col w.
Proof.
  intros Hus Hstep Hconn.
  destruct (text_handler env uid text w) as [r w'] eqn:H. simpl.
  unfold_handler H. rewrite Hus, Hstep in H. simpl in H.
  rewrite Hconn in H. simpl in H. by injection H as <- <-.
Qed.

(** X18.  The code step of the bot when [sign_in] raises anything but the request
    for the second factor (a wrong or expired code, say): the handler raises
    that exception.  Nothing is sent, written or disconnected, and the
    user's entry and client stay as they were. *)
Theorem bot_rejected_code_raises env w uid text us c phone hash e :
  user_state w !! uid = Some us → us_step us = "otp" →
  temp_clients w !! uid = Some c → us_phone us = Some phone → us_hash us = Some hash →
  env_unit env (trace w ++ [SignIn c phone (strip text) hash]) = Some e →
  (∀ m, e ≠ SessionPasswordNeeded m) →
  text_handler env uid text w
    = (Raise e, set_trace (trace w ++ [SignIn c phone (strip text) hash]) w).
Proof.
  intros Hus Hstep Hc Hp Hh Hsign He.
  destruct us as [s p h]; simpl in Hstep, Hp, Hh; subst s p h.
  destruct (text_handler env uid text w) as [r w'] eqn:H.
  unfold_handler H. run_handler H.
  destruct e; try (by rewrite <- H); by destruct (He msg).
Qed.

(** X19.  The code step of the bot when the second factor is asked for: the
    user's entry moves to the password step, keeping phone and hash; the
    client stays in [temp_clients], nothing is written, and the user is
    asked for the password. *)
Theorem bot_code_needing_password env w uid text us c phone hash m :
  user_state w !! uid = Some us → us_step us = "otp" →
  temp_clients w !! uid = Some c → us_phone us = Some phone → us_hash us = Some hash →
  env_unit env (trace w ++ [SignIn c phone (strip text) hash])
    = Some (SessionPasswordNeeded m) →
  let r := text_handler env uid text w in
  user_state r.2 = <[uid := mkUstate "password" (Some phone) (Some hash)]> (user_state w) ∧
  temp_clients r.2 = temp_clients w ∧ accounts_col r.2 = accounts_col w ∧
  heap r.2 = heap w ∧
  trace r.2 = trace w ++ [SignIn c phone (strip text) hash; Reply password_wanted_text] ∧
  r.1 = unit_outcome env (trace r.2).
Proof.
  intros Hus Hstep Hc Hp Hh Hsign.
  destruct us as [s p h]; simpl in Hstep, Hp, Hh; subst s p h.
  destruct (text_handler env uid text w) as [r w'] eqn:H. simpl.
  unfold_handler H. run_handler H. unfold unit_outcome.
  change "🔐 **Send 2-step password**" with password_wanted_text in H.
  destruct (env_unit env (trace w ++ [SignIn c phone (strip text) hash;
                                      Reply password_wanted_text])) eqn:Hr;
    injection H as <- <-; simpl; rewrite Hr; done.
Qed.

(** The code step of the bot, code accepted and saving without error: the
    record of the account (owner, phone, session, [two_step] false) is
    appended and the client disconnected once; then the confirmation is
    sent, and only after it the user's entries are removed from both
    dictionaries.  When the confirmation raises, the handler raises and the
    entries stay, the record being already written. *)
Lemma bot_code_step_run env w uid text us c phone hash session :
  user_state w !! uid = Some us → us_step us = "otp" →
  temp_clients w !! uid = Some c → us_phone us = Some phone → us_hash us = Some hash →
  let d := bot_record uid phone session false (now w) in
  let tr := trace w ++ [SignIn c phone (strip text) hash; ExportSessionString c;
                        InsertOne d; Disconnect c] in
  env_unit env (trace w ++ [SignIn c phone (strip text) hash]) = None →
  env_str env (trace w ++ [SignIn c phone (strip text) hash; ExportSessionString c])
    = Ret session →
  env_unit env (trace w ++ [SignIn c phone (strip text) hash; ExportSessionString c;
                            InsertOne d]) = None →
  env_unit env tr = None →
  let r := text_handler env uid text w in
  accounts_col r.2 = accounts_col w ++ [d] ∧
  trace r.2 = tr ++ [Reply account_added_text] ∧
  disconnects c (trace r.2) = S (disconnects c (trace w)) ∧
  match env_unit env (tr ++ [Reply account_added_text]) with
  | None =>
      r.1 = Ret tt ∧ user_state r.2 = delete uid (user_state w) ∧
      temp_clients r.2 = delete uid (temp_clients w)
  | Some e =>
      r.1 = Raise e ∧ user_state r.2 = user_state w ∧ temp_clients r.2 = temp_clients w
  end.
Proof.
  intros Hus Hstep Hc Hp Hh d tr Hsign Hexp Hins Hdis.
  destruct us as [s p h]; simpl in Hstep, Hp, Hh; subst s p h.
  assert (disconnects c (tr ++ [Reply account_added_text]) = S (disconnects c (trace w)))
    as Hcount.
  { unfold tr. rewrite <- app_assoc. simpl.
    change [SignIn c phone (strip text) hash; ExportSessionString c; InsertOne d;
            Disconnect c; Reply account_added_text]
      with ([SignIn c phone (strip text) hash] ++ [ExportSessionString c] ++
            [InsertOne d] ++ [Disconnect c] ++ [Reply account_added_text]).
    rewrite !disconnects_app, disconnects_self, !disconnects_other by done. lia. }
  subst tr d.
  destruct (text_handler env uid text w) as [r w'] eqn:H. simpl.
  unfold_handler H. run_handler H.
  change "✅ **Account added successfully**" with account_added_text in H.
  rewrite <- !app_assoc in Hcount |- *. simpl in Hcount |- *.
  destruct (heap w !! c); simpl in H; run_handler H;
    (match goal with
     | |- context [match env_unit env ?t with _ => _ end] =>
         destruct (env_unit env t) eqn:Hr
     end; run_handler H; injection H as <- <-; simpl; split_and!; done).
Qed.

(** The password step of the bot, password accepted and saving without
    error: as for the code step, with [two_step] true in the record. *)
Lemma bot_password_step_run env w uid text us c phone session :
  user_state w !! uid = Some us → us_step us = "password" →
  temp_clients w !! uid = Some c → us_phone us = Some phone →
  let d := bot_record uid phone session true (now w) in
  let tr := trace w ++ [CheckPassword c (strip text); ExportSessionString c;
                        InsertOne d; Disconnect c] in
  env_unit env (trace w ++ [CheckPassword c (strip text)]) = None →
  env_str env (trace w ++ [CheckPassword c (strip text); ExportSessionString c])
    = Ret session →
  env_unit env (trace w ++ [CheckPassword c (strip text); ExportSessionString c;
                            InsertOne d]) = None →
  env_unit env tr = None →
  let r := text_handler env uid text w in
  accounts_col r.2 = accounts_col w ++ [d] ∧
  d !! "two_step" = Some (VBool true) ∧
  trace r.2 = tr ++ [Reply account_added_text] ∧
  disconnects c (trace r.2) = S (disconnects c (trace w)) ∧
  match env_unit env (tr ++ [Reply account_added_text]) with
  | None =>
      r.1 = Ret tt ∧ user_state r.2 = delete uid (user_state w) ∧
      temp_clients r.2 = delete uid (temp_clients w)
  | Some e =>
      r.1 = Raise e ∧ user_state r.2 = user_state w ∧ temp_clients r.2 = temp_clients w
  end.
Proof.
  intros Hus Hstep Hc Hp d tr Hsign Hexp Hins Hdis.
  destruct us as [s p h]; simpl in Hstep, Hp; subst s p.
  assert (disconnects c (tr ++ [Reply account_added_text]) = S (disconnects c (trace w)))
    as Hcount.
  { unfold tr. rewrite <- app_assoc. simpl.
    change [CheckPassword c (strip text); ExportSessionString c; InsertOne d;
            Disconnect c; Reply account_added_text]
      with ([CheckPassword c (strip text)] ++ [ExportSessionString c] ++
            [InsertOne d] ++ [Disconnect c] ++ [Reply account_added_text]).
    rewrite !disconnects_app, disconnects_self, !disconnects_other by done. lia. }
  assert (d !! "two_step" = Some (VBool true)) as Htwo by done.
  subst tr d.
  destruct (text_handler env uid text w) as [r w'] eqn:H. simpl.
  unfold_handler H. run_handler H.
  change "✅ **Account added successfully**" with account_added_text in H.
  rewrite <- !app_assoc in Hcount |- *. simpl in Hcount |- *.
  destruct (heap w !! c); simpl in H; run_handler H;
    (match goal with
     | |- context [match env_unit env ?t with _ => _ end] =>
         destruct (env_unit env t) eqn:Hr
     end; run_handler H; injection H as <- <-; simpl; split_and!; done).
Qed.

(** X20.  The step that verifies (the code step, or the password step after a
    request for the second factor), the check accepted and saving without
    error: the record of the account (owner, phone, session, [two_step]
    telling which of the two steps it was) is appended and the client
    disconnected once; then the confirmation is sent, and only after it the
    user's entries are removed from both dictionaries.  When the
    confirmation raises, the handler raises and the entries stay, the record
    being already written. *)
Theorem bot_verified_step_saves_account env w uid text us c phone hash session
    (two_step : bool) :
  let check := if two_step then CheckPassword c (strip text)
               else SignIn c phone (strip text) hash in
  let d := bot_record uid phone session two_step (now w) in
  let tr := trace w ++ [check; ExportSessionString c; InsertOne d; Disconnect c] in
  user_state w !! uid = Some us →
  us_step us = (if two_step then "password" else "otp") →
  temp_clients w !! uid = Some c → us_phone us = Some phone → us_hash us = Some hash →
  env_unit env (trace w ++ [check]) = None →
  env_str env (trace w ++ [check; ExportSessionString c]) = Ret session →
  env_unit env (trace w ++ [check; ExportSessionString c; InsertOne d]) = None →
  env_unit env tr = None →
  let r := text_handler env uid text w in
  accounts_col r.2 = accounts_col w ++ [d] ∧
  d !! "two_step" = Some (VBool two_step) ∧
  trace r.2 = tr ++ [Reply account_added_text] ∧
  disconnects c (trace r.2) = S (disconnects c (trace w)) ∧
  match env_unit env (tr ++ [Reply account_added_text]) with
  | None =>
      r.1 = Ret tt ∧ user_state r.2 = delete uid (user_state w) ∧
      temp_clients r.2 = delete uid (temp_clients w)
  | Some e =>
      r.1 = Raise e ∧ user_state r.2 = user_state w ∧ temp_clients r.2 = temp_clients w
  end.
Proof.
  intros check d tr Hus Hstep Hc Hp Hh Hsign Hexp Hins Hdis. subst check d tr.
  destruct two_step.
  - by apply (bot_password_step_run env w uid text us c phone session).
  - pose proof (bot_code_step_run env w uid text us c phone hash session
                  Hus Hstep Hc Hp Hh Hsign Hexp Hins Hdis) as (H1 & H2 & H3 & H4).
    by split_and!.
Qed.

(** X21.  Saving the account is not all-or-nothing: when the final [disconnect]
    raises after the record was inserted, the handler raises with the record
    written; no confirmation is sent and the user's entries stay, at the
    same step. *)
Theorem bot_save_survives_failed_disconnect env w uid text us c phone hash session e :
  user_state w !! uid = Some us → us_step us = "otp" →
  temp_clients w !! uid = Some c → us_phone us = Some phone → us_hash us = Some hash →
  let d := bot_record uid phone session false (now w) in
  let tr := trace w ++ [SignIn c phone (strip text) hash; ExportSessionString c;
                        InsertOne d; Disconnect c] in
  env_unit env (trace w ++ [SignIn c phone (strip text) hash]) = None →
  env_str env (trace w ++ [SignIn c phone (strip text) hash; ExportSessionString c])
    = Ret session →
  env_unit env (trace w ++ [SignIn c phone (strip text) hash; ExportSessionString c;
                            InsertOne d]) = None →
  env_unit env tr = Some e →
  let r := text_handler env uid text w in
  r.1 = Raise e ∧ accounts_col r.2 = accounts_col w ++ [d] ∧ trace r.2 = tr ∧
  user_state r.2 = user_state w ∧ temp_clients r.2 = temp_clients w ∧ heap r.2 = heap w.
Proof.
  intros Hus Hstep Hc Hp Hh d tr Hsign Hexp Hins Hdis.
  destruct us as [s p h]; simpl in Hstep, Hp, Hh; subst s p h. subst tr d.
  destruct (text_handler env uid text w) as [r w'] eqn:H. simpl.
  unfold_handler H. run_handler H.
  by injection H as <- <-.
Qed.

(** ** bot.py: what text_handler leaves alone *)

Lemma bot_rel_refl uid w : bot_rel uid w w.
Proof. by split_and!. Qed.

Lemma bot_rel_trans uid w1 w2 w3 : bot_rel uid w1 w2 → bot_rel uid w2 w3 → bot_rel uid w1 w3.
Proof.
  intros (H1 & H2 & H3 & H4 & H5) (H1' & H2' & H3' & H4' & H5'). split_and!.
  - intros u Hu. rewrite H1', H1; done.
  - intros u Hu. rewrite H2', H2; done.
  - congruence.
  - by etrans.
  - by etrans.
Qed.

Lemma bot_rel_call uid x w : bot_rel uid w (set_trace (trace w ++ [x]) w).
Proof. split_and!; try done. by apply prefix_app_r. Qed.

Lemma bot_rel_heap uid w h : bot_rel uid w (set_heap h w).
Proof. by split_and!. Qed.

Lemma bot_rel_user_insert uid w m us :
  (∀ u, u ≠ uid → m !! u = user_state w !! u) →
  bot_rel uid w (set_user_state (<[uid := us]> m) w).
Proof.
  intros Hm. split_and!; try done. simpl. intros u Hu.
  rewrite lookup_insert_ne by done. by apply Hm.
Qed.

Lemma bot_rel_user_delete uid w :
  bot_rel uid w (set_user_state (delete uid (user_state w)) w).
Proof. split_and!; try done. simpl. intros u Hu. by apply lookup_delete_ne. Qed.

Lemma bot_rel_temp_insert uid w c :
  bot_rel uid w (set_temp_clients (<[uid := c]> (temp_clients w)) w).
Proof. split_and!; try done. simpl. intros u Hu. by apply lookup_insert_ne. Qed.

Lemma bot_rel_temp_delete uid w :
  bot_rel uid w (set_temp_clients (delete uid (temp_clients w)) w).
Proof. split_and!; try done. simpl. intros u Hu. by apply lookup_delete_ne. Qed.

Lemma bot_rel_accounts uid w d : bot_rel uid w (set_accounts_col (accounts_col w ++ [d]) w).
Proof. split_and!; try done. by apply prefix_app_r. Qed.

#[local] Hint Resolve bot_rel_refl bot_rel_trans bot_rel_call bot_rel_heap
  bot_rel_user_delete bot_rel_temp_insert bot_rel_temp_delete bot_rel_accounts : rel.

(** Moving the entry of [uid] to another step after reading it. *)
Lemma maintains_set_step {A} env uid step text (x : A) :
  maintains (bot_rel uid)
    (w <- get_world ;;
     us <- subscript (user_state w !! uid) (KInt uid) ;;
     modify (set_user_state (<[uid := set_ustep step us]> (user_state w))) ;;;
     reply env text ;;;
     ret x).
Proof.
  intros w r w'. unfold reply, call_unit, bind, get_world, subscript, modify, ret, raise.
  destruct (user_state w !! uid); [| intros [= <- <-]; apply bot_rel_refl].
  simpl. intros H. eapply bot_rel_trans.
  - by apply (bot_rel_user_insert uid w (user_state w) (set_ustep step u)).
  - destruct (env_unit env _); injection H as <- <-;
      apply (bot_rel_call uid (Reply text)
               (set_user_state (<[uid := set_ustep step u]> (user_state w)) w)).
Qed.

Lemma maintains_save_account env uid phone c two_step :
  maintains (bot_rel uid) (save_account env uid phone c two_step).
Proof.
  unfold save_account, client_export_session_string, cleanup.
  maintains_walk.
Qed.

Lemma maintains_text_handler env uid text : maintains (bot_rel uid) (text_handler env uid text).
Proof.
  unfold text_handler, cleanup, reply, client_send_code, client_sign_in,
    client_check_password.
  maintains_walk. all: try apply maintains_save_account.
  - apply maintains_try; rel_side; [maintains_walk |].
    intros e k Hk. unfold except_Exception in Hk.
    destruct e; simpl in Hk; try discriminate Hk; injection Hk as <-; maintains_walk.
  - by apply (bot_rel_user_insert uid w (user_state w)).
  - apply maintains_try; rel_side; [maintains_walk |].
    intros e k Hk. destruct e; try discriminate Hk. injection Hk as <-.
    apply (maintains_set_step env uid "password").
Qed.

(** X22.  Whatever the text, the state and the answers of the services, a text
    of [uid] leaves the entries of every other user in [user_state] and
    [temp_clients] as they were and does not touch [login_states]; the
    records of the collection stay in place (one may be appended), and the
    history of calls is only extended. *)
Theorem text_handler_touches_only_sender env uid text w :
  bot_rel uid w (text_handler env uid text w).2.
Proof.
  destruct (text_handler env uid text w) as [r w'] eqn:H.
  by apply (maintains_text_handler env uid text w r w').
Qed.

(** A text from a user with no entry in [user_state], or whose entry is at
    a step the handler does not know, is ignored: the handler returns with
    no call made and nothing changed. *)
Lemma text_without_open_step_is_ignored env uid text w :
  (∀ us, user_state w !! uid = Some us → known_step (us_step us) = false) →
  text_handler env uid text w = (Ret tt, w).
Proof.
  intros Hstep. unfold text_handler, bind, get_world, ret.
  destruct (user_state w !! uid) as [us|]; [| done].
  specialize (Hstep us eq_refl). unfold known_step in Hstep.
  apply orb_false_elim in Hstep as [[H1 H2]%orb_false_elim H3].
  by rewrite H1, H2, H3.
Qed.

(** ** bot.py: a login through two texts *)

(** X23.  A phone number and then the code, every call succeeding: the code is
    checked on the client made for the phone number, with the stripped
    phone and the hash that [send_code] returned; one record with these and
    the exported session is appended, the client ends disconnected, and the
    user has no entry left in [user_state] or [temp_clients]. *)
Theorem bot_login_through_two_texts env w uid phone_text code_text us h session :
  let c := length (heap w) in
  let phone := strip phone_text in
  let d := bot_record uid phone session false (now w) in
  let calls := [Connect c; SendCode c phone; Reply otp_sent_text;
                SignIn c phone (strip code_text) h; ExportSessionString c;
                InsertOne d; Disconnect c; Reply account_added_text] in
  user_state w !! uid = Some us → us_step us = "phone" →
  env_unit env (trace w ++ take 1 calls) = None →
  env_str env (trace w ++ take 2 calls) = Ret h →
  env_unit env (trace w ++ take 3 calls) = None →
  env_unit env (trace w ++ take 4 calls) = None →
  env_str env (trace w ++ take 5 calls) = Ret session →
  env_unit env (trace w ++ take 6 calls) = None →
  env_unit env (trace w ++ take 7 calls) = None →
  env_unit env (trace w ++ calls) = None →
  let w1 := (text_handler env uid phone_text w).2 in
  let r := text_handler env uid code_text w1 in
  r.1 = Ret tt ∧ accounts_col r.2 = accounts_col w ++ [d] ∧
  user_state r.2 !! uid = None ∧ temp_clients r.2 !! uid = None ∧
  connected r.2 c = false ∧ trace r.2 = trace w ++ calls.
Proof.
  intros c phone d calls Hus Hstep E1 E2 E3 E4 E5 E6 E7 E8.
  subst calls d phone c. simpl in E1, E2, E3, E4, E5, E6, E7, E8.
  destruct us as [s p0 h0]; simpl in Hstep; subst s.
  assert (∀ (l : list Client) o o', <[length l := o']> (l ++ [o]) !! length l = Some o')
    as Hnew.
  { intros l o o'. apply list_lookup_insert_eq. rewrite length_app. simpl. lia. }
  destruct (text_handler env uid phone_text w) as [r1 w1] eqn:H1.
  unfold_handler H1. run_handler H1.
  rewrite new_client_lookup in H1. simpl in H1. run_handler H1.
  change ("📩 **OTP Sent Successfully**" +:+ nl +:+ nl +:+
          "⚠️ Telegram app me OTP aayega" +:+ nl +:+
          "📥 Service / Archived chat check karo") with otp_sent_text in H1.
  run_handler H1. injection H1 as <- <-. simpl.
  destruct (text_handler env uid code_text _) as [r w2] eqn:H2. simpl.
  unfold_handler H2.
  change "✅ **Account added successfully**" with account_added_text in H2.
  repeat (progress (rewrite ?lookup_insert_eq, ?Hnew in H2; simpl in H2; run_handler H2)).
  injection H2 as <- <-. simpl.
  rewrite !lookup_delete_eq. unfold connected, attr_is_connected. simpl.
  rewrite list_insert_insert_eq, Hnew. done.
Qed.

(** ** bot.py: the callback handler *)



Lemma find_one_elem_of q col d : find_one q col = Some d → d ∈ col.
Proof.
  unfold find_one. intros H. apply List.find_some in H as [H _].
  by apply list_elem_of_In.
Qed.

Lemma matches_owner_phone_query uid phone d :
  matches (owner_phone_query uid phone) d = true →
  d !! "user_id" = Some (VInt uid) ∧ d !! "phone" = Some (VStr phone).
Proof.
  unfold matches, owner_phone_query. simpl. rewrite !andb_true_iff.
  intros (H1 & H2 & _). by apply bool_decide_eq_true in H1, H2.
Qed.

Section PanelFacts.

Context {char : Type}.
Variables is_digit is_word : char -> bool.
Variable str_chars : list char -> string.
Variable str_time : Z -> string.
Variable env : environment.
Variable penv : @panel_environment char.

(** X24.  The data of the buttons that the bot makes for a phone lead back to
    the branch of that button with the same phone, whatever the phone is
    (it may be empty or hold underscores). *)
Theorem callback_data_round_trip uid phone p :
  callbacks is_digit is_word str_chars str_time env penv uid ("open_" +:+ phone) p
    = callbacks_open penv phone p ∧
  callbacks is_digit is_word str_chars str_time env penv uid ("logout_" +:+ phone) p
    = callbacks_logout env penv uid phone p ∧
  callbacks is_digit is_word str_chars str_time env penv uid ("otp_" +:+ phone) p
    = callbacks_otp is_digit is_word str_chars str_time env penv uid phone p.
Proof.
  assert (∀ s, String.prefix "" s = true) as Hnil by (by intros []).
  unfold callbacks, split_1. simpl. rewrite !Hnil. simpl.
  split_and!; reflexivity.
Qed.


(** ** What a button press may change *)

Lemma press_rel_refl uid w : press_rel uid w w.
Proof. split_and!; try done. by left. Qed.

Lemma press_rel_reply uid text w r w' :
  reply env text w = (r, w') → press_rel uid w w'.
Proof.
  unfold reply, call_unit. destruct (env_unit env _); intros [= <- <-];
    (split_and!; try done; [by apply prefix_app_r | by left]).
Qed.

Lemma account_buttons_pure accounts p :
  (account_buttons str_time accounts p).2 = p.
Proof.
  induction accounts as [|acc rest IH]; [done |].
  simpl. unfold mbind, P_bind, doc_get, panel_raise, mret, P_ret.
  destruct (acc !! "phone"); [| done].
  destruct (account_buttons str_time rest p) as [[rows|e] p'] eqn:Hrest; simpl in IH;
    by subst p'.
Qed.

Ltac destruct_reply H Hr :=
  simpl in H;
  match type of H with
  | context [reply env ?t ?w] => destruct (reply env t w) as [? ?] eqn:Hr
  end; simpl in H.

Ltac unfold_panel H :=
  unfold callbacks_accounts, callbacks_open, callbacks_logout, callbacks_otp, find,
    find_one_call, delete_one, reply_markup_call, fetch_latest_otp_call, try_pass,
    index_1, doc_get, get_bot, lift, panel_call_unit, panel_raise in H;
  unfold mbind, P_bind, mret, P_ret in H;
  simpl in H.

Lemma press_add_rel uid p : press_rel uid (bot p) (bot (lift (callbacks_add env uid) p).2).
Proof.
  unfold lift, callbacks_add, reply, call_unit, bind, modify. simpl.
  destruct (env_unit env _); simpl;
    (split_and!; try done;
     [by intros u Hu; apply lookup_insert_ne | by apply prefix_app_r | by left]).
Qed.

Lemma press_accounts_rel uid p :
  press_rel uid (bot p) (bot (callbacks_accounts str_time env penv uid p).2).
Proof.
  destruct (callbacks_accounts str_time env penv uid p) as [r p'] eqn:H. simpl.
  unfold callbacks_accounts, find, get_bot, lift, panel_call_unit,
    reply_markup_call in H.
  unfold mbind, P_bind, mret, P_ret in H. simpl in H.
  destruct (penv_unit penv _); [injection H as <- <-; apply press_rel_refl |].
  destruct (List.filter _ _) as [|acc rest].
  - destruct_reply H Hr. injection H as <- <-. simpl.
    by eapply press_rel_reply.
  - pose proof (account_buttons_pure (acc :: rest) (mkPanel (bot p)
        (panel_calls p ++ [Find [("user_id", VInt uid)]]))) as Hpure.
    destruct (account_buttons str_time (acc :: rest) _) as [[rows|e] p1]; simpl in Hpure;
      subst p1; [| injection H as <- <-; apply press_rel_refl].
    simpl in H. injection H as <- <-. apply press_rel_refl.
Qed.

Lemma press_open_rel uid phone p : press_rel uid (bot p) (bot (callbacks_open penv phone p).2).
Proof. apply press_rel_refl. Qed.

Ltac panel_cases H :=
  repeat (match type of H with
          | context [match penv_unit penv ?t with _ => _ end] =>
              destruct (penv_unit penv t) eqn:?
          | context [match penv_history penv ?t with _ => _ end] =>
              destruct (penv_history penv t) eqn:?
          | context [match find_one ?q ?c with _ => _ end] =>
              destruct (find_one q c) eqn:?
          | context [match fetch_latest_otp ?a ?b ?c with _ => _ end] =>
              destruct (fetch_latest_otp a b c) as [[|? ?]|] eqn:?
          | context [match ?d !! ?k with _ => _ end] => destruct (d !! k) eqn:?
          | context [reply env ?t ?w] => destruct (reply env t w) as [? ?] eqn:?
          end; simpl in H).

Lemma press_logout_rel uid phone p :
  press_rel uid (bot p) (bot (callbacks_logout env penv uid phone p).2).
Proof.
  destruct (callbacks_logout env penv uid phone p) as [r p'] eqn:H. simpl.
  unfold_panel H. unfold modify in H. panel_cases H.
  all: injection H as <- <-; simpl; try apply press_rel_refl.
  all: try by eapply press_rel_reply.
  all: match goal with
       | Hr : reply env _ _ = _, Hacc : find_one _ _ = Some ?acc |- _ =>
           unfold reply, call_unit in Hr; simpl in Hr;
           assert (acc ∈ accounts_col (bot p)) as Hin by (by eapply find_one_elem_of);
           apply find_one_matches, (matches_owner_phone_query uid phone) in Hacc as [Hu _];
           destruct (env_unit env _); injection Hr as <- <-; simpl;
           (split_and!; try done; [by apply prefix_app_r | right; by exists acc])
       end.
Qed.

Lemma press_otp_rel uid phone p :
  press_rel uid (bot p)
    (bot (callbacks_otp is_digit is_word str_chars str_time env penv uid phone p).2).
Proof.
  destruct (callbacks_otp is_digit is_word str_chars str_time env penv uid phone p)
    as [r p'] eqn:H. simpl.
  unfold_panel H. panel_cases H.
  all: injection H as <- <-; simpl; try apply press_rel_refl.
  all: by eapply press_rel_reply.
Qed.

(** X25.  Whatever the data of the button and the answers of the services, a
    press by user [uid] leaves the clients, [temp_clients], [login_states]
    and the entries of the other users in [user_state] as they were, and
    removes no record of the collection but, at most, one record of [uid]
    itself. *)
Theorem press_touches_only_own_records uid data p :
  press_rel uid (bot p) (bot (callbacks is_digit is_word str_chars str_time env penv uid data p).2).
Proof.
  unfold callbacks.
  destruct (String.eqb data "add"); [apply press_add_rel |].
  destruct (String.eqb data "accounts"); [apply press_accounts_rel |].
  unfold index_1, mbind, P_bind, mret, P_ret, panel_raise.
  destruct (String.prefix "open_" data).
  { destruct (split_1 "_" data !! 1%nat); [apply press_open_rel | apply press_rel_refl]. }
  destruct (String.prefix "logout_" data).
  { destruct (split_1 "_" data !! 1%nat); [apply press_logout_rel | apply press_rel_refl]. }
  destruct (String.prefix "otp_" data); [| apply press_rel_refl].
  destruct (split_1 "_" data !! 1%nat); [apply press_otp_rel | apply press_rel_refl].
Qed.


(** ** The branches, call by call *)

Lemma press_data uid phone p :
  callbacks is_digit is_word str_chars str_time env penv uid ("open_" +:+ phone) p
    = callbacks_open penv phone p ∧
  callbacks is_digit is_word str_chars str_time env penv uid ("logout_" +:+ phone) p
    = callbacks_logout env penv uid phone p ∧
  callbacks is_digit is_word str_chars str_time env penv uid ("otp_" +:+ phone) p
    = callbacks_otp is_digit is_word str_chars str_time env penv uid phone p.
Proof.
  assert (∀ s, String.prefix "" s = true) as Hnil by (by intros []).
  unfold callbacks, split_1. simpl. rewrite !Hnil. simpl.
  split_and!; reflexivity.
Qed.

Lemma refused_run uid phone p (k : document → P unit) :
  penv_unit penv (panel_calls p ++ [FindOne (owner_phone_query uid phone)]) = None →
  find_account uid phone (bot p) = None →
  refused env penv uid phone p
    ((acc ← find_one_call penv (owner_phone_query uid phone);
      match acc with
      | None => lift (reply env "❌ Account not found")
      | Some acc => k acc
      end) p).
Proof.
  intros Hq Hacc. unfold find_account in Hacc.
  unfold find_one_call, get_bot, lift, panel_call_unit, reply, call_unit.
  unfold mbind, P_bind, mret, P_ret. simpl.
  unfold owner_phone_query in *. rewrite Hq, Hacc. simpl.
  unfold refused, unit_outcome, same_stores.
  destruct (env_unit env _) eqn:Hr; simpl; rewrite Hr; done.
Qed.

(** X26.  A press of [logout_] or [otp_] for a phone of which the user has no
    record (a phone of another user, say) is refused after the one query:
    no client is made or started, nothing is deleted, and the user is told
    that the account was not found. *)
Theorem press_for_unknown_account_is_refused uid phone p :
  penv_unit penv (panel_calls p ++ [FindOne (owner_phone_query uid phone)]) = None →
  find_account uid phone (bot p) = None →
  refused env penv uid phone p
    (callbacks is_digit is_word str_chars str_time env penv uid ("logout_" +:+ phone) p) ∧
  refused env penv uid phone p
    (callbacks is_digit is_word str_chars str_time env penv uid ("otp_" +:+ phone) p).
Proof.
  intros Hq Hacc. destruct (press_data uid phone p) as (_ & -> & ->).
  split; by apply refused_run.
Qed.






(** X28.  The [otp_] branch has no handler around the client: when reading the
    history raises after [start] returned, the handler raises that
    exception at once.  [stop] is not called on the started client and
    nothing is sent to the user. *)
Theorem otp_fetch_failure_leaves_client_started uid phone p acc session e :
  let q := owner_phone_query uid phone in
  let tr := panel_calls p ++ [FindOne q; Start "otp_fetch" session;
                              GetChatHistory "otp_fetch" 777000 20] in
  penv_unit penv (panel_calls p ++ [FindOne q]) = None →
  find_account uid phone (bot p) = Some acc →
  acc !! "session" = Some session →
  penv_unit penv (panel_calls p ++ [FindOne q; Start "otp_fetch" session]) = None →
  penv_history penv tr = Raise e →
  callbacks is_digit is_word str_chars str_time env penv uid ("otp_" +:+ phone) p
    = (Raise e, mkPanel (bot p) tr).
Proof.
  intros q tr Hq Hacc Hs Hstart Hhist. destruct (press_data uid phone p) as (_ & _ & ->).
  subst q tr. unfold find_account, owner_phone_query in *.
  unfold callbacks_otp, find_one_call, fetch_latest_otp_call, get_bot, doc_get,
    panel_call_unit.
  unfold mbind, P_bind, mret, P_ret. simpl.
  rewrite Hq, Hacc. simpl. rewrite Hs. simpl.
  rewrite <- ?app_assoc. simpl. rewrite Hstart. simpl.
  rewrite <- ?app_assoc. simpl. by rewrite Hhist.
Qed.

(** X29.  The [otp_] branch on a stored account, every call returning: the
    client is started, the history of chat 777000 read (20 messages at
    most) and the client stopped; then the user gets the code that
    [fetch_latest_otp] found there, with the phone and the [two_step] of
    the record, or the message that there is none. *)
Theorem otp_press_reports_latest_code uid phone p acc session two_step history :
  let q := owner_phone_query uid phone in
  let tr := panel_calls p ++ [FindOne q; Start "otp_fetch" session;
                              GetChatHistory "otp_fetch" 777000 20; Stop "otp_fetch"] in
  penv_unit penv (panel_calls p ++ [FindOne q]) = None →
  find_account uid phone (bot p) = Some acc →
  acc !! "session" = Some session → acc !! "two_step" = Some two_step →
  penv_unit penv (panel_calls p ++ [FindOne q; Start "otp_fetch" session]) = None →
  penv_history penv (panel_calls p ++ [FindOne q; Start "otp_fetch" session;
                                       GetChatHistory "otp_fetch" 777000 20])
    = Ret history →
  penv_unit penv tr = None →
  let r := callbacks is_digit is_word str_chars str_time env penv uid ("otp_" +:+ phone) p in
  let text := match fetch_latest_otp is_digit is_word history with
              | Some (c :: otp) =>
                  latest_otp_text phone (str_chars (c :: otp)) (str_value str_time two_step)
              | _ => no_otp_text
              end in
  panel_calls r.2 = tr ∧ same_stores (bot p) (bot r.2) ∧
  trace (bot r.2) = trace (bot p) ++ [Reply text] ∧
  r.1 = unit_outcome env (trace (bot r.2)).
Proof.
  intros q tr Hq Hacc Hs Htwo Hstart Hhist Hstop.
  destruct (press_data uid phone p) as (_ & _ & ->).
  subst q tr. unfold find_account, owner_phone_query in *.
  destruct (callbacks_otp is_digit is_word str_chars str_time env penv uid phone p)
    as [r p'] eqn:H. simpl.
  unfold_panel H. unfold reply, call_unit in H.
  rewrite Hq in H. simpl in H. rewrite Hacc in H. simpl in H. rewrite Hs in H. simpl in H.
  rewrite <- ?app_assoc in H. simpl in H. rewrite Hstart in H. simpl in H.
  rewrite <- ?app_assoc in H. simpl in H. rewrite Hhist in H. simpl in H.
  rewrite <- ?app_assoc in H. simpl in H. rewrite Hstop in H. simpl in H.
  unfold unit_outcome, same_stores.
  destruct (fetch_latest_otp is_digit is_word history) as [[|c otp]|]; simpl in H;
    rewrite ?Htwo in H; simpl in H; unfold no_otp_text, latest_otp_text;
    (match type of H with
     | context [match env_unit env ?t with _ => _ end] =>
         destruct (env_unit env t) eqn:Hr
     end; injection H as <- <-; simpl; rewrite Hr; done).
Qed.

(** ** The list of accounts *)

Lemma account_buttons_run accounts phones p :
  mapM (λ d : document, d !! "phone") accounts = Some phones →
  account_buttons str_time accounts p = (Ret (account_row str_time <$> phones), p).
Proof.
  revert phones. induction accounts as [|acc rest IH]; intros phones Hm.
  - by injection Hm as <-.
  - simpl in Hm. unfold mbind, option_bind in Hm. simpl in Hm.
    destruct (acc !! "phone") as [v|] eqn:Hv; [| done]. simpl in Hm.
    destruct (mapM _ rest) as [vs|] eqn:Hvs; [| done]. injection Hm as <-.
    simpl. unfold mbind, P_bind, doc_get, mret, P_ret. rewrite Hv.
    by rewrite (IH vs eq_refl).
Qed.

(** X30.  The [accounts] branch, for a user who has records, each with a phone:
    it shows the records whose [user_id] is the user, and only those: one
    row per record, in the order of the collection, with the data [open_]
    followed by the phone; the text counts them. *)
Theorem accounts_lists_the_records_of_the_user uid p phones :
  let q := [("user_id", VInt uid)] in
  let mine := List.filter (matches q) (accounts_col (bot p)) in
  let tr := panel_calls p ++ [Find q; ReplyMarkup (total_accounts_text (length mine))
                                        (account_row str_time <$> phones)] in
  penv_unit penv (panel_calls p ++ [Find q]) = None →
  mine ≠ [] →
  mapM (λ d : document, d !! "phone") mine = Some phones →
  callbacks is_digit is_word str_chars str_time env penv uid "accounts" p
    = (panel_outcome penv tr, mkPanel (bot p) tr).
Proof.
  intros q mine tr Hq Hne Hphones. subst q tr.
  unfold callbacks. simpl. unfold callbacks_accounts, find, get_bot, panel_call_unit.
  unfold mbind at 1 2 3, P_bind at 1 2 3, mret, P_ret. simpl. rewrite Hq. simpl.
  fold mine. destruct mine as [|d rest] eqn:Hmine; [done |].
  unfold mbind, P_bind. rewrite (account_buttons_run _ phones _ Hphones).
  unfold reply_markup_call, panel_call_unit, panel_outcome, total_accounts_text. simpl.
  by rewrite <- ?app_assoc.
Qed.

End PanelFacts.

(** ** The further properties on concrete runs *)

(** The code of user 7 is met by the request for the second factor. *)
Lemma code_needing_password_keeps_attempt_witness :
  let env := env_password_needed in
  let w := w_waiting_otp in
  let w1 := (sign_in_with_otp env 0 "+15551234567" "HASH" "54321" w).2 in
  ∃ w',
    verify_otp_and_save_async env 7 "54321" w
      = (Ret (false, Some "password_required"), w') ∧
    login_states w' = <[7 := set_step "waiting_password" st_waiting_otp]> (login_states w) ∧
    accounts_col w' = accounts_col w ∧ heap w' = heap w1 ∧
    disconnects 0 (trace w') = disconnects 0 (trace w).
Proof.
  intros env w w1.
  apply (code_needing_password_keeps_attempt env w 7 "54321" st_waiting_otp 0%nat
           demo_manager "+15551234567" "HASH" None w1); reflexivity.
Defined.

(** The code of user 7 is rejected. *)
Lemma rejected_code_ends_attempt_witness :
  let env := env_code_rejected in
  let w := w_waiting_otp in
  let w1 := (sign_in_with_otp env 0 "+15551234567" "HASH" "00000" w).2 in
  ∃ w',
    verify_otp_and_save_async env 7 "00000" w
      = (Ret (false, Some (or_str (Some "PHONE_CODE_INVALID") "OTP verification failed")),
         w') ∧
    login_states w' = delete 7 (login_states w) ∧
    accounts_col w' = accounts_col w ∧
    trace w' = trace w1 ++ teardown_calls w1 (Some 0%nat).
Proof.
  intros env w w1.
  apply (rejected_code_ends_attempt env w 7 "00000" st_waiting_otp 0%nat demo_manager
           "+15551234567" "HASH" (Some "PHONE_CODE_INVALID") w1); reflexivity.
Defined.

(** User 7 sends a code before any phone number. *)
Lemma verification_before_phone_drops_entry_witness :
  verify_otp_and_save_async env_ok 7 "54321" w_fresh
    = (Ret (false, Some "'client'"),
       set_login_states (delete 7 (login_states w_fresh)) w_fresh) ∧
  verify_2fa_password_async env_ok 7 "54321" w_fresh
    = (Ret (false, Some "'client'"),
       set_login_states (delete 7 (login_states w_fresh)) w_fresh).
Proof.
  apply (verification_before_phone_drops_entry env_ok w_fresh 7 "54321" st_fresh);
    reflexivity.
Defined.

(** The password of user 7 is accepted, every call succeeding. *)
Lemma password_success_finalizes_witness :
  let env := env_ok in
  let w := w_waiting_password in
  let d := account_record "US" "+15551234567" "CREDENTIAL" true (Some "hunter2") (now w) 7 in
  ∃ w',
    verify_2fa_password_async env 7 "hunter2" w
      = (Ret (true, Some "Account added successfully"), w') ∧
    accounts_col w' = accounts_col w ++ [d] ∧
    d !! "has_2fa" = Some (VBool true) ∧
    d !! "two_step_password" = Some (VStr "hunter2") ∧
    login_states w' = delete 7 (login_states w) ∧
    disconnects 0 (trace w') = S (disconnects 0 (trace w)).
Proof.
  intros env w d.
  pose (w1 := (sign_in_with_password env 0 "hunter2" w).2).
  pose (w2 := (get_session_string env 0 w1).2).
  pose (w3 := (insert_one env d w2).2).
  apply (password_success_finalizes env w 7 "hunter2" st_waiting_password 0%nat
           demo_manager "+15551234567" "US" None w1 "CREDENTIAL" w2 w3).
  - reflexivity.
  - reflexivity.
  - reflexivity.
  - reflexivity.
  - reflexivity.
  - exists open_client. reflexivity.
  - reflexivity.
  - reflexivity.
  - discriminate.
  - reflexivity.
Defined.

(** The code of user 7 is met by the request for the second factor, and
    the password that follows is accepted. *)
Lemma second_factor_login_completes_witness :
  let env := env_password_needed in
  let w := w_waiting_otp in
  let d := account_record "US" "+15551234567" "CREDENTIAL" true (Some "hunter2") (now w) 7 in
  ∃ w',
    (verify_otp_and_save_async env 7 "54321" ;;;
     verify_2fa_password_async env 7 "hunter2") w
      = (Ret (true, Some "Account added successfully"), w') ∧
    accounts_col w' = accounts_col w ++ [d] ∧
    login_states w' !! 7 = None ∧
    disconnects 0 (trace w') = S (disconnects 0 (trace w)).
Proof.
  intros env w d.
  pose (w1 := (sign_in_with_otp env 0 "+15551234567" "HASH" "54321" w).2).
  pose (w2 := (sign_in_with_password env 0 "hunter2"
                 (set_login_states
                    (<[7 := set_step "waiting_password" st_waiting_otp]> (login_states w1))
                    w1)).2).
  pose (w3 := (get_session_string env 0 w2).2).
  pose (w4 := (insert_one env d w3).2).
  apply (second_factor_login_completes env w 7 "54321" "hunter2" st_waiting_otp 0%nat
           demo_manager "+15551234567" "HASH" "US" None w1 None w2 "CREDENTIAL" w3 w4).
  - reflexivity.
  - reflexivity.
  - reflexivity.
  - reflexivity.
  - reflexivity.
  - reflexivity.
  - exists open_client. reflexivity.
  - reflexivity.
  - reflexivity.
  - reflexivity.
  - discriminate.
  - reflexivity.
Defined.

(** The phone number of user 7 and then a code, on a network that answers. *)
Lemma code_is_checked_against_sent_hash_witness :
  let env := env_login in
  let w := w_fresh in
  ∃ w1,
    pyrogram_login_flow_async env 7 "+15551234567" 7 1 "US" 6435225 "h" w
      = (Ret (true, Some "OTP sent successfully"), w1) ∧
    login_states w1 !! 7 =
      Some (mkState (Some 0%nat) (Some "+15551234567") (Some "HASH") (Some "waiting_otp")
              (Some (mkManager 6435225 "h")) (Some "US") (Some 6435225) (Some "h")) ∧
    connected w1 0 = true ∧
    ∃ rest,
      trace (verify_otp_and_save_async env 7 "54321" w1).2
        = trace w ++ [Connect 0; SendCode 0 "+15551234567";
                      SignIn 0 "+15551234567" "54321" "HASH"] ++ rest.
Proof.
  intros env w.
  apply (code_is_checked_against_sent_hash env w 7 "+15551234567" 7 1 "US" 6435225 "h"
           "HASH" "54321").
  - exists st_fresh. reflexivity.
  - reflexivity.
  - reflexivity.
Defined.

(** bot.py: the phone number of user 7, with a no-break space before it
    and an ideographic space and a blank after it. *)
Lemma bot_phone_step_stores_attempt_witness :
  let env := env_login in
  let w := w_bot_phone in
  let text := no_break_space +:+ "+15551234567" +:+ ideographic_space +:+ " " in
  let r := text_handler env 7 text w in
  user_state r.2 !! 7 = Some (mkUstate "otp" (Some "+15551234567") (Some "HASH")) ∧
  temp_clients r.2 !! 7 = Some 0%nat ∧
  connected r.2 0 = true ∧
  accounts_col r.2 = accounts_col w ∧
  trace r.2 = trace w ++ [Connect 0; SendCode 0 "+15551234567"; Reply otp_sent_text] ∧
  r.1 = match env_unit env (trace r.2) with Some e => Raise e | None => Ret tt end.
Proof.
  intros env w text.
  apply (bot_phone_step_stores_attempt env w 7 text
           (mkUstate "phone" None None) "HASH"); reflexivity.
Defined.

(** bot.py: the phone number of user 7 is met by a flood wait. *)
Lemma bot_phone_step_send_failure_witness :
  let env := env_flood in
  let w := w_bot_phone in
  let e := FloodWait 30 "FLOOD_WAIT_30" in
  let r := text_handler env 7 "+15551234567" w in
  let tr := trace w ++ [Connect 0; SendCode 0 "+15551234567"; Reply (send_failed_text e)] in
  user_state r.2 = user_state w ∧ temp_clients r.2 = temp_clients w ∧
  accounts_col r.2 = accounts_col w ∧
  match env_unit env tr with
  | Some e' => r.1 = Raise e' ∧ trace r.2 = tr
  | None =>
      trace r.2 = tr ++ [Disconnect 0] ∧
      r.1 = unit_outcome env (tr ++ [Disconnect 0])
  end.
Proof.
  intros env w e.
  apply (bot_phone_step_send_failure env w 7 "+15551234567" (mkUstate "phone" None None) e);
    reflexivity.
Defined.

(** bot.py: the code of user 7, sent with a thin space after it, is
    rejected. *)
Lemma bot_rejected_code_raises_witness :
  let env := env_code_rejected in
  let w := w_bot_otp in
  text_handler env 7 ("00000" +:+ thin_space) w
    = (Raise (Error "PHONE_CODE_INVALID"),
       set_trace (trace w ++ [SignIn 0 "+15551234567" "00000" "HASH"]) w).
Proof.
  intros env w.
  apply (bot_rejected_code_raises env w 7 ("00000" +:+ thin_space)
           (mkUstate "otp" (Some "+15551234567") (Some "HASH")) 0%nat "+15551234567" "HASH"
           (Error "PHONE_CODE_INVALID")); try reflexivity.
  intros m. discriminate.
Defined.

(** bot.py: the code of user 7 is met by the request for the second factor. *)
Lemma bot_code_needing_password_witness :
  let env := env_password_needed in
  let w := w_bot_otp in
  let r := text_handler env 7 "54321" w in
  user_state r.2 =
    <[7 := mkUstate "password" (Some "+15551234567") (Some "HASH")]> (user_state w) ∧
  temp_clients r.2 = temp_clients w ∧ accounts_col r.2 = accounts_col w ∧
  heap r.2 = heap w ∧
  trace r.2 = trace w ++ [SignIn 0 "+15551234567" "54321" "HASH";
                          Reply password_wanted_text] ∧
  r.1 = unit_outcome env (trace r.2).
Proof.
  intros env w.
  apply (bot_code_needing_password env w 7 "54321"
           (mkUstate "otp" (Some "+15551234567") (Some "HASH")) 0%nat "+15551234567" "HASH"
           "SESSION_PASSWORD_NEEDED"); reflexivity.
Defined.

(** bot.py: the password of user 7 is accepted, every call succeeding. *)
Lemma bot_verified_step_saves_account_witness :
  let env := env_ok in
  let w := w_bot_password in
  let d := bot_record 7 "+15551234567" "CREDENTIAL" true (now w) in
  let tr := trace w ++ [CheckPassword 0 "hunter2"; ExportSessionString 0; InsertOne d;
                        Disconnect 0] in
  let r := text_handler env 7 "hunter2" w in
  accounts_col r.2 = accounts_col w ++ [d] ∧
  d !! "two_step" = Some (VBool true) ∧
  trace r.2 = tr ++ [Reply account_added_text] ∧
  disconnects 0 (trace r.2) = S (disconnects 0 (trace w)) ∧
  match env_unit env (tr ++ [Reply account_added_text]) with
  | None =>
      r.1 = Ret tt ∧ user_state r.2 = delete 7 (user_state w) ∧
      temp_clients r.2 = delete 7 (temp_clients w)
  | Some e =>
      r.1 = Raise e ∧ user_state r.2 = user_state w ∧ temp_clients r.2 = temp_clients w
  end.
Proof.
  intros env w.
  apply (bot_verified_step_saves_account env w 7 "hunter2"
           (mkUstate "password" (Some "+15551234567") (Some "HASH")) 0%nat "+15551234567"
           "HASH" "CREDENTIAL" true); reflexivity.
Defined.

(** bot.py: the code of user 7 is accepted and the record inserted, but the
    final [disconnect] raises. *)
Lemma bot_save_survives_failed_disconnect_witness :
  let env := env_disconnect_fails in
  let w := w_bot_otp in
  let d := bot_record 7 "+15551234567" "CREDENTIAL" false (now w) in
  let tr := trace w ++ [SignIn 0 "+15551234567" "54321" "HASH"; ExportSessionString 0;
                        InsertOne d; Disconnect 0] in
  let r := text_handler env 7 "54321" w in
  r.1 = Raise (Error "connection lost") ∧ accounts_col r.2 = accounts_col w ++ [d] ∧
  trace r.2 = tr ∧
  user_state r.2 = user_state w ∧ temp_clients r.2 = temp_clients w ∧ heap r.2 = heap w.
Proof.
  intros env w.
  apply (bot_save_survives_failed_disconnect env w 7 "54321"
           (mkUstate "otp" (Some "+15551234567") (Some "HASH")) 0%nat "+15551234567" "HASH"
           "CREDENTIAL" (Error "connection lost")); reflexivity.
Defined.

(** bot.py: user 7 sends the phone number, after a no-break space, and
    then the code, between a blank and a thin space. *)
Lemma bot_login_through_two_texts_witness :
  let env := env_login in
  let w := w_bot_phone in
  let d := bot_record 7 "+15551234567" "CREDENTIAL" false (now w) in
  let calls := [Connect 0; SendCode 0 "+15551234567"; Reply otp_sent_text;
                SignIn 0 "+15551234567" "54321" "HASH"; ExportSessionString 0;
                InsertOne d; Disconnect 0; Reply account_added_text] in
  let phone_text := no_break_space +:+ "+15551234567" in
  let code_text := " 54321" +:+ thin_space in
  let w1 := (text_handler env 7 phone_text w).2 in
  let r := text_handler env 7 code_text w1 in
  r.1 = Ret tt ∧ accounts_col r.2 = accounts_col w ++ [d] ∧
  user_state r.2 !! 7 = None ∧ temp_clients r.2 !! 7 = None ∧
  connected r.2 0 = false ∧ trace r.2 = trace w ++ calls.
Proof.
  intros env w d calls phone_text code_text.
  apply (bot_login_through_two_texts env w 7 phone_text code_text
           (mkUstate "phone" None None) "HASH" "CREDENTIAL"); reflexivity.
Defined.

(** bot.py: user 8 presses the buttons of the phone of user 7. *)
Lemma press_for_unknown_account_is_refused_witness :
  let press := callbacks ascii_digit ascii_word String.string_of_list_ascii str_Z
                 env_ok penv_ok in
  refused env_ok penv_ok 8 "+15551234567" p_saved
    (press 8 "logout_+15551234567" p_saved) ∧
  refused env_ok penv_ok 8 "+15551234567" p_saved
    (press 8 "otp_+15551234567" p_saved).
Proof.
  intros press.
  apply (press_for_unknown_account_is_refused ascii_digit ascii_word
           String.string_of_list_ascii str_Z env_ok penv_ok 8 "+15551234567" p_saved);
    reflexivity.
Defined.


(** bot.py: user 7 asks for the code of the stored account; reading the
    history raises. *)
Lemma otp_fetch_failure_leaves_client_started_witness :
  let penv := penv_history_fails in
  let session := VStr "CREDENTIAL" in
  callbacks ascii_digit ascii_word String.string_of_list_ascii str_Z env_ok penv
    7 "otp_+15551234567" p_saved
  = (Raise (Error "CHANNEL_PRIVATE"),
     mkPanel (bot p_saved)
       [FindOne (owner_phone_query 7 "+15551234567"); Start "otp_fetch" session;
        GetChatHistory "otp_fetch" 777000 20]).
Proof.
  intros penv session.
  apply (otp_fetch_failure_leaves_client_started ascii_digit ascii_word
           String.string_of_list_ascii str_Z env_ok penv 7 "+15551234567" p_saved
           (bot_record 7 "+15551234567" "CREDENTIAL" true 950) session
           (Error "CHANNEL_PRIVATE")); reflexivity.
Defined.

(** bot.py: user 7 asks for the code of the stored account, every call
    succeeding: the code is 54321. *)
Lemma otp_press_reports_latest_code_witness :
  let penv := penv_ok in
  let p := p_saved in
  let r := callbacks ascii_digit ascii_word String.string_of_list_ascii str_Z env_ok penv
             7 "otp_+15551234567" p in
  panel_calls r.2 = [FindOne (owner_phone_query 7 "+15551234567");
                     Start "otp_fetch" (VStr "CREDENTIAL");
                     GetChatHistory "otp_fetch" 777000 20; Stop "otp_fetch"] ∧
  same_stores (bot p) (bot r.2) ∧
  trace (bot r.2) = [Reply (latest_otp_text "+15551234567" "54321" "True")] ∧
  r.1 = unit_outcome env_ok (trace (bot r.2)).
Proof.
  intros penv p.
  apply (otp_press_reports_latest_code ascii_digit ascii_word
           String.string_of_list_ascii str_Z env_ok penv 7 "+15551234567" p
           (bot_record 7 "+15551234567" "CREDENTIAL" true 950) (VStr "CREDENTIAL")
           (VBool true) demo_history); reflexivity.
Defined.

(** bot.py: user 7 lists the accounts: one row, for the one record of
    user 7. *)
Lemma accounts_lists_the_records_of_the_user_witness :
  let tr := [Find [("user_id", VInt 7)];
             ReplyMarkup (total_accounts_text 1)
               [[mkButton "📱 +15551234567" "open_+15551234567"]]] in
  callbacks ascii_digit ascii_word String.string_of_list_ascii str_Z env_ok penv_ok
    7 "accounts" p_saved
  = (panel_outcome penv_ok tr, mkPanel (bot p_saved) tr).
Proof.
  intros tr.
  apply (accounts_lists_the_records_of_the_user ascii_digit ascii_word
           String.string_of_list_ascii str_Z env_ok penv_ok 7 p_saved
           [VStr "+15551234567"]); [reflexivity | discriminate | reflexivity].
Defined.
